(** * USB-Disconnector 2.0: identifier and status normalisation, device
    directory and name-override store.

    A shallow embedding of the decision logic of [USB_Disconnector_2.0.py]:
    [extract_vid_pid], [run_as_admin], [get_device_status], the loop of
    [get_input_devices_by_instance_id_pattern], [load_device_database],
    [save_device_database], [center_window] and the methods of
    [UsbDeviceControllerApp] that select a device, refresh the list, enable
    or disable a device and edit its name.

    Modelling conventions.
    - A Python [str] is a [string] holding its UTF-8 encoding: a character
      below U+0080 is one byte with the code of the character, any other
      character is a sequence of two to four bytes from 128 up. Equality,
      concatenation, emptiness and the order [<=] of two [str] are those of
      their encodings, and a text made of characters below U+0080 occurs in
      a [str] where its bytes occur in the encoding.
    - [str.strip] removes the white space of Unicode ([Py.strip]), and
      [re.IGNORECASE] lets the letter I of a pattern match U+0130 and U+0131
      as well ([match_char]). The program applies [str.upper] to hex digits
      and before the test ["OK" in ...], where only the letters a..z
      matter: [Py.upper] upper-cases these. [str.lower] is the sort key of
      the directory: [Py.lower] lower-cases A..Z, which is [str.lower] on
      text below U+0080, and what is proved of the order for all names takes
      [str.lower] as a parameter ([get_input_devices_sorted]).
    - A [dict] keyed by strings is a [gmap string _], a [set] is a [gset].
    - [None] is [None]; Python truthiness is written out ([truthy]).
    - [json.loads] and [subprocess.run] are not modelled: a function starts
      from the decoded JSON value or from the outcome of the process.
    - Console output and message boxes are recorded as [event]s. *)

From stdpp Require Import gmap strings sorting.
From Stdlib Require Import Ascii DecimalString.


(** ** Characters and the [str] methods the program uses *)

Module Py.

Definition code (c : ascii) : N := N_of_ascii c.

(** [c.isspace()] for a character below U+0080: TAB..CR, FS..US and the
    blank. *)
Definition is_space (c : ascii) : bool :=
  let n := code c in
  ((9 <=? n) && (n <=? 13) || (28 <=? n) && (n <=? 32))%N.

(** The white space encoded in two bytes: U+0085 and U+00A0. *)
Definition is_space2 (c d : ascii) : bool :=
  ((code c =? 194) && ((code d =? 133) || (code d =? 160)))%N.

(** The white space encoded in three bytes: U+1680, U+2000..U+200A,
    U+2028, U+2029, U+202F, U+205F and U+3000. No other character is white
    space. *)
Definition is_space3 (c d e : ascii) : bool :=
  ((code c =? 225) && (code d =? 154) && (code e =? 128)
   || (code c =? 226) && (code d =? 128)
      && ((128 <=? code e) && (code e <=? 138)
          || (code e =? 168) || (code e =? 169) || (code e =? 175))
   || (code c =? 226) && (code d =? 129) && (code e =? 159)
   || (code c =? 227) && (code d =? 128) && (code e =? 128))%N.

Definition is_upper_letter (c : ascii) : bool :=
  let n := code c in ((65 <=? n) && (n <=? 90))%N.

Definition is_lower_letter (c : ascii) : bool :=
  let n := code c in ((97 <=? n) && (n <=? 122))%N.

Definition upper_char (c : ascii) : ascii :=
  if is_lower_letter c then ascii_of_N (code c - 32) else c.

Definition lower_char (c : ascii) : ascii :=
  if is_upper_letter c then ascii_of_N (code c + 32) else c.

Fixpoint map_chars (f : ascii → ascii) (s : string) : string :=
  match s with
  | EmptyString => EmptyString
  | String c t => String (f c) (map_chars f t)
  end.

(** [s.upper()] and [s.lower()] as far as the letters a..z and A..Z go. *)
Definition upper : string → string := map_chars upper_char.
Definition lower : string → string := map_chars lower_char.

(** [s.lstrip()]: the white-space characters at the head are dropped, one
    character of one to three bytes at a time. *)
Fixpoint lstrip (s : string) : string :=
  match s with
  | EmptyString => EmptyString
  | String c t =>
      if is_space c then lstrip t
      else
        match t with
        | String d t2 =>
            if is_space2 c d then lstrip t2
            else
              match t2 with
              | String e t3 => if is_space3 c d e then lstrip t3 else s
              | EmptyString => s
              end
        | EmptyString => s
        end
  end.

(** [s == "" or s.isspace()]: nothing but white space. *)
Definition is_blank (s : string) : bool :=
  match lstrip s with
  | EmptyString => true
  | String _ _ => false
  end.

(** [s.rstrip()]: [s] up to the point after which only white space
    follows. *)
Fixpoint rstrip (s : string) : string :=
  match s with
  | EmptyString => EmptyString
  | String c t => if is_blank s then EmptyString else String c (rstrip t)
  end.

(** [s.strip()]. *)
Definition strip (s : string) : string := rstrip (lstrip s).

(** [s.startswith(p)], returning what follows the prefix. *)
Fixpoint strip_prefix (p s : string) : option string :=
  match p, s with
  | EmptyString, _ => Some s
  | String a p', String b s' =>
      if Ascii.eqb a b then strip_prefix p' s' else None
  | String _ _, EmptyString => None
  end.

(** [p in s]. *)
Fixpoint contains (p s : string) : bool :=
  match strip_prefix p s with
  | Some _ => true
  | None =>
      match s with
      | EmptyString => false
      | String _ t => contains p t
      end
  end.

(** Truth value of an optional string: [None] and [""] are false. *)
Definition truthy (o : option string) : bool :=
  match o with
  | Some (String _ _) => true
  | _ => false
  end.

(** [a or b] on optional strings. *)
Definition por (a b : option string) : option string :=
  if truthy a then a else b.

(** [str(n)] for an [int]. *)
Definition str_of_int (z : Z) : string :=
  NilEmpty.string_of_int (Z.to_int z).

(** [a <= b] on strings: lexicographic on the bytes, which is the order
    of the code points. *)
Definition str_le (a b : string) : bool := String.leb a b.

(** The UTF-8 encoding of the character with code point [n]. *)
Definition byte (n : N) : string := String (ascii_of_N n) EmptyString.

Definition utf8 (n : N) : string :=
  (if n <? 128 then byte n
   else if n <? 2048 then byte (192 + n / 64) +:+ byte (128 + n mod 64)
   else if n <? 65536 then
     byte (224 + n / 4096) +:+ byte (128 + (n / 64) mod 64)
     +:+ byte (128 + n mod 64)
   else
     byte (240 + n / 262144) +:+ byte (128 + (n / 4096) mod 64)
     +:+ byte (128 + (n / 64) mod 64) +:+ byte (128 + n mod 64))%N.

(** [s.isascii()]: every character is below U+0080. *)
Fixpoint is_ascii (s : string) : bool :=
  match s with
  | EmptyString => true
  | String c t => (code c <? 128)%N && is_ascii t
  end.

End Py.

(** ** [extract_vid_pid] *)

(** [[0-9A-Fa-f]] *)
Definition is_hex (c : ascii) : bool :=
  let n := Py.code c in
  ((48 <=? n) && (n <=? 57) || (65 <=? n) && (n <=? 70)
   || (97 <=? n) && (n <=? 102))%N.

(** A letter of the two patterns against a character below U+0080 under
    [re.IGNORECASE]: the two agree up to case. *)
Definition char_ci (p c : ascii) : bool :=
  Ascii.eqb (Py.lower_char p) (Py.lower_char c).

(** A character of the two patterns, [V], [I], [D], [P] or [_], matched
    at the head of [s]; what follows the matched character is returned.
    On a [str] the case folding of [re.IGNORECASE] is that of Unicode, by
    which the letter I also matches U+0130 and U+0131, the bytes 196 176
    and 196 177; the other four match no character from U+0080 up. *)
Definition match_char (p : ascii) (s : string) : option string :=
  match s with
  | String c s' =>
      if char_ci p c then Some s'
      else if char_ci p "I" then
        match s' with
        | String d s'' =>
            if ((Py.code c =? 196)
                && ((Py.code d =? 176) || (Py.code d =? 177)))%N
            then Some s''
            else None
        | EmptyString => None
        end
      else None
  | EmptyString => None
  end.

(** The literal part of the pattern matched at the head of [s]; what
    follows it is returned. *)
Fixpoint match_literal (lit s : string) : option string :=
  match lit with
  | EmptyString => Some s
  | String p lit' =>
      match match_char p s with
      | Some s' => match_literal lit' s'
      | None => None
      end
  end.

(** The group [([0-9A-Fa-f]{4})] matched at the head of [s]. *)
Definition match_hex4 (s : string) : option string :=
  match s with
  | String a (String b (String c (String d _))) =>
      if is_hex a && is_hex b && is_hex c && is_hex d
      then Some (String a (String b (String c (String d EmptyString))))
      else None
  | _ => None
  end.

(** The whole pattern [TAG([0-9A-Fa-f]{4})] anchored at the head of [s];
    the result is [group(1)]. *)
Definition match_here (tag s : string) : option string :=
  match match_literal tag s with
  | Some rest => match_hex4 rest
  | None => None
  end.

(** [re.search(TAG([0-9A-Fa-f]{4}), s, re.IGNORECASE)]: the match at the
    leftmost position where the pattern matches; the result is
    [group(1)] of that match. *)
Fixpoint re_search (tag s : string) : option string :=
  match match_here tag s with
  | Some g => Some g
  | None =>
      match s with
      | EmptyString => None
      | String _ t => re_search tag t
      end
  end.

(** The groups are hex digits, which [Py.upper] upper-cases as
    [str.upper] does. *)
Definition extract_vid_pid (id_string : string)
  : option string * option string :=
  let vid_match := re_search "VID_" id_string in
  let pid_match := re_search "PID_" id_string in
  let vid :=
    match vid_match with Some g => Some (Py.upper g) | None => None end in
  let pid :=
    match pid_match with Some g => Some (Py.upper g) | None => None end in
  (vid, pid).

(** ** [get_device_status] *)

(** The values the three selected properties take in the decoded JSON:
    [null], a boolean, an integer or a string. *)
Inductive jval :=
| JNull
| JBool (b : bool)
| JInt (z : Z)
| JStr (s : string).

(** [str(v)] *)
Definition py_str (v : jval) : string :=
  match v with
  | JNull => "None"
  | JBool true => "True"
  | JBool false => "False"
  | JInt z => Py.str_of_int z
  | JStr s => s
  end.

(** What [json.loads(stdout)] may yield: an object, an array or a scalar. *)
#[warnings="-register-all"] Inductive payload :=
| PDict (d : gmap string jval)
| PList (l : list payload)
| PScalar (v : jval).

Inductive status := enabled | disabled | unknown.

(** [d.get(k, dflt)] *)
Definition dict_get (d : gmap string jval) (k : string) (dflt : jval) : jval :=
  match d !! k with
  | Some v => v
  | None => dflt
  end.

(** The body of the [try] once [device_props] is a [dict]. The text of
    the status is upper-cased for the test ["OK" in status_text] alone,
    and no character but o, O, k and K has an O or a K in its upper
    case. *)
Definition status_of_props (device_props : gmap string jval) : status :=
  let present_status := dict_get device_props "Present" JNull in
  match present_status with
  | JBool false => disabled
  | _ =>
      let config_manager_error_code :=
        Py.strip
          (py_str (dict_get device_props "ConfigManagerErrorCode" (JStr ""))) in
      let status_text :=
        Py.upper
          (Py.strip (py_str (dict_get device_props "Status" (JStr "")))) in
      if String.eqb config_manager_error_code "22" then disabled
      else if String.eqb config_manager_error_code "0" then enabled
      else if Py.contains "OK" status_text then enabled
      else unknown
  end.

(** Diagnostics shown or printed by the program. *)
Inductive exn :=
| JSONDecodeError
| OSError
| UnicodeDecodeError
| AttributeError.

Inductive event :=
| DebugUnexpectedFormat
| ErrorBoxJson
| ErrorBoxStatusData
| DebugCommandOutput
| PrintLoadWarning
| PrintLoadError (e : exn)
| PrintSaveError (e : exn)
| InfoNameUpdated (device_key new_name : string)
| InfoNameRemoved (device_key : string)
| PopulateStarted (old_selected_id : option string)
| StatusCheckStarted (device_id : string).

(** The [try] block on the decoded value: a non-empty list is replaced by
    its first element; [.get] on anything but a [dict] raises
    [AttributeError], which [except Exception] turns into ["unknown"]. *)
Definition status_of_payload (device_props : payload) : status * list event :=
  match device_props with
  | PList (first :: _) =>
      match first with
      | PDict d => (status_of_props d, [])
      | _ => (unknown, [ErrorBoxStatusData])
      end
  | PDict d => (status_of_props d, [])
  | _ => (unknown, [DebugUnexpectedFormat])
  end.

(** [get_device_status] after [run_as_admin]: [loaded] is
    [json.loads(stdout)], [None] when it raises [JSONDecodeError]. *)
Definition get_device_status (returncode : Z) (stdout : string)
    (loaded : option payload) : status * list event :=
  if (returncode =? 0)%Z && Py.truthy (Some stdout) then
    match loaded with
    | Some device_props => status_of_payload device_props
    | None => (unknown, [ErrorBoxJson])
    end
  else (unknown, [DebugCommandOutput]).

(** ** [get_input_devices_by_instance_id_pattern] *)

(** The ["HardwareId"] member of a record: missing, [null], one string or
    an array of strings. *)
Inductive hardware_id_field :=
| HwMissing
| HwNull
| HwStr (s : string)
| HwList (l : list string).

Record dev_info := {
  InstanceId : option string;
  FriendlyName : option string;
  DeviceDescription : option string;
  HardwareId : hardware_id_field
}.

(** An element of [devices_list]. *)
Record device := {
  display_name : string;
  id : string;
  hardware_id : option (list string);
  vid_pid_key : option string;
  full_info : dev_info
}.

(** [dev_info.get("HardwareId", [])] followed by the wrapping of a single
    string in a list. *)
Definition hardware_ids_of (h : hardware_id_field) : option (list string) :=
  match h with
  | HwMissing => Some []
  | HwNull => None
  | HwStr s => Some [s]
  | HwList l => Some l
  end.

(** [vid and pid] *)
Definition both (vp : option string * option string) : bool :=
  Py.truthy vp.1 && Py.truthy vp.2.

(** The [for hwid_entry in hardware_ids] loop with its [break]. *)
Fixpoint hwid_loop (vp : option string * option string)
    (hardware_ids : list string) : option string * option string :=
  match hardware_ids with
  | [] => vp
  | hwid_entry :: rest =>
      let vp' := extract_vid_pid hwid_entry in
      if both vp' then vp' else hwid_loop vp' rest
  end.

Definition find_vid_pid (instance_id : option string)
    (hardware_ids : option (list string)) : option string * option string :=
  let vp := (None, None) in
  let vp :=
    match instance_id with
    | Some (String _ _ as i) => extract_vid_pid i
    | _ => vp
    end in
  match hardware_ids with
  | Some ((_ :: _) as hws) => if negb (both vp) then hwid_loop vp hws else vp
  | _ => vp
  end.

(** [f"{x}"] for a value that is a string or [None]. *)
Definition fstr (x : option string) : string :=
  match x with
  | Some s => s
  | None => "None"
  end.

(** [f"{vid}:{pid}" if (vid and pid) else None] *)
Definition device_key_of (vp : option string * option string)
  : option string :=
  if both vp then Some (fstr vp.1 +:+ ":" +:+ fstr vp.2) else None.

(** [final_display_name] as it stands before the [if instance_id:] test. *)
Definition final_display_name (device_database : gmap string string)
    (dev : dev_info) (device_key : option string) : option string :=
  let custom_name :=
    match device_key with
    | Some k => device_database !! k
    | None => None
    end in
  let name :=
    if Py.truthy custom_name then custom_name
    else Py.por (Py.por (FriendlyName dev) (DeviceDescription dev))
           (InstanceId dev) in
  match device_key with
  | Some k => Some (fstr name +:+ " [" +:+ k +:+ "]")
  | None => name
  end.

(** One record past the duplicate test: the element appended to
    [devices_list], if any. The name is a string whenever [instance_id] is
    true (see [make_device_is_Some]). *)
Definition make_device (device_database : gmap string string)
    (dev : dev_info) : option device :=
  let instance_id := InstanceId dev in
  let hardware_ids := hardware_ids_of (HardwareId dev) in
  let device_key := device_key_of (find_vid_pid instance_id hardware_ids) in
  match instance_id, final_display_name device_database dev device_key with
  | Some (String _ _ as i), Some name =>
      Some {| display_name := name; id := i; hardware_id := hardware_ids;
              vid_pid_key := device_key; full_info := dev |}
  | _, _ => None
  end.

(** One iteration of [for dev_info in json_data], on the pair
    [(devices_list, seen_ids)]. *)
Definition loop_body (device_database : gmap string string)
    (st : list device * gset (option string)) (dev : dev_info)
  : list device * gset (option string) :=
  let '(devices_list, seen_ids) := st in
  let instance_id := InstanceId dev in
  if decide (instance_id ∈ seen_ids) then st
  else
    let seen_ids := {[instance_id]} ∪ seen_ids in
    match make_device device_database dev with
    | Some d => ((devices_list ++ [d])%list, seen_ids)
    | None => (devices_list, seen_ids)
    end.

Definition collect (device_database : gmap string string)
    (json_data : list dev_info) : list device :=
  (fold_left (loop_body device_database) json_data ([], ∅)).1.

(** [list.sort(key=...)]: a stable sort comparing keys with [<]; an
    element goes before the first one whose key is not smaller. *)
Section Sort.
Context {A : Type} (key : A → string).

Fixpoint insert_by (x : A) (l : list A) : list A :=
  match l with
  | [] => [x]
  | y :: l' =>
      if Py.str_le (key x) (key y) then x :: l else y :: insert_by x l'
  end.

Definition list_sort (l : list A) : list A := foldr insert_by [] l.

End Sort.

(** [x["display_name"].lower()], the key of the sort, for display names
    of characters below U+0080. *)
Definition sort_key (x : device) : string := Py.lower (display_name x).

(** The key of the sort for any display name, [str_lower] being
    [str.lower]. *)
Definition sort_key_by (str_lower : string → string) (x : device) : string :=
  str_lower (display_name x).

(** What the PowerShell call produced, as far as the function looks at it:
    a failure, no output, text that is not JSON, one object or an array. *)
Inductive ps_output :=
| PsFailed
| PsEmpty
| PsUndecodable
| PsObject (d : dev_info)
| PsArray (l : list dev_info).

(** [devices_list] when the sort is reached. *)
Definition devices_before_sort (device_database : gmap string string)
    (out : ps_output) : list device :=
  match out with
  | PsArray json_data => collect device_database json_data
  | PsObject d => collect device_database [d]
  | _ => []
  end.

(** The list returned, sorted on the lower-cased display names. With
    [sort_key] its order is that of the program when the display names
    have no character from U+0080 up; its entries are those of the program
    in any case. *)
Definition get_input_devices_by_instance_id_pattern
    (device_database : gmap string string) (out : ps_output) : list device :=
  list_sort sort_key (devices_before_sort device_database out).

(** The list returned for any display names, [str_lower] being
    [str.lower]. *)
Definition get_input_devices_sorted (str_lower : string → string)
    (device_database : gmap string string) (out : ps_output) : list device :=
  list_sort (sort_key_by str_lower) (devices_before_sort device_database out).

(** ** The name database on disk *)

(** Outcome of a call that may raise. *)
Inductive result (A : Type) :=
| Ok (a : A)
| Raise (e : exn).
Arguments Ok {A} a.
Arguments Raise {A} e.

(** How writing the file fails, when it does: opening it for writing
    raises and the file is untouched, or the dump raises after the file
    was opened, and so emptied; [remains] is then what reading the file gives
    afterwards. *)
Inductive write_fault_kind :=
| OpenFails (e : exn)
| DumpFails (e : exn) (remains : result (gmap string string)).

Definition fault_exn (w : write_fault_kind) : exn :=
  match w with
  | OpenFails e => e
  | DumpFails e _ => e
  end.

(** [device_names.json] as the two functions see it. [db_file] is [None]
    when the file does not exist; otherwise it is what opening and decoding
    it gives: the decoded object, or the exception raised. [write_fault]
    says how writing the file fails, if it does. *)
Record disk := {
  db_file : option (result (gmap string string));
  write_fault : option write_fault_kind
}.

(** [os.path.exists(DEVICE_DATABASE_FILE)] *)
Definition os_path_exists (fs : disk) : bool :=
  match db_file fs with
  | Some _ => true
  | None => false
  end.

(** [with open(DEVICE_DATABASE_FILE, 'r', ...) as f: json.load(f)] *)
Definition open_and_load (fs : disk) : result (gmap string string) :=
  match db_file fs with
  | Some r => r
  | None => Raise OSError
  end.

Definition load_device_database (fs : disk)
  : result (gmap string string) * list event :=
  if os_path_exists fs then
    match open_and_load fs with
    | Ok db => (Ok db, [])
    | Raise JSONDecodeError => (Ok ∅, [PrintLoadWarning])
    | Raise e => (Ok ∅, [PrintLoadError e])
    end
  else (Ok ∅, []).

(** [with open(DEVICE_DATABASE_FILE, 'w', ...) as f: json.dump(db, f, ...)]:
    what the block returns or raises, and the disk afterwards. *)
Definition open_and_dump (db : gmap string string) (fs : disk)
  : result unit * disk :=
  match write_fault fs with
  | None => (Ok tt, {| db_file := Some (Ok db); write_fault := None |})
  | Some (OpenFails e) => (Raise e, fs)
  | Some (DumpFails e remains) =>
      (Raise e, {| db_file := Some remains; write_fault := write_fault fs |})
  end.

(** The [try] around the dump: an exception is printed and not raised
    again. The result is what the call returns or raises, the disk
    afterwards and what was printed. *)
Definition save_device_database (db : gmap string string) (fs : disk)
  : result unit * disk * list event :=
  match open_and_dump db fs with
  | (Ok _, fs') => (Ok tt, fs', [])
  | (Raise e, fs') => (Ok tt, fs', [PrintSaveError e])
  end.

(** ** [UsbDeviceControllerApp] *)

Inductive combobox_text :=
| ComboName (display_name : string)
| ComboNoDevices.

Inductive status_label :=
| StatusUnknown
| StatusRefreshing
| StatusNotSelected.

Inductive indicator := Gray | Orange.

Record UsbDeviceControllerApp := {
  device_db : gmap string string;
  available_devices : list device;
  current_selected_device_id : option string;
  device_combobox : combobox_text;
  status_label_text : status_label;
  status_indicator : indicator;
  buttons_enabled : bool
}.

Definition set_buttons (b : bool) (a : UsbDeviceControllerApp)
  : UsbDeviceControllerApp :=
  {| device_db := device_db a; available_devices := available_devices a;
     current_selected_device_id := current_selected_device_id a;
     device_combobox := device_combobox a;
     status_label_text := status_label_text a;
     status_indicator := status_indicator a; buttons_enabled := b |}.

Definition enable_buttons : UsbDeviceControllerApp → UsbDeviceControllerApp :=
  set_buttons true.

Definition disable_buttons : UsbDeviceControllerApp → UsbDeviceControllerApp :=
  set_buttons false.

Definition set_status (l : status_label) (c : indicator)
    (a : UsbDeviceControllerApp) : UsbDeviceControllerApp :=
  {| device_db := device_db a; available_devices := available_devices a;
     current_selected_device_id := current_selected_device_id a;
     device_combobox := device_combobox a;
     status_label_text := l; status_indicator := c;
     buttons_enabled := buttons_enabled a |}.

Definition set_selection (c : combobox_text) (sel : option string)
    (a : UsbDeviceControllerApp) : UsbDeviceControllerApp :=
  {| device_db := device_db a; available_devices := available_devices a;
     current_selected_device_id := sel; device_combobox := c;
     status_label_text := status_label_text a;
     status_indicator := status_indicator a;
     buttons_enabled := buttons_enabled a |}.

Definition set_device_db (db : gmap string string)
    (a : UsbDeviceControllerApp) : UsbDeviceControllerApp :=
  {| device_db := db; available_devices := available_devices a;
     current_selected_device_id := current_selected_device_id a;
     device_combobox := device_combobox a;
     status_label_text := status_label_text a;
     status_indicator := status_indicator a;
     buttons_enabled := buttons_enabled a |}.

Definition update_selected_device_status (a : UsbDeviceControllerApp)
  : UsbDeviceControllerApp * list event :=
  match current_selected_device_id a with
  | Some (String _ _ as i) =>
      (disable_buttons (set_status StatusRefreshing Orange a),
       [StatusCheckStarted i])
  | _ => (disable_buttons (set_status StatusNotSelected Gray a), [])
  end.

(** [dev["id"] == old_selected_id] *)
Definition has_id (old_selected_id : string) (dev : device) : bool :=
  String.eqb (id dev) old_selected_id.

(** The branch taken when no device can be selected. *)
Definition select_none (a : UsbDeviceControllerApp)
  : UsbDeviceControllerApp * list event :=
  (disable_buttons
     (set_status StatusNotSelected Gray (set_selection ComboNoDevices None a)),
   []).

(** The branch taken when [dev] is selected. *)
Definition select_dev (dev : device) (a : UsbDeviceControllerApp)
  : UsbDeviceControllerApp * list event :=
  let a := set_selection (ComboName (display_name dev)) (Some (id dev)) a in
  let '(a, evs) := update_selected_device_status a in
  (enable_buttons a, evs).

Definition _update_populate_gui (old_selected_id : option string)
    (a : UsbDeviceControllerApp) : UsbDeviceControllerApp * list event :=
  let devs := available_devices a in
  match old_selected_id with
  | Some (String _ _ as old) =>
      if existsb (has_id old) devs then
        match List.find (has_id old) devs with
        | Some selected_dev => select_dev selected_dev a
        | None => select_none a
        end
      else
        match devs with
        | first :: _ => select_dev first a
        | [] => select_none a
        end
  | _ =>
      match devs with
      | first :: _ => select_dev first a
      | [] => select_none a
      end
  end.

(** [_perform_populate_devices_async], the worker of a refresh, up to the
    point where it schedules [_update_populate_gui]: [out] is what the
    PowerShell call gave. *)
Definition _perform_populate_devices_async
    (device_database : gmap string string) (out : ps_output)
    (a : UsbDeviceControllerApp) : UsbDeviceControllerApp :=
  {| device_db := device_db a;
     available_devices :=
       get_input_devices_by_instance_id_pattern device_database out;
     current_selected_device_id := current_selected_device_id a;
     device_combobox := device_combobox a;
     status_label_text := status_label_text a;
     status_indicator := status_indicator a;
     buttons_enabled := buttons_enabled a |}.

(** [populate_devices]: the refresh runs on a worker thread; here only its
    start is recorded. *)
Definition populate_devices (a : UsbDeviceControllerApp) : list event :=
  [PopulateStarted (current_selected_device_id a)].

(** What a call of an editing method leaves behind: what it returns or
    raises, the application and the disk afterwards, and what was shown or
    printed. *)
Record outcome := {
  ret : result unit;
  app_after : UsbDeviceControllerApp;
  disk_after : disk;
  shown : list event
}.

(** The two branches of [_save_custom_name] that change the database end
    alike: save, then refresh. An exception raised by the save would
    leave the method before the refresh. *)
Definition save_and_refresh (note : event) (a : UsbDeviceControllerApp)
    (fs : disk) : outcome :=
  match save_device_database (device_db a) fs with
  | (Ok _, fs, evs) =>
      {| ret := Ok tt; app_after := a; disk_after := fs;
         shown := (note :: evs ++ populate_devices a)%list |}
  | (Raise e, fs, evs) =>
      {| ret := Raise e; app_after := a; disk_after := fs;
         shown := (note :: evs)%list |}
  end.

Definition _save_custom_name (new_name device_key : string)
    (a : UsbDeviceControllerApp) (fs : disk) : outcome :=
  match new_name with
  | String _ _ =>
      let a := set_device_db (<[device_key := new_name]> (device_db a)) a in
      save_and_refresh (InfoNameUpdated device_key new_name) a fs
  | EmptyString =>
      if decide (is_Some (device_db a !! device_key)) then
        let a := set_device_db (delete device_key (device_db a)) a in
        save_and_refresh (InfoNameRemoved device_key) a fs
      else {| ret := Ok tt; app_after := a; disk_after := fs; shown := [] |}
  end.

(** [save_and_close], the handler of the dialog's save button: [text] is
    the content of the entry field. *)
Definition save_and_close (text device_key : string)
    (a : UsbDeviceControllerApp) (fs : disk) : outcome :=
  let new_name := Py.strip text in
  _save_custom_name new_name device_key a fs.

(** ** The operations as the specification words them *)

(** The characters that [str.strip()] removes, those for which
    [str.isspace()] holds: their code points and their encodings. *)
Definition white_space_code_points : list N :=
  [9; 10; 11; 12; 13; 28; 29; 30; 31; 32; 133; 160; 5760;
   8192; 8193; 8194; 8195; 8196; 8197; 8198; 8199; 8200; 8201; 8202;
   8232; 8233; 8239; 8287; 12288]%N.

Definition white_space : list string := Py.utf8 <$> white_space_code_points.

(** A text of white space only. *)
Inductive blank : string → Prop :=
| blank_nil : blank ""
| blank_cons w s : w ∈ white_space → blank s → blank (w +:+ s).

(** [v] is [text] trimmed: [text] without the white space at its two
    ends. *)
Definition trimmed (text v : string) : Prop :=
  ∃ l r, text = l +:+ v +:+ r ∧ blank l ∧ blank r
    ∧ (∀ w x, w ∈ white_space → v ≠ w +:+ x)
    ∧ (∀ w x, w ∈ white_space → v ≠ x +:+ w).

(** The text without the white-space character at its head, when it has
    one. *)
Definition drop_space (s : string) : option string :=
  match s with
  | String c t =>
      if Py.is_space c then Some t
      else
        match t with
        | String d t2 =>
            if Py.is_space2 c d then Some t2
            else
              match t2 with
              | String e t3 => if Py.is_space3 c d e then Some t3 else None
              | EmptyString => None
              end
        | EmptyString => None
        end
  | EmptyString => None
  end.

(** A character below U+0080 that is not white space, and a text of such
    characters. *)
Definition plain (c : ascii) : bool :=
  negb (Py.is_space c) && (Py.code c <? 128)%N.

Fixpoint all_plain (s : string) : bool :=
  match s with
  | EmptyString => true
  | String c t => plain c && all_plain t
  end.

(** The first byte of the encoding of a white-space character, and a
    text without such a byte. *)
Definition lead (c : ascii) : bool :=
  Py.is_space c || (194 <=? Py.code c)%N.

Fixpoint no_lead (s : string) : bool :=
  match s with
  | EmptyString => true
  | String c t => negb (lead c) && no_lead t
  end.

(** A letter of A..Z or a..z, and a text without such a letter. *)
Definition letter (c : ascii) : bool :=
  Py.is_upper_letter c || Py.is_lower_letter c.

Fixpoint no_letter (s : string) : bool :=
  match s with
  | EmptyString => true
  | String c t => negb (letter c) && no_letter t
  end.

(** [classifyStatus]: the field is there and is [v] once trimmed. *)
Definition trimmed_is (field : option string) (v : string) : Prop :=
  ∃ s, field = Some s ∧ trimmed s v.

(** "OK" occurs in [m], in any case. *)
Definition mentions_ok (m : string) : Prop :=
  ∃ a o k b, m = a +:+ String o (String k b)
    ∧ (o = "O" ∨ o = "o")%char ∧ (k = "K" ∨ k = "k")%char.

(** The status text is there and, trimmed, contains "OK" in any case. *)
Definition says_ok (statusText : option string) : Prop :=
  ∃ s m, statusText = Some s ∧ trimmed s m ∧ mentions_ok m.

(** The five rules in order, the first that applies giving the result. *)
Definition classifyStatus (present : option bool)
    (errorCode statusText : option string) (result : status) : Prop :=
  match present with
  | Some false => result = disabled
  | _ =>
      (trimmed_is errorCode "22" ∧ result = disabled)
      ∨ (¬ trimmed_is errorCode "22" ∧ trimmed_is errorCode "0"
         ∧ result = enabled)
      ∨ (¬ trimmed_is errorCode "22" ∧ ¬ trimmed_is errorCode "0"
         ∧ says_ok statusText ∧ result = enabled)
      ∨ (¬ trimmed_is errorCode "22" ∧ ¬ trimmed_is errorCode "0"
         ∧ ¬ says_ok statusText ∧ result = unknown)
  end.

(** The status payload carrying the three fields. An absent field is
    either left out of the object or present as [null] ([nulls]). *)
Definition put_field (k : string) (nulls : bool) (v : option jval)
    (d : gmap string jval) : gmap string jval :=
  match v with
  | Some x => <[k := x]> d
  | None => if nulls then <[k := JNull]> d else d
  end.

Definition props_of (nulls : bool) (present : option bool)
    (errorCode statusText : option string) : gmap string jval :=
  put_field "Present" nulls (JBool <$> present)
    (put_field "ConfigManagerErrorCode" nulls (JStr <$> errorCode)
       (put_field "Status" nulls (JStr <$> statusText) ∅)).

(** The forms in which a character of a tag counts as written "in any
    case": the letter in its two cases, and for the letter I also U+0130
    (capital I with dot) and U+0131 (small dotless i), whose lower and
    upper case is the letter I. *)
Definition case_forms (p : ascii) : list string :=
  if Ascii.eqb p "V" then ["V"; "v"]
  else if Ascii.eqb p "I" then ["I"; "i"; Py.utf8 304; Py.utf8 305]
  else if Ascii.eqb p "D" then ["D"; "d"]
  else if Ascii.eqb p "P" then ["P"; "p"]
  else [String p EmptyString].

(** The tag in any case: every way of writing it. *)
Fixpoint variants (tag : string) : list string :=
  match tag with
  | EmptyString => [""]
  | String p tag' => v ← case_forms p; (λ t, v +:+ t) <$> variants tag'
  end.

(** The tags are made of these characters. *)
Definition pattern_letter (p : ascii) : bool :=
  Ascii.eqb p "V" || Ascii.eqb p "I" || Ascii.eqb p "D" || Ascii.eqb p "P"
  || Ascii.eqb p "_".

Fixpoint pattern_tag (tag : string) : bool :=
  match tag with
  | EmptyString => true
  | String p tag' => pattern_letter p && pattern_tag tag'
  end.

(** Two characters that are equal or one letter of A..Z in its two
    cases, and two texts that are so character by character. *)
Definition same_letter (a b : ascii) : bool :=
  Ascii.eqb a b
  || Py.is_upper_letter a && (Py.code b =? Py.code a + 32)%N
  || Py.is_upper_letter b && (Py.code a =? Py.code b + 32)%N.

Fixpoint same_letters (s1 s2 : string) : bool :=
  match s1, s2 with
  | EmptyString, EmptyString => true
  | String a s1', String b s2' => same_letter a b && same_letters s1' s2'
  | _, _ => false
  end.

(** [extractKey]: an occurrence of the tag, in any case, at offset
    [|pre|] of [s], followed by the four hex digits [g]. *)
Fixpoint all_hex (s : string) : bool :=
  match s with
  | EmptyString => true
  | String c t => is_hex c && all_hex t
  end.

Definition occurs (tag s pre g : string) : Prop :=
  ∃ t rest, s = pre +:+ t +:+ g +:+ rest
    ∧ t ∈ variants tag
    ∧ String.length g = 4
    ∧ all_hex g = true.

(** [g] are the four digits of the leftmost such occurrence. *)
Definition leftmost (tag s g : string) : Prop :=
  ∃ pre, occurs tag s pre g
    ∧ ∀ pre' g', occurs tag s pre' g' → String.length pre ≤ String.length pre'.

(** Length of the run of hex digits at the head of [s]. *)
Fixpoint hex_run (s : string) : nat :=
  match s with
  | EmptyString => 0
  | String c t => if is_hex c then S (hex_run t) else 0
  end.

(** The lengths of the hex digit runs that follow the occurrences of the
    tag in [s], from left to right. *)
Fixpoint tag_runs (tag s : string) : list nat :=
  let here :=
    omap (λ v, hex_run <$> Py.strip_prefix v s) (variants tag) in
  match s with
  | EmptyString => here
  | String _ t => (here ++ tag_runs tag t)%list
  end.

(** The reading of [extractKey] with runs of exactly four digits. *)
Definition extractKey_exactly4 (s : string) : Prop :=
  both (extract_vid_pid s) = true
  ↔ 4 ∈ tag_runs "VID_" s ∧ 4 ∈ tag_runs "PID_" s.

(** [extractKey]: the pair if both ids were found, else none. *)
Definition extractKey (identifier : string) : option (string * string) :=
  match extract_vid_pid identifier with
  | (Some vid, Some pid) => Some (vid, pid)
  | _ => None
  end.

(** The first identifier of the list, in order, that yields a pair. *)
Fixpoint first_key (identifiers : list string) : option (string * string) :=
  match identifiers with
  | [] => None
  | i :: rest =>
      match extractKey i with
      | Some k => Some k
      | None => first_key rest
      end
  end.

(** The string form ["VID:PID"] of a key. *)
Definition key_string (k : string * string) : string :=
  k.1 +:+ ":" +:+ k.2.

(** The identifiers of a record in the order of the derivation: the
    instance identifier, then the hardware identifiers as listed. *)
Definition identifiers (dev : dev_info) : list string :=
  (match InstanceId dev with Some i => [i] | None => [] end
   ++ match hardware_ids_of (HardwareId dev) with Some l => l | None => [] end)%list.

(** [displayName]: the first name available among the override, the
    friendly name, the description and the instance identifier, followed
    by the key in brackets when there is one. A name that is missing or
    empty is not available. *)
Definition available (name : option string) : option string :=
  match name with
  | Some (String _ _) => name
  | _ => None
  end.

Definition displayName (override friendlyName description : option string)
    (instanceId : string) (key : option string) : string :=
  let base :=
    match available override, available friendlyName, available description with
    | Some n, _, _ => n
    | None, Some n, _ => n
    | None, None, Some n => n
    | None, None, None => instanceId
    end in
  match key with
  | Some k => base +:+ " [" +:+ k +:+ "]"
  | None => base
  end.

(** [buildDirectory], deduplication: a record is a first occurrence when
    its instance identifier is not that of a record before it. [before]
    are the records already passed. *)
Fixpoint first_occurrences (before l : list dev_info) : list dev_info :=
  match l with
  | [] => []
  | r :: rest =>
      ((if bool_decide (InstanceId r ∈ InstanceId <$> before) then [] else [r])
       ++ first_occurrences (before ++ [r]) rest)%list
  end.

(** The order of the directory: display names compared without regard to
    case. On names of characters below U+0080 this is the comparison
    character by character, a letter A..Z counting as the letter a..z. *)
Definition fold_case (c : ascii) : N :=
  let n := Py.code c in
  if ((65 <=? n) && (n <=? 90))%N then (n + 32)%N else n.

Fixpoint ci_le (a b : string) : bool :=
  match a, b with
  | EmptyString, _ => true
  | String _ _, EmptyString => false
  | String x a', String y b' =>
      match (fold_case x ?= fold_case y)%N with
      | Lt => true
      | Gt => false
      | Eq => ci_le a' b'
      end
  end.

Definition name_le (a b : device) : Prop :=
  ci_le (display_name a) (display_name b) = true.

(** [displayName] with every name that is present taken as it is. *)
Definition displayName_as_given (override friendlyName description : option string)
    (instanceId : string) (key : option string) : string :=
  let base :=
    match override, friendlyName, description with
    | Some n, _, _ => n
    | None, Some n, _ => n
    | None, None, Some n => n
    | None, None, None => instanceId
    end in
  match key with
  | Some k => base +:+ " [" +:+ k +:+ "]"
  | None => base
  end.

(** The reading of the deduplication on which two records with one
    instance identifier always leave exactly one entry. *)
Definition two_sharing_yield_one (device_database : gmap string string)
    (r1 r2 : dev_info) : Prop :=
  InstanceId r1 = InstanceId r2
  → length (get_input_devices_by_instance_id_pattern device_database
              (PsArray [r1; r2])) = 1.

(** Records used in the examples. *)
Definition mouse_x : dev_info :=
  {| InstanceId := Some "USB\VID_1234&PID_ABCD\0";
     FriendlyName := Some "Mouse X";
     DeviceDescription := None;
     HardwareId := HwMissing |}.

Definition named (instance_id name : string) : dev_info :=
  {| InstanceId := Some instance_id;
     FriendlyName := Some name;
     DeviceDescription := None;
     HardwareId := HwMissing |}.

Definition no_instance_id : dev_info :=
  {| InstanceId := Some "";
     FriendlyName := Some "Keyboard";
     DeviceDescription := None;
     HardwareId := HwMissing |}.

(** [setOverride] is [save_and_close]. Two readings of it that the
    program does not follow: the name is stored as given, and a failed
    save undoes the change and is reported to the caller. *)
Definition stores_given_name (a : UsbDeviceControllerApp) (fs : disk)
    (key name : string) : Prop :=
  Py.strip name ≠ ""
  → device_db (app_after (save_and_close name key a fs)) !! key = Some name.

Definition rolls_back_on_failure (a : UsbDeviceControllerApp) (fs : disk)
    (key name : string) : Prop :=
  ∀ e, (open_and_dump (device_db (app_after (save_and_close name key a fs))) fs).1
        = Raise e
       → device_db (app_after (save_and_close name key a fs)) = device_db a
         ∧ ret (save_and_close name key a fs) = Raise e.

(** A sequence of edits, each a pair of the text entered and the key. *)
Fixpoint edits (ops : list (string * string)) (a : UsbDeviceControllerApp)
    (fs : disk) : UsbDeviceControllerApp * disk :=
  match ops with
  | [] => (a, fs)
  | (text, key) :: rest =>
      let o := save_and_close text key a fs in
      edits rest (app_after o) (disk_after o)
  end.

(** No key maps to the empty name. *)
Definition no_empty_value (db : gmap string string) : Prop :=
  ∀ k v, db !! k = Some v → v ≠ "".

(** An application holding [db], with nothing enumerated or selected. *)
Definition app_with (db : gmap string string) : UsbDeviceControllerApp :=
  {| device_db := db; available_devices := [];
     current_selected_device_id := None; device_combobox := ComboNoDevices;
     status_label_text := StatusUnknown; status_indicator := Gray;
     buttons_enabled := false |}.

(** A disk that takes writes, and one that refuses them. *)
Definition writable (fs : disk) : disk :=
  {| db_file := db_file fs; write_fault := None |}.

Definition read_only (fs : disk) (e : exn) : disk :=
  {| db_file := db_file fs; write_fault := Some (OpenFails e) |}.

Definition no_file : disk := {| db_file := None; write_fault := None |}.

(** [selectDevice]: the entry with the previous instance identifier if
    there is one, else the first entry, else none. *)
Definition selectDevice (directory : list device)
    (previousInstanceId : option string) : option device :=
  match previousInstanceId
        ≫= (λ p, List.find (λ d, bool_decide (id d = p)) directory) with
  | Some d => Some d
  | None => head directory
  end.

(** The state after [_update_populate_gui], in terms of the entry it
    selects. *)
Definition shows (sel : option device) (a a' : UsbDeviceControllerApp) : Prop :=
  current_selected_device_id a' = id <$> sel
  ∧ device_combobox a'
    = match sel with
      | Some d => ComboName (display_name d)
      | None => ComboNoDevices
      end
  ∧ available_devices a' = available_devices a
  ∧ device_db a' = device_db a.

(** The order [list.sort] sorts by: keys compared with [<=]. *)
Definition key_le {A : Type} (key : A → string) (a b : A) : Prop :=
  Py.str_le (key a) (key b) = true.

(** ** Further functions of the program *)

(** *** [run_as_admin], the branch taken by an administrator *)

(** What [subprocess.run(..., check=True)] does: the process runs and
    exits, the executable is not found, or something else is raised. With
    [check=True] a non-zero exit is raised as [CalledProcessError], which
    carries the exit code and the captured output. *)
Inductive proc_outcome :=
| Exited (returncode : Z) (stdout stderr : string)
| RaisesFileNotFound
| RaisesOther.

(** The second component of the result: text of the process, or one of
    the fixed messages of the function. *)
Inductive message :=
| Verbatim (s : string)
| UnknownError
| ProgramNotFound
| UnexpectedError.

(** [e.stderr if e.stderr else "Nieznany blad."] *)
Definition stderr_or_unknown (stderr : string) : message :=
  if Py.truthy (Some stderr) then Verbatim stderr else UnknownError.

(** [use_powershell=False]: no temporary file, so in the handler of
    [CalledProcessError] [stdout_from_temp] stays empty. *)
Definition run_as_admin_direct (p : proc_outcome) : string * message * Z :=
  match p with
  | Exited returncode stdout stderr =>
      if (returncode =? 0)%Z then (stdout, Verbatim stderr, returncode)
      else ("", stderr_or_unknown stderr, returncode)
  | RaisesFileNotFound => ("", ProgramNotFound, (-1)%Z)
  | RaisesOther => ("", UnexpectedError, (-1)%Z)
  end.

(** [use_powershell=True]: what happens around the process. Creating
    the temporary file works or raises; when the process is over the file
    is gone or still there; reading a file that is there gives its text
    or raises; removing it works or raises. *)
Inductive temp_creation :=
| Created
| CreationRaisesFileNotFound
| CreationRaisesOther.

Inductive temp_file :=
| Gone
| Present (text : option string) (removable : bool).

Record powershell_run := {
  creation : temp_creation;
  proc : proc_outcome;
  temp_after : temp_file
}.

(** The [finally] block: whether the temporary file is still there
    afterwards. *)
Definition left_after_cleanup (t : temp_file) : bool :=
  match t with
  | Gone => false
  | Present _ removable => negb removable
  end.

(** The result, and whether the temporary file is still there when the
    function has returned. Opening a file that is gone raises
    [FileNotFoundError]; any other failure to read is caught by
    [except Exception]. *)
Definition run_as_admin_powershell (r : powershell_run)
  : string * message * Z * bool :=
  match creation r with
  | Created =>
      let left_behind := left_after_cleanup (temp_after r) in
      match proc r with
      | Exited returncode _ stderr =>
          if (returncode =? 0)%Z then
            match temp_after r with
            | Present (Some stdout_content) _ =>
                (stdout_content, Verbatim stderr, returncode, left_behind)
            | Present None _ => ("", UnexpectedError, (-1)%Z, left_behind)
            | Gone => ("", ProgramNotFound, (-1)%Z, left_behind)
            end
          else
            let stdout_from_temp :=
              match temp_after r with
              | Present (Some s) _ => s
              | _ => ""
              end in
            (stdout_from_temp, stderr_or_unknown stderr, returncode,
             left_behind)
      | RaisesFileNotFound => ("", ProgramNotFound, (-1)%Z, left_behind)
      | RaisesOther => ("", UnexpectedError, (-1)%Z, left_behind)
      end
  | CreationRaisesFileNotFound => ("", ProgramNotFound, (-1)%Z, false)
  | CreationRaisesOther => ("", UnexpectedError, (-1)%Z, false)
  end.

(** [get_device_status] with the call of [run_as_admin] it starts with;
    [json_loads] is [json.loads], [None] where it raises. *)
Definition get_device_status_of_run (json_loads : string → option payload)
    (r : powershell_run) : status * list event :=
  let '(stdout, _, returncode, _) := run_as_admin_powershell r in
  get_device_status returncode stdout (json_loads stdout).

(** Whether a message is the empty text. *)
Definition is_empty_message (m : message) : bool :=
  match m with
  | Verbatim "" => true
  | _ => false
  end.

(** *** Enabling and disabling the selected device *)

(** What the toggling methods show and do, in order. *)
Inductive toggle_event :=
| Ran (command : list string)
| InfoSuccess (action device_id : string) (details : option string)
| ErrorOperation (action device_id : string) (returncode : Z)
    (stdout : option string) (stderr : option message)
| WarnNothingSelected (action : string)
| Refresh (e : event).

(** [x.strip()] appended to a message under [if x:]. *)
Definition stripped_if_any (x : string) : option string :=
  if Py.truthy (Some x) then Some (Py.strip x) else None.

Definition message_if_any (m : message) : option message :=
  match m with
  | Verbatim s => if Py.truthy (Some s) then Some (Verbatim (Py.strip s)) else None
  | _ => Some m
  end.

Section Toggle.

(** The operating system, as far as [subprocess.run] shows it. *)
Context (subprocess_run : list string → proc_outcome).

Definition toggle_device_status (device_id action : string)
    (a : UsbDeviceControllerApp) : UsbDeviceControllerApp * list toggle_event :=
  let command := ["pnputil"; "/" +:+ action +:+ "-device"; device_id] in
  let '(stdout, stderr, returncode) :=
    run_as_admin_direct (subprocess_run command) in
  let box :=
    if (returncode =? 0)%Z
    then InfoSuccess action device_id (stripped_if_any stdout)
    else ErrorOperation action device_id returncode (stripped_if_any stdout)
           (message_if_any stderr) in
  let '(a, evs) := update_selected_device_status a in
  (a, Ran command :: box :: (Refresh <$> evs)).

Definition toggle_selected_device (action : string)
    (a : UsbDeviceControllerApp) : UsbDeviceControllerApp * list toggle_event :=
  match current_selected_device_id a with
  | Some (String _ _ as i) => toggle_device_status i action a
  | _ => (a, [WarnNothingSelected action])
  end.

Definition disable_selected_device :
    UsbDeviceControllerApp → UsbDeviceControllerApp * list toggle_event :=
  toggle_selected_device "disable".

Definition enable_selected_device :
    UsbDeviceControllerApp → UsbDeviceControllerApp * list toggle_event :=
  toggle_selected_device "enable".

End Toggle.

(** *** Choosing a device and editing its name *)

(** [dev["display_name"] == selected_name] *)
Definition has_display_name (selected_name : string) (dev : device) : bool :=
  String.eqb (display_name dev) selected_name.

(** [on_device_selected]: [selected_name] is the item picked in the
    combobox, which its variable holds when the callback runs. *)
Definition on_device_selected (selected_name : string)
    (a : UsbDeviceControllerApp) : UsbDeviceControllerApp * list event :=
  let selected_device_obj :=
    List.find (has_display_name selected_name) (available_devices a) in
  let a :=
    set_selection (ComboName selected_name)
      match selected_device_obj with
      | Some dev => Some (id dev)
      | None => None
      end a in
  update_selected_device_status a.

(** What the user does with the dialog, and what the method shows. *)
Inductive dialog_action :=
| ClickSave (text : string)
| ClickCancel.

Inductive dialog_event :=
| WarnSelectFirst
| WarnCannotEdit
| DialogOpened (device_key current_custom_name : string).

(** A call that changes nothing. *)
Definition nothing_done (a : UsbDeviceControllerApp) (fs : disk) : outcome :=
  {| ret := Ok tt; app_after := a; disk_after := fs; shown := [] |}.

Definition _open_edit_name_dialog (action : dialog_action)
    (a : UsbDeviceControllerApp) (fs : disk) : outcome * list dialog_event :=
  match device_combobox a with
  | ComboNoDevices => (nothing_done a fs, [WarnSelectFirst])
  | ComboName EmptyString => (nothing_done a fs, [WarnSelectFirst])
  | ComboName selected_display_name =>
      match List.find (has_display_name selected_display_name)
              (available_devices a) with
      | Some selected_device =>
          match vid_pid_key selected_device with
          | Some (String _ _ as device_key) =>
              let current_custom_name :=
                match device_db a !! device_key with
                | Some n => n
                | None => ""
                end in
              (match action with
               | ClickSave text => save_and_close text device_key a fs
               | ClickCancel => nothing_done a fs
               end,
               [DialogOpened device_key current_custom_name])
          | _ => (nothing_done a fs, [WarnCannotEdit])
          end
      | None => (nothing_done a fs, [WarnCannotEdit])
      end
  end.

(** *** A whole refresh *)

(** [populate_devices] followed by its worker and by the update it
    schedules: the selection and the database are those at the time of
    the call. *)
Definition refresh (out : ps_output) (a : UsbDeviceControllerApp)
  : UsbDeviceControllerApp * list event :=
  let old_selected_id := current_selected_device_id a in
  _update_populate_gui old_selected_id
    (_perform_populate_devices_async (device_db a) out a).

(** *** [center_window] *)

(** The position computed from the size of the window and of the screen;
    [//] is the floor division. *)
Definition center_window (width height screenwidth screenheight : Z) : Z * Z :=
  ((screenwidth / 2) - (width / 2), (screenheight / 2) - (height / 2))%Z.

(** *** Notions used to state the further properties *)

(** The string form of a key: four upper-case hex digits, a colon, four
    upper-case hex digits. *)
Definition hex4_upper (x : string) : Prop :=
  String.length x = 4 ∧ all_hex x = true ∧ Py.upper x = x.

Definition well_formed_key (k : string) : Prop :=
  ∃ vid pid, k = vid +:+ ":" +:+ pid ∧ hex4_upper vid ∧ hex4_upper pid.

(** An entry without its display name. *)
Definition identity_of (d : device)
  : string * option (list string) * option string * dev_info :=
  (id d, hardware_id d, vid_pid_key d, full_info d).

(** The name an entry gets from the system when it has no override. *)
Definition default_name (d : device) : string :=
  displayName None (FriendlyName (full_info d))
    (DeviceDescription (full_info d)) (id d) (vid_pid_key d).


(** The entry of [mouse_x] under a given display name. *)
Definition mouse_x_entry (name : string) : device :=
  {| display_name := name;
     id := "USB\VID_1234&PID_ABCD\0";
     hardware_id := Some [];
     vid_pid_key := Some "1234:ABCD";
     full_info := mouse_x |}.


(** The file on disk says what the application holds in memory, and
    takes writes. *)
Definition in_sync (a : UsbDeviceControllerApp) (fs : disk) : Prop :=
  (load_device_database fs).1 = Ok (device_db a) ∧ write_fault fs = None.


(** The records an enumeration holds. *)
Definition records_of (out : ps_output) : list dev_info :=
  match out with
  | PsArray l => l
  | PsObject r => [r]
  | _ => []
  end.

(** Two mice of one model: the same names and key, different instances. *)
Definition twin (serial : string) : dev_info :=
  {| InstanceId := Some ("USB\VID_1234&PID_ABCD\" +:+ serial);
     FriendlyName := Some "Mouse X";
     DeviceDescription := None;
     HardwareId := HwMissing |}.


(** * Properties *)

#[local] Arguments String.append !_ _ / : simpl nomatch.

(** ** [str.strip] *)

Section Strip.

Lemma lstrip_unfold s :
  Py.lstrip s = match drop_space s with Some t => Py.lstrip t | None => s end.
Proof.
  destruct s as [|c [|d [|e t]]]; cbn [Py.lstrip drop_space]; try done.
  - by destruct (Py.is_space c).
  - destruct (Py.is_space c); [done|]. by destruct (Py.is_space2 c d).
  - destruct (Py.is_space c); [done|]. destruct (Py.is_space2 c d); [done|].
    by destruct (Py.is_space3 c d e).
Qed.

Lemma code_eq c n : Py.code c = n → c = ascii_of_N n.
Proof. intros <-. symmetry. apply ascii_N_embedding. Qed.

Lemma white_space_drop :
  Forall (λ w, w ≠ "" ∧ ∀ t, drop_space (w +:+ t) = Some t) white_space.
Proof.
  let l := eval vm_compute in white_space in change white_space with l.
  repeat (constructor; [by split; [|intros [|? [|? ?]]]|]).
  constructor.
Qed.

Lemma drop_space_of w t : w ∈ white_space → drop_space (w +:+ t) = Some t.
Proof.
  intros Hw. by destruct (proj1 (Forall_forall _ _) white_space_drop w Hw).
Qed.

Lemma white_space_nonempty w : w ∈ white_space → w ≠ "".
Proof.
  intros Hw. by destruct (proj1 (Forall_forall _ _) white_space_drop w Hw).
Qed.

Lemma is_space_white c : Py.is_space c = true → String c "" ∈ white_space.
Proof.
  intros H. apply (bool_decide_unpack _).
  destruct c as [[] [] [] [] [] [] [] []]; vm_compute in H;
    try discriminate H; by vm_compute.
Qed.

Lemma is_space2_white c d :
  Py.is_space2 c d = true → String c (String d "") ∈ white_space.
Proof.
  unfold Py.is_space2. rewrite andb_true_iff, orb_true_iff, !N.eqb_eq.
  intros [Hc%code_eq [Hd%code_eq|Hd%code_eq]]; subst;
    apply (bool_decide_unpack _); by vm_compute.
Qed.

Lemma is_space3_white c d e :
  Py.is_space3 c d e = true → String c (String d (String e "")) ∈ white_space.
Proof.
  intros H.
  assert (Hcd : (Py.code c = 225%N ∧ Py.code d = 154%N)
                ∨ (Py.code c = 226%N ∧ Py.code d = 128%N)
                ∨ (Py.code c = 226%N ∧ Py.code d = 129%N)
                ∨ (Py.code c = 227%N ∧ Py.code d = 128%N)).
  { revert H. unfold Py.is_space3.
    rewrite !orb_true_iff, !andb_true_iff, !N.eqb_eq. tauto. }
  destruct Hcd as [[Hc Hd]|[[Hc Hd]|[[Hc Hd]|[Hc Hd]]]];
    apply code_eq in Hc, Hd; subst c d;
    destruct e as [[] [] [] [] [] [] [] []]; vm_compute in H;
    try discriminate H; apply (bool_decide_unpack _); by vm_compute.
Qed.

Lemma drop_space_spec s t :
  drop_space s = Some t ↔ ∃ w, w ∈ white_space ∧ s = w +:+ t.
Proof.
  split.
  - destruct s as [|c [|d [|e t3]]]; cbn [drop_space]; try done.
    + destruct (Py.is_space c) eqn:E; [|done]. intros [= <-].
      exists (String c ""). split; [by apply is_space_white | done].
    + destruct (Py.is_space c) eqn:E.
      { intros [= <-]. exists (String c "").
        split; [by apply is_space_white | done]. }
      destruct (Py.is_space2 c d) eqn:E2; [|done]. intros [= <-].
      exists (String c (String d "")). split; [by apply is_space2_white | done].
    + destruct (Py.is_space c) eqn:E.
      { intros [= <-]. exists (String c "").
        split; [by apply is_space_white | done]. }
      destruct (Py.is_space2 c d) eqn:E2.
      { intros [= <-]. exists (String c (String d "")).
        split; [by apply is_space2_white | done]. }
      destruct (Py.is_space3 c d e) eqn:E3; [|done]. intros [= <-].
      exists (String c (String d (String e ""))).
      split; [by apply is_space3_white | done].
  - intros (w & Hw & ->). by apply drop_space_of.
Qed.

Lemma append_length a b :
  String.length (a +:+ b) = String.length a + String.length b.
Proof. induction a as [|c a IH]; [done|]. cbn. by rewrite IH. Qed.

Lemma append_assoc a b c : (a +:+ b) +:+ c = a +:+ b +:+ c.
Proof. induction a as [|x a IH]; [done|]. cbn. by rewrite IH. Qed.

Lemma append_nil_r a : a +:+ "" = a.
Proof. induction a as [|x a IH]; [done|]. cbn. by rewrite IH. Qed.

Lemma drop_space_shorter s t :
  drop_space s = Some t → String.length t < String.length s.
Proof.
  intros (w & Hw & ->)%drop_space_spec. rewrite append_length.
  apply white_space_nonempty in Hw. destruct w; [done|]. cbn. lia.
Qed.

Lemma lstrip_spec s :
  ∃ l, s = l +:+ Py.lstrip s ∧ blank l ∧ drop_space (Py.lstrip s) = None.
Proof.
  remember (String.length s) as n eqn:Hn. revert s Hn.
  induction n as [n IH] using lt_wf_ind. intros s ->.
  rewrite lstrip_unfold. destruct (drop_space s) as [t|] eqn:E.
  - destruct (IH _ (drop_space_shorter _ _ E) t eq_refl) as (l & Ht & Hl & Hd).
    apply drop_space_spec in E as (w & Hw & ->).
    exists (w +:+ l). rewrite append_assoc, <- Ht.
    split; [done|]. split; [by constructor | done].
  - exists "". split; [done|]. split; [constructor | done].
Qed.

Lemma lstrip_blank_app l s : blank l → Py.lstrip (l +:+ s) = Py.lstrip s.
Proof.
  induction 1 as [|w l Hw Hl IH]; [done|].
  by rewrite append_assoc, lstrip_unfold, drop_space_of.
Qed.

Lemma is_blank_spec s : Py.is_blank s = true ↔ blank s.
Proof.
  unfold Py.is_blank. split.
  - destruct (lstrip_spec s) as (l & Hs & Hl & _).
    destruct (Py.lstrip s); [|done]. intros _.
    rewrite Hs, append_nil_r. done.
  - intros H. rewrite <- (append_nil_r s), lstrip_blank_app; done.
Qed.

Lemma rstrip_blank s : blank s → Py.rstrip s = "".
Proof.
  intros H%is_blank_spec. destruct s; [done|]. cbn [Py.rstrip]. by rewrite H.
Qed.

Lemma rstrip_spec s : ∃ r, s = Py.rstrip s +:+ r ∧ blank r.
Proof.
  induction s as [|c s (r & Hs & Hr)].
  - exists "". split; [done | constructor].
  - cbn [Py.rstrip]. destruct (Py.is_blank (String c s)) eqn:E.
    + exists (String c s). split; [done|]. by apply is_blank_spec.
    + exists r. split; [|done]. cbn. by rewrite <- Hs.
Qed.

Lemma rstrip_shortest s p u :
  s = p +:+ u → blank u → String.length (Py.rstrip s) ≤ String.length p.
Proof.
  revert p. induction s as [|c s IH]; intros p Hs Hu; [cbn; lia|].
  destruct p as [|c' p]; cbn in Hs.
  - subst u. rewrite rstrip_blank; [cbn; lia | done].
  - injection Hs as <- Hs. cbn [Py.rstrip].
    destruct (Py.is_blank _); cbn; [lia|].
    specialize (IH p Hs Hu). lia.
Qed.

Lemma rstrip_no_space_end s w x :
  w ∈ white_space → Py.rstrip s ≠ x +:+ w.
Proof.
  intros Hw Hx. destruct (rstrip_spec s) as (r & Hs & Hr).
  rewrite Hx, append_assoc in Hs.
  pose proof (rstrip_shortest s x (w +:+ r) Hs (blank_cons _ _ Hw Hr)) as Hle.
  rewrite Hx, append_length in Hle.
  apply white_space_nonempty in Hw. destruct w; [done|]. cbn in Hle. lia.
Qed.

(** [s.strip()] is [s] trimmed. *)
Lemma strip_spec s : trimmed s (Py.strip s).
Proof.
  unfold Py.strip, trimmed.
  destruct (lstrip_spec s) as (l & Hs & Hl & Hd).
  destruct (rstrip_spec (Py.lstrip s)) as (r & Hs' & Hr).
  exists l, r. rewrite <- Hs', <- Hs. split_and!; try done.
  - intros w x Hw Hx. rewrite Hx, append_assoc in Hs'.
    rewrite Hs', drop_space_of in Hd; done.
  - intros w x Hw. by apply rstrip_no_space_end.
Qed.

End Strip.

Section Trimmed.

Lemma append_split a b c d :
  a +:+ b = c +:+ d
  → (∃ x, a = c +:+ x ∧ d = x +:+ b) ∨ (∃ x, c = a +:+ x ∧ b = x +:+ d).
Proof.
  revert c. induction a as [|p a IH]; intros c H.
  - right. by exists c.
  - destruct c as [|q c].
    + left. by exists (String p a).
    + cbn in H. injection H as -> H.
      destruct (IH c H) as [(x & -> & ->)|(x & -> & ->)].
      * left. by exists x.
      * right. by exists x.
Qed.

(** The encoding of a white-space character begins with a byte that none
    of them has after its first. *)
Lemma white_space_bytes :
  Forall (λ w, ∃ c t, w = String c t ∧ lead c = true ∧ no_lead t = true)
    white_space.
Proof.
  let l := eval vm_compute in white_space in change white_space with l.
  repeat (constructor; [by eexists _, _|]). constructor.
Qed.

Lemma no_lead_app a b : no_lead (a +:+ b) = no_lead a && no_lead b.
Proof. induction a as [|c a IH]; [done|]. cbn. by rewrite IH, andb_assoc. Qed.

Lemma blank_head r :
  blank r → r = "" ∨ ∃ c t, r = String c t ∧ lead c = true.
Proof.
  destruct 1 as [|w s Hw Hs]; [by left|]. right.
  destruct (proj1 (Forall_forall _ _) white_space_bytes w Hw)
    as (c & t & -> & Hc & _).
  by exists c, (t +:+ s).
Qed.

(** White space cannot end inside the encoding of a character that is
    followed by white space. *)
Lemma white_space_cut w u x r :
  w ∈ white_space → w = u +:+ x → u ≠ "" → x ≠ "" → blank (x +:+ r) → False.
Proof.
  intros Hw Hux Hu Hx Hb.
  destruct (proj1 (Forall_forall _ _) white_space_bytes w Hw)
    as (c & t & -> & _ & Ht).
  destruct u as [|c' u]; [done|]. cbn in Hux. injection Hux as <- ->.
  rewrite no_lead_app in Ht. apply andb_true_iff in Ht as [_ Ht].
  destruct x as [|q x]; [done|]. cbn in Ht. apply andb_true_iff in Ht as [Hq _].
  apply blank_head in Hb as [Hb|(c2 & t2 & [= <- _] & Hl)]; [done|].
  by rewrite Hl in Hq.
Qed.

Lemma blank_app a b : blank a → blank b → blank (a +:+ b).
Proof.
  induction 1 as [|w s Hw Hs IH]; [done|]. intros Hb.
  rewrite append_assoc. constructor; [done | by apply IH].
Qed.

Lemma blank_app_inv_l u r : blank (u +:+ r) → blank r → blank u.
Proof.
  remember (String.length u) as n eqn:Hn. revert u Hn.
  induction n as [n IH] using lt_wf_ind. intros u -> Hur Hr.
  destruct u as [|c u]; [constructor|].
  inversion Hur as [|w s Hw Hs Heq].
  change (String c (u +:+ r)) with (String c u +:+ r) in Heq.
  symmetry in Heq.
  destruct (append_split _ _ _ _ Heq) as [(x & Hu & ->)|(x & -> & Hrx)].
  - rewrite Hu. constructor; [done|].
    apply (IH (String.length x)); try done.
    apply white_space_nonempty in Hw. destruct w; [done|].
    rewrite Hu. cbn. rewrite append_length. lia.
  - destruct x as [|q x].
    + rewrite append_nil_r in Hw. rewrite <- (append_nil_r (String c u)).
      constructor; [done | constructor].
    + exfalso. apply (white_space_cut _ (String c u) (String q x) s Hw);
        try done. rewrite <- Hrx. done.
Qed.

Lemma blank_last u :
  blank u → u = "" ∨ ∃ x w, u = x +:+ w ∧ w ∈ white_space.
Proof.
  induction 1 as [|w s Hw Hs [->|(x & w' & -> & Hw')]]; [by left|..]; right.
  - exists "", w. by rewrite append_nil_r.
  - exists (w +:+ x), w'. by rewrite append_assoc.
Qed.

Lemma drop_space_none_app v r :
  v ≠ "" → (∀ w x, w ∈ white_space → v ≠ w +:+ x) → blank r
  → drop_space (v +:+ r) = None.
Proof.
  intros Hv Hpre Hr.
  destruct (drop_space (v +:+ r)) as [t|] eqn:E; [exfalso|done].
  apply drop_space_spec in E as (w & Hw & E).
  destruct (append_split _ _ _ _ E) as [(x & -> & _)|(x & -> & Hrx)].
  - by apply (Hpre w x).
  - destruct x as [|q x].
    + rewrite append_nil_r in Hw. apply (Hpre v ""); [done|].
      by rewrite append_nil_r.
    + apply (white_space_cut _ v (String q x) t Hw); try done.
      by rewrite <- Hrx.
Qed.

(** What [trimmed] describes is one text, and [str.strip] gives it. *)
Lemma trimmed_strip s v : trimmed s v ↔ v = Py.strip s.
Proof.
  split; [|intros ->; apply strip_spec].
  intros (l & r & -> & Hl & Hr & Hpre & Hsuf).
  unfold Py.strip. rewrite lstrip_blank_app by done.
  destruct v as [|c v].
  { cbn [String.append]. apply is_blank_spec in Hr as Hb.
    unfold Py.is_blank in Hb. by destruct (Py.lstrip r). }
  rewrite lstrip_unfold, drop_space_none_app by done.
  destruct (rstrip_spec (String c v +:+ r)) as (r' & Hs & Hr').
  pose proof (rstrip_shortest (String c v +:+ r) (String c v) r eq_refl Hr)
    as Hlen.
  destruct (append_split _ _ _ _ Hs) as [(x & Hx & Hrx)|(x & Hx & Hrx)].
  - destruct (blank_last x) as [->|(y & w & -> & Hw)].
    + apply (blank_app_inv_l _ r); [by rewrite <- Hrx | done].
    + by rewrite append_nil_r in Hx.
    + exfalso. apply (Hsuf w (Py.rstrip (String c v +:+ r) +:+ y)); [done|].
      by rewrite append_assoc.
  - rewrite Hx, append_length in Hlen.
    destruct x; [by rewrite append_nil_r in Hx | cbn in Hlen; lia].
Qed.

End Trimmed.

(** ** Status classification *)

Section StatusText.

Lemma drop_space_plain c t : plain c = true → drop_space (String c t) = None.
Proof.
  intros H. destruct c as [[] [] [] [] [] [] [] []]; vm_compute in H;
    try discriminate H; by destruct t as [|? [|? ?]].
Qed.

Lemma lstrip_plain c t : plain c = true → Py.lstrip (String c t) = String c t.
Proof. intros H. by rewrite lstrip_unfold, drop_space_plain. Qed.

Lemma rstrip_plain_app v r :
  all_plain v = true → blank r → Py.rstrip (v +:+ r) = v.
Proof.
  intros Hv Hr. induction v as [|c v IH].
  - by apply rstrip_blank.
  - cbn in Hv. apply andb_true_iff in Hv as [Hc Hv].
    cbn [String.append Py.rstrip]. unfold Py.is_blank.
    rewrite lstrip_plain by done. by rewrite IH.
Qed.

Lemma strip_padded l v r :
  blank l → blank r → all_plain v = true → Py.strip (l +:+ v +:+ r) = v.
Proof.
  intros Hl Hr Hv. unfold Py.strip. rewrite lstrip_blank_app by done.
  destruct v as [|c v].
  - cbn [String.append]. apply is_blank_spec in Hr as Hb.
    unfold Py.is_blank in Hb. by destruct (Py.lstrip r).
  - cbn in Hv. apply andb_true_iff in Hv as [Hc Hv].
    cbn [String.append]. rewrite lstrip_plain by done.
    apply (rstrip_plain_app (String c v)); [|done]. cbn. by rewrite Hc.
Qed.

Lemma strip_is s v : all_plain v = true → Py.strip s = v ↔ trimmed s v.
Proof.
  intros Hv. split.
  - intros <-. apply strip_spec.
  - intros (l & r & -> & Hl & Hr & _). by apply strip_padded.
Qed.

Lemma no_letter_app a b : no_letter (a +:+ b) = no_letter a && no_letter b.
Proof. induction a as [|c a IH]; [done|]. cbn. by rewrite IH, andb_assoc. Qed.

Lemma white_space_no_letter : Forall (λ w, no_letter w = true) white_space.
Proof.
  let l := eval vm_compute in white_space in change white_space with l.
  repeat (constructor; [by vm_compute|]). constructor.
Qed.

Lemma blank_no_letter s : blank s → no_letter s = true.
Proof.
  induction 1 as [|w s Hw Hs IH]; [done|].
  rewrite no_letter_app, IH, andb_true_r.
  by apply (proj1 (Forall_forall _ _) white_space_no_letter).
Qed.

Lemma mentions_ok_letter o k :
  (o = "O" ∨ o = "o")%char → (k = "K" ∨ k = "k")%char
  → letter o = true ∧ letter k = true.
Proof. by intros [-> | ->] [-> | ->]. Qed.

Lemma mentions_ok_cons c m :
  mentions_ok (String c m)
  ↔ (∃ k b, m = String k b ∧ (c = "O" ∨ c = "o")%char ∧ (k = "K" ∨ k = "k")%char)
    ∨ mentions_ok m.
Proof.
  split.
  - intros ([|c' a] & o & k & b & Hm & Ho & Hk); cbn in Hm.
    + injection Hm as -> ->. left. by exists k, b.
    + injection Hm as -> ->. right. by exists a, o, k, b.
  - intros [(k & b & -> & Ho & Hk)|(a & o & k & b & -> & Ho & Hk)].
    + by exists "", c, k, b.
    + by exists (String c a), o, k, b.
Qed.

Lemma mentions_ok_nil : ¬ mentions_ok "".
Proof. by intros ([|??] & o & k & b & Hm & _). Qed.

Lemma no_letter_not_ok s : no_letter s = true → ¬ mentions_ok s.
Proof.
  induction s as [|c s IH]; [intros _; apply mentions_ok_nil|].
  cbn. intros [Hc Hs]%andb_true_iff. rewrite mentions_ok_cons.
  intros [(k & b & -> & Ho & Hk)|H]; [|by apply IH].
  destruct (mentions_ok_letter c k Ho Hk) as [Hl _]. by rewrite Hl in Hc.
Qed.

Lemma mentions_ok_app_l l x :
  no_letter l = true → mentions_ok (l +:+ x) → mentions_ok x.
Proof.
  induction l as [|c l IH]; [done|].
  cbn. intros [Hc Hl]%andb_true_iff. rewrite mentions_ok_cons.
  intros [(k & b & _ & Ho & Hk)|H]; [|by apply IH].
  destruct (mentions_ok_letter c k Ho Hk) as [Hlc _]. by rewrite Hlc in Hc.
Qed.

Lemma mentions_ok_app_r x r :
  no_letter r = true → mentions_ok (x +:+ r) → mentions_ok x.
Proof.
  intros Hr. induction x as [|c x IH].
  - intros H. by apply no_letter_not_ok in H.
  - cbn [String.append]. rewrite !mentions_ok_cons.
    intros [(k & b & Hx & Ho & Hk)|H]; [|right; by apply IH].
    destruct x as [|k' x].
    + cbn in Hx. subst r. cbn in Hr.
      destruct (mentions_ok_letter c k Ho Hk) as [_ Hlk]. by rewrite Hlk in Hr.
    + cbn in Hx. injection Hx as -> _. left. by exists k, x.
Qed.

Lemma mentions_ok_trimmed s m :
  trimmed s m → mentions_ok s ↔ mentions_ok m.
Proof.
  intros (l & r & -> & Hl%blank_no_letter & Hr%blank_no_letter & _). split.
  - intros H%mentions_ok_app_l; [|done]. by apply mentions_ok_app_r in H.
  - intros (a & o & k & b & -> & Ho & Hk).
    exists (l +:+ a), o, k, (b +:+ r). split; [|done].
    by rewrite !append_assoc.
Qed.

Lemma contains_OK_mentions m :
  Py.contains "OK" (Py.upper m) = true ↔ mentions_ok m.
Proof.
  induction m as [|c m IH].
  - split; [done|]. intros H. by apply mentions_ok_nil in H.
  - rewrite mentions_ok_cons, <- IH.
    change (Py.upper (String c m)) with (String (Py.upper_char c) (Py.upper m)).
    cbn [Py.contains Py.strip_prefix].
    destruct (Ascii.eqb_spec "O" (Py.upper_char c)) as [Hc|Hc].
    + destruct m as [|k m].
      * cbn. split; [done|]. by intros [(? & ? & ? & _)|?].
      * change (Py.upper (String k m))
          with (String (Py.upper_char k) (Py.upper m)).
        cbn [Py.strip_prefix].
        destruct (Ascii.eqb_spec "K" (Py.upper_char k)) as [Hk|Hk].
        -- split; [|done]. intros _. left. exists k, m. split; [done|].
           split.
           ++ clear -Hc. destruct c as [[] [] [] [] [] [] [] []];
                vm_compute in Hc; try discriminate Hc; by eauto.
           ++ clear -Hk. destruct k as [[] [] [] [] [] [] [] []];
                vm_compute in Hk; try discriminate Hk; by eauto.
        -- split; [by right|]. intros [(k' & b & [= <- <-] & _ & [->| ->])|H];
             [by destruct Hk.. | done].
    + split; [by right|]. intros [(k & b & _ & [->| ->] & _)|H];
        [by destruct Hc.. | done].
Qed.

Lemma says_ok_spec s :
  Py.contains "OK" (Py.upper (Py.strip s)) = true ↔ says_ok (Some s).
Proof.
  rewrite contains_OK_mentions. split.
  - intros H. exists s, (Py.strip s). split; [done|]. split; [apply strip_spec | done].
  - intros (s' & m & [= <-] & Ht & Hm).
    apply (mentions_ok_trimmed _ _ Ht) in Hm.
    by apply (mentions_ok_trimmed _ _ (strip_spec s)).
Qed.

End StatusText.

Section Status.

Lemma upper_O_lower_o c :
  Ascii.eqb "O" (Py.upper_char c) = Ascii.eqb "o" (Py.lower_char c).
Proof. by destruct c as [[] [] [] [] [] [] [] []]. Qed.

Lemma upper_K_lower_k c :
  Ascii.eqb "K" (Py.upper_char c) = Ascii.eqb "k" (Py.lower_char c).
Proof. by destruct c as [[] [] [] [] [] [] [] []]. Qed.

Lemma starts_OK_upper s :
  is_Some (Py.strip_prefix "OK" (Py.upper s))
  ↔ is_Some (Py.strip_prefix "ok" (Py.lower s)).
Proof.
  destruct s as [|a [|b t]]; cbn [Py.upper Py.lower Py.map_chars Py.strip_prefix];
    rewrite ?upper_O_lower_o, ?upper_K_lower_k;
    repeat case_match; split; intros [? ?]; by eauto.
Qed.

Lemma contains_OK_upper s :
  Py.contains "OK" (Py.upper s) = Py.contains "ok" (Py.lower s).
Proof.
  induction s as [|c t IH].
  - reflexivity.
  - change (Py.upper (String c t)) with (String (Py.upper_char c) (Py.upper t)).
    change (Py.lower (String c t)) with (String (Py.lower_char c) (Py.lower t)).
    pose proof (starts_OK_upper (String c t)) as Hs.
    change (Py.upper (String c t))
      with (String (Py.upper_char c) (Py.upper t)) in Hs.
    change (Py.lower (String c t))
      with (String (Py.lower_char c) (Py.lower t)) in Hs.
    cbn [Py.contains].
    destruct (Py.strip_prefix "OK" _) eqn:E1, (Py.strip_prefix "ok" _) eqn:E2;
      try done.
    + destruct Hs as [Hs _]. destruct Hs as [? ?]; [by eauto | done].
    + destruct Hs as [_ Hs]. destruct Hs as [? ?]; [by eauto | done].
Qed.

Lemma get_present nulls p e s :
  dict_get (props_of nulls p e s) "Present" JNull
  = match p with Some b => JBool b | None => JNull end.
Proof.
  unfold dict_get, props_of, put_field.
  destruct p, e, s, nulls; by simplify_map_eq.
Qed.

Lemma get_error_code nulls p e s :
  dict_get (props_of nulls p e s) "ConfigManagerErrorCode" (JStr "")
  = match e with
    | Some x => JStr x
    | None => if nulls then JNull else JStr ""
    end.
Proof.
  unfold dict_get, props_of, put_field.
  destruct p, e, s, nulls; by simplify_map_eq.
Qed.

Lemma get_status nulls p e s :
  dict_get (props_of nulls p e s) "Status" (JStr "")
  = match s with
    | Some x => JStr x
    | None => if nulls then JNull else JStr ""
    end.
Proof.
  unfold dict_get, props_of, put_field.
  destruct p, e, s, nulls; by simplify_map_eq.
Qed.

End Status.

(** C2. On every combination of an optional present flag, an optional
    error-code string and an optional status text, the status the program
    computes is the one given by the five rules in order: present false
    gives disabled; else trimmed error code "22" gives disabled; else
    trimmed error code "0" gives enabled; else a trimmed status text that
    contains "OK" in any case gives enabled; else unknown. The rules give
    one result only. In particular present false gives disabled whatever
    the other two fields are. Trimming is that of [trimmed], by the white
    space of Unicode, and any case is that of the letters o and k. *)
Theorem classify_status_precedence :
  ∀ (nulls : bool) (present : option bool) (errorCode statusText : option string),
    classifyStatus present errorCode statusText
      (status_of_props (props_of nulls present errorCode statusText))
    ∧ classifyStatus present errorCode statusText
        (status_of_payload
           (PDict (props_of nulls present errorCode statusText))).1
    ∧ (∀ result,
         classifyStatus present errorCode statusText result
         → result
           = status_of_props (props_of nulls present errorCode statusText))
    ∧ status_of_props (props_of nulls (Some false) errorCode statusText)
      = disabled.
Proof.
  assert (Hcode : ∀ (nulls : bool) (e : option string) v,
    all_plain v = true → v ≠ "None" → v ≠ ""
    → String.eqb
        (Py.strip
           (py_str match e with
                   | Some x => JStr x
                   | None => if nulls then JNull else JStr ""
                   end)) v = true
      ↔ trimmed_is e v).
  { intros nulls e v Hv Hn He. rewrite String.eqb_eq. destruct e as [x|].
    - cbn [py_str]. rewrite (strip_is _ _ Hv). split.
      + intros H. by exists x.
      + by intros (x' & [= <-] & H).
    - split; [|by intros (? & ? & _)]. by destruct nulls. }
  assert (Hok : ∀ (nulls : bool) (s : option string),
    Py.contains "OK"
      (Py.upper
         (Py.strip
            (py_str match s with
                    | Some x => JStr x
                    | None => if nulls then JNull else JStr ""
                    end))) = true
    ↔ says_ok s).
  { intros nulls s. destruct s as [x|].
    - apply says_ok_spec.
    - split; [|by intros (? & ? & ? & _)]. by destruct nulls. }
  assert (Hmain : ∀ nulls p e s,
    classifyStatus p e s (status_of_props (props_of nulls p e s))).
  { intros nulls p e s. unfold status_of_props, classifyStatus.
    rewrite get_present, get_error_code, get_status.
    pose proof (Hcode nulls e "22" eq_refl) as H22.
    pose proof (Hcode nulls e "0" eq_refl) as H0.
    pose proof (Hok nulls s) as Hs.
    destruct p as [[]|]; try reflexivity.
    all: destruct (String.eqb _ "22"); [left; split; [by apply H22 | done]|].
    all: right.
    all: assert (¬ trimmed_is e "22") by (intros Ht; by apply H22 in Ht).
    all: destruct (String.eqb _ "0"); [left; split_and!; [done | by apply H0 | done]|].
    all: right.
    all: assert (¬ trimmed_is e "0") by (intros Ht; by apply H0 in Ht).
    all: destruct (Py.contains "OK" _);
      [left; split_and!; [done | done | by apply Hs | done]|].
    all: right; split_and!; [done | done | | done].
    all: intros Ht; by apply Hs in Ht. }
  assert (Hone : ∀ p e s r1 r2,
    classifyStatus p e s r1 → classifyStatus p e s r2 → r1 = r2).
  { intros p e s r1 r2. unfold classifyStatus.
    destruct p as [[]|]; try congruence; intuition congruence. }
  intros nulls p e s. split_and!.
  - apply Hmain.
  - apply Hmain.
  - intros result Hr. by apply (Hone p e s), Hmain.
  - pose proof (Hmain nulls (Some false) e s) as H. exact H.
Qed.

Example classify_status_no_break_space :
  status_of_props
    (props_of false None (Some (Py.utf8 160 +:+ "22" +:+ Py.utf8 8195)) None)
  = disabled
  ∧ trimmed_is (Some (Py.utf8 160 +:+ "22" +:+ Py.utf8 8195)) "22".
Proof.
  split; [by vm_compute|].
  eexists. split; [done|]. apply strip_is; [done | by vm_compute].
Qed.

(** ** Identifier extraction *)

Section Strings.

Lemma lower_app (a b : string) :
  Py.lower (a +:+ b) = Py.lower a +:+ Py.lower b.
Proof. induction a as [|x a IH]; [done|]. cbn. by rewrite <- IH. Qed.

Lemma upper_length (a : string) : String.length (Py.upper a) = String.length a.
Proof. induction a as [|x a IH]; [done|]. cbn. by rewrite <- IH. Qed.

Lemma lower_char_idem c : Py.lower_char (Py.lower_char c) = Py.lower_char c.
Proof. by destruct c as [[] [] [] [] [] [] [] []]. Qed.

Lemma upper_char_idem c : Py.upper_char (Py.upper_char c) = Py.upper_char c.
Proof. by destruct c as [[] [] [] [] [] [] [] []]. Qed.

Lemma upper_lower_char c : Py.upper_char (Py.lower_char c) = Py.upper_char c.
Proof. by destruct c as [[] [] [] [] [] [] [] []]. Qed.

Lemma is_hex_lower_char c : is_hex (Py.lower_char c) = is_hex c.
Proof. by destruct c as [[] [] [] [] [] [] [] []]. Qed.

Lemma is_hex_upper_char c : is_hex (Py.upper_char c) = is_hex c.
Proof. by destruct c as [[] [] [] [] [] [] [] []]. Qed.

Lemma upper_idem s : Py.upper (Py.upper s) = Py.upper s.
Proof.
  induction s as [|c s IH]; [done|].
  cbn. rewrite upper_char_idem. f_equal. exact IH.
Qed.

Lemma upper_lower s : Py.upper (Py.lower s) = Py.upper s.
Proof.
  induction s as [|c s IH]; [done|].
  cbn. rewrite upper_lower_char. f_equal. exact IH.
Qed.

Lemma all_hex_upper s : all_hex (Py.upper s) = all_hex s.
Proof.
  induction s as [|c s IH]; [done|].
  cbn. rewrite is_hex_upper_char. f_equal. exact IH.
Qed.

End Strings.

Section Search.

Lemma pattern_letter_cases p :
  pattern_letter p = true
  → (p = "V" ∨ p = "I" ∨ p = "D" ∨ p = "P" ∨ p = "_")%char.
Proof.
  unfold pattern_letter. rewrite !orb_true_iff, !Ascii.eqb_eq. tauto.
Qed.

Lemma char_ci_forms p c :
  pattern_letter p = true → char_ci p c = true
  → String c "" ∈ case_forms p.
Proof.
  intros Hp H. apply (bool_decide_unpack _).
  destruct (pattern_letter_cases p Hp) as [->|[->|[->|[->| ->]]]];
    destruct c as [[] [] [] [] [] [] [] []]; vm_compute in H;
    try discriminate H; by vm_compute.
Qed.

Lemma case_forms_match p :
  pattern_letter p = true
  → Forall (λ v, v ≠ "" ∧ ∀ r, match_char p (v +:+ r) = Some r) (case_forms p).
Proof.
  intros Hp.
  destruct (pattern_letter_cases p Hp) as [->|[->|[->|[->| ->]]]];
    match goal with
    | |- Forall _ ?x => let l := eval vm_compute in x in change x with l
    end;
    repeat (constructor; [by split|]); constructor.
Qed.

Lemma match_char_spec p s r :
  pattern_letter p = true
  → match_char p s = Some r ↔ ∃ v, v ∈ case_forms p ∧ s = v +:+ r.
Proof.
  intros Hp. split.
  - unfold match_char. destruct s as [|c s]; [done|].
    destruct (char_ci p c) eqn:E.
    { intros [= <-]. exists (String c ""). split; [|done].
      by apply char_ci_forms. }
    destruct (char_ci p "I") eqn:EI; [|done].
    destruct s as [|d s]; [done|].
    destruct ((Py.code c =? 196) && ((Py.code d =? 176) || (Py.code d =? 177)))%N
      eqn:Ecd; [|done].
    intros [= <-]. exists (String c (String d "")). split; [|done].
    apply andb_true_iff in Ecd as [Hc Hd].
    apply N.eqb_eq, code_eq in Hc. subst c.
    apply orb_true_iff in Hd. rewrite !N.eqb_eq in Hd.
    apply (bool_decide_unpack _).
    destruct (pattern_letter_cases p Hp) as [->|[->|[->|[->| ->]]]];
      try discriminate EI.
    by destruct Hd as [->%code_eq| ->%code_eq].
  - intros (v & Hv & ->).
    by destruct (proj1 (Forall_forall _ _) (case_forms_match p Hp) v Hv).
Qed.

Lemma elem_of_variants_cons p tag t :
  t ∈ variants (String p tag)
  ↔ ∃ v t', v ∈ case_forms p ∧ t' ∈ variants tag ∧ t = v +:+ t'.
Proof.
  cbn [variants]. rewrite list_elem_of_bind. split.
  - intros (v & (t' & -> & Ht')%list_elem_of_fmap & Hv). by exists v, t'.
  - intros (v & t' & Hv & Ht' & ->). exists v. split; [|done].
    apply list_elem_of_fmap. by exists t'.
Qed.

Lemma match_literal_spec tag s r :
  pattern_tag tag = true
  → match_literal tag s = Some r ↔ ∃ t, s = t +:+ r ∧ t ∈ variants tag.
Proof.
  revert s. induction tag as [|p tag IH]; intros s Ht.
  - cbn. split.
    + intros [= ->]. exists "". split; [done | by left].
    + intros (t & -> & ->%list_elem_of_singleton). done.
  - cbn in Ht. apply andb_true_iff in Ht as [Hp Ht]. cbn [match_literal].
    split.
    + destruct (match_char p s) as [s'|] eqn:E; [|done].
      apply (match_char_spec _ _ _ Hp) in E as (v & Hv & ->).
      intros (t' & -> & Ht')%IH; [|done].
      exists (v +:+ t'). split; [by rewrite append_assoc|].
      apply elem_of_variants_cons. by exists v, t'.
    + intros (t & -> & (v & t' & Hv & Ht' & ->)%elem_of_variants_cons).
      rewrite append_assoc.
      assert (match_char p (v +:+ t' +:+ r) = Some (t' +:+ r)) as ->.
      { apply match_char_spec; [done|]. by exists v. }
      apply IH; [done|]. by exists t'.
Qed.

Lemma match_hex4_spec r g :
  match_hex4 r = Some g
  ↔ ∃ rest, r = g +:+ rest ∧ String.length g = 4 ∧ all_hex g = true.
Proof.
  split.
  - destruct r as [|a [|b [|c [|d rest]]]]; try discriminate. cbn.
    destruct (is_hex a && is_hex b && is_hex c && is_hex d) eqn:E;
      [|discriminate].
    intros [= <-]. exists rest. cbn. split; [done|]. split; [done|].
    by rewrite andb_true_r, !andb_assoc.
  - intros (rest & -> & Hlen & Hhex).
    destruct g as [|a [|b [|c [|d [|e g]]]]]; try discriminate Hlen.
    cbn in Hhex |- *. rewrite andb_true_r, !andb_assoc in Hhex.
    by rewrite Hhex.
Qed.

Lemma match_here_spec tag suf g :
  pattern_tag tag = true
  → match_here tag suf = Some g
    ↔ ∃ t rest, suf = t +:+ g +:+ rest
        ∧ t ∈ variants tag
        ∧ String.length g = 4 ∧ all_hex g = true.
Proof.
  intros Htag. unfold match_here. split.
  - destruct (match_literal tag suf) as [r|] eqn:E; [|discriminate].
    apply (match_literal_spec _ _ _ Htag) in E as (t & -> & Ht).
    intros (rest & -> & Hg)%match_hex4_spec. by exists t, rest.
  - intros (t & rest & -> & Ht & Hg).
    assert (match_literal tag (t +:+ g +:+ rest) = Some (g +:+ rest)) as ->.
    { apply match_literal_spec; [done|]. by exists t. }
    apply match_hex4_spec. by exists rest.
Qed.

Lemma re_search_None tag s :
  re_search tag s = None
  ↔ ∀ pre suf, s = pre +:+ suf → match_here tag suf = None.
Proof.
  induction s as [|c s IH]; cbn [re_search].
  - destruct (match_here tag "") eqn:E.
    + split; [done|]. intros H. rewrite (H "" "") in E; done.
    + split; [|done]. intros _ [|??] suf; cbn; [by intros <-|done].
  - destruct (match_here tag (String c s)) eqn:E.
    + split; [done|]. intros H. rewrite (H "" (String c s)) in E; done.
    + rewrite IH. split.
      * intros H [|c' pre] suf; cbn; [by intros <-|].
        intros [= <- ->]. by apply (H pre).
      * intros H pre suf ->. by apply (H (String c pre)).
Qed.

Lemma re_search_Some tag s g :
  re_search tag s = Some g
  ↔ ∃ pre suf, s = pre +:+ suf ∧ match_here tag suf = Some g
      ∧ ∀ pre' suf', s = pre' +:+ suf'
          → String.length pre' < String.length pre
          → match_here tag suf' = None.
Proof.
  revert g. induction s as [|c s IH]; intros g; cbn [re_search].
  - destruct (match_here tag "") eqn:E.
    + split.
      * intros [= ->]. exists "", "". repeat split; [done|].
        cbn. intros; lia.
      * intros ([|??] & suf & Hs & Hm & _); cbn in Hs; [|done].
        subst suf. congruence.
    + split; [done|].
      intros ([|??] & suf & Hs & Hm & _); cbn in Hs; [|done].
      subst suf. congruence.
  - destruct (match_here tag (String c s)) eqn:E.
    + split.
      * intros [= ->]. exists "", (String c s). repeat split; [done|].
        cbn. intros; lia.
      * intros ([|c' pre] & suf & Hs & Hm & Hmin); cbn in Hs.
        -- subst suf. congruence.
        -- rewrite (Hmin "" (String c s)) in E; [done|done|cbn; lia].
    + rewrite IH. split.
      * intros (pre & suf & -> & Hm & Hmin).
        exists (String c pre), suf. repeat split; [done|].
        intros [|c' pre'] suf'; cbn.
        -- by intros <-.
        -- intros [= <- Hs] Hlt. apply (Hmin pre'); [done|lia].
      * intros ([|c' pre] & suf & Hs & Hm & Hmin); cbn in Hs.
        -- subst suf. congruence.
        -- injection Hs as <- ->. exists pre, suf. repeat split; [done|].
           intros pre' suf' Hs Hlt.
           apply (Hmin (String c pre')); [by rewrite Hs|cbn; lia].
Qed.

Lemma re_search_leftmost tag s g :
  pattern_tag tag = true → re_search tag s = Some g ↔ leftmost tag s g.
Proof.
  intros Htag. rewrite re_search_Some. unfold leftmost, occurs. split.
  - intros (pre & suf & -> & Hm & Hmin).
    apply (match_here_spec _ _ _ Htag) in Hm as (t & rest & -> & Ht & Hg).
    exists pre. split; [by exists t, rest|].
    intros pre' g' (t' & rest' & Hs & Ht' & Hg').
    destruct (decide (String.length pre' < String.length pre)) as [Hlt|]; [|lia].
    specialize (Hmin pre' _ Hs Hlt).
    assert (match_here tag (t' +:+ g' +:+ rest') = Some g') as Hm'.
    { apply match_here_spec; [done|]. by exists t', rest'. }
    congruence.
  - intros (pre & (t & rest & -> & Ht & Hg) & Hmin).
    exists pre, (t +:+ g +:+ rest). split; [done|]. split.
    { apply match_here_spec; [done|]. by exists t, rest. }
    intros pre' suf' Hs Hlt.
    destruct (match_here tag suf') as [g'|] eqn:E; [|done].
    apply (match_here_spec _ _ _ Htag) in E as (t' & rest' & -> & Ht' & Hg').
    assert (String.length pre ≤ String.length pre'); [|lia].
    apply (Hmin pre' g'). by exists t', rest'.
Qed.

Lemma re_search_no_occurrence tag s :
  pattern_tag tag = true
  → re_search tag s = None ↔ ∀ pre g, ¬ occurs tag s pre g.
Proof.
  intros Htag. rewrite re_search_None. unfold occurs. split.
  - intros H pre g (t & rest & Hs & Ht & Hg).
    specialize (H pre _ Hs).
    assert (match_here tag (t +:+ g +:+ rest) = Some g) as Hm.
    { apply match_here_spec; [done|]. by exists t, rest. }
    congruence.
  - intros H pre suf ->.
    destruct (match_here tag suf) as [g|] eqn:E; [|done].
    apply (match_here_spec _ _ _ Htag) in E as (t & rest & -> & Ht & Hg).
    destruct (H pre g). by exists t, rest.
Qed.

Lemma re_search_group tag s g :
  re_search tag s = Some g → String.length g = 4 ∧ all_hex g = true.
Proof.
  intros (pre & suf & _ & Hm & _)%re_search_Some.
  unfold match_here in Hm. destruct (match_literal tag suf); [|done].
  by apply match_hex4_spec in Hm as (rest & _ & ? & ?).
Qed.

End Search.

Section CaseInsensitive.

Lemma code_lower_char_high c n :
  (128 ≤ n)%N → (Py.code (Py.lower_char c) =? n)%N = (Py.code c =? n)%N.
Proof.
  intros Hn. unfold Py.lower_char.
  destruct (Py.is_upper_letter c) eqn:E; [|done].
  unfold Py.is_upper_letter in E. apply andb_true_iff in E as [_ E].
  apply N.leb_le in E.
  assert (Hlt : (Py.code c + 32 < 256)%N) by lia.
  unfold Py.code at 1. rewrite N_ascii_embedding by done.
  destruct (N.eqb_spec (Py.code c + 32) n), (N.eqb_spec (Py.code c) n); lia.
Qed.

Lemma match_char_lower p s :
  match_char p (Py.lower s) = Py.lower <$> match_char p s.
Proof.
  destruct s as [|c [|d s]]; try done.
  - cbn. unfold char_ci at 1. rewrite lower_char_idem.
    fold (char_ci p c). by repeat case_match.
  - change (Py.lower (String c (String d s)))
      with (String (Py.lower_char c) (String (Py.lower_char d) (Py.lower s))).
    cbn [match_char]. unfold char_ci at 1. rewrite lower_char_idem.
    fold (char_ci p c). rewrite !code_lower_char_high by lia.
    by repeat case_match.
Qed.

Lemma match_literal_lower tag s :
  match_literal tag (Py.lower s) = Py.lower <$> match_literal tag s.
Proof.
  revert s. induction tag as [|p tag IH]; intros s; [done|].
  cbn [match_literal]. rewrite match_char_lower.
  destruct (match_char p s); [apply IH | done].
Qed.

Lemma match_hex4_lower r :
  match_hex4 (Py.lower r) = Py.lower <$> match_hex4 r.
Proof.
  destruct r as [|a [|b [|c [|d rest]]]]; try done.
  cbn. rewrite !is_hex_lower_char.
  by destruct (is_hex a && is_hex b && is_hex c && is_hex d).
Qed.

Lemma match_here_lower tag s :
  match_here tag (Py.lower s) = Py.lower <$> match_here tag s.
Proof.
  unfold match_here. rewrite match_literal_lower.
  destruct (match_literal tag s); [apply match_hex4_lower | done].
Qed.

Lemma re_search_lower tag s :
  re_search tag (Py.lower s) = Py.lower <$> re_search tag s.
Proof.
  induction s as [|c s IH].
  - cbn [re_search Py.lower Py.map_chars].
    change "" with (Py.lower "") at 1. rewrite match_here_lower.
    by destruct (match_here tag "").
  - change (Py.lower (String c s)) with (String (Py.lower_char c) (Py.lower s)).
    cbn [re_search].
    change (String (Py.lower_char c) (Py.lower s)) with (Py.lower (String c s)).
    rewrite match_here_lower.
    destruct (match_here tag (String c s)); [done | apply IH].
Qed.

Lemma extract_vid_pid_lower s :
  extract_vid_pid (Py.lower s) = extract_vid_pid s.
Proof.
  unfold extract_vid_pid. rewrite !re_search_lower.
  destruct (re_search "VID_" s), (re_search "PID_" s); cbn;
    by rewrite ?upper_lower.
Qed.

Lemma same_letter_lower a b :
  same_letter a b = true → Py.lower_char a = Py.lower_char b.
Proof.
  unfold same_letter. rewrite !orb_true_iff, !andb_true_iff, !N.eqb_eq.
  intros [[->%Ascii.eqb_eq|[Ha Hb%code_eq]]|[Hb Ha%code_eq]]; [done|..].
  - subst b. destruct a as [[] [] [] [] [] [] [] []]; vm_compute in Ha;
      try discriminate Ha; reflexivity.
  - subst a. destruct b as [[] [] [] [] [] [] [] []]; vm_compute in Hb;
      try discriminate Hb; reflexivity.
Qed.

Lemma same_letters_lower s1 s2 :
  same_letters s1 s2 = true → Py.lower s1 = Py.lower s2.
Proof.
  revert s2. induction s1 as [|a s1 IH]; intros [|b s2]; try done.
  cbn [same_letters]. intros [Hab Hs]%andb_true_iff.
  cbn. by rewrite (same_letter_lower _ _ Hab), (IH _ Hs).
Qed.

Lemma strip_prefix_spec v s r : Py.strip_prefix v s = Some r ↔ s = v +:+ r.
Proof.
  revert s. induction v as [|a v IH]; intros s; cbn.
  - split; [by intros [= ->] | by intros ->].
  - destruct s as [|b s]; [done|].
    destruct (Ascii.eqb_spec a b) as [->|Hab].
    + rewrite IH. split; [by intros -> | by intros [= ->]].
    + split; [done|]. by intros [= <- _].
Qed.

Lemma hex_run_lower r : hex_run (Py.lower r) = hex_run r.
Proof.
  induction r as [|c r IH]; [done|].
  cbn. rewrite is_hex_lower_char. by rewrite IH.
Qed.

Lemma match_hex4_run r : is_Some (match_hex4 r) ↔ 4 ≤ hex_run r.
Proof.
  destruct r as [|a [|b [|c [|d rest]]]]; cbn;
    repeat (match goal with |- context [is_hex ?x] => destruct (is_hex x) end; cbn);
    split; try (intros [? ?]; done); try lia; by eauto.
Qed.

Lemma match_here_run tag s :
  pattern_tag tag = true
  → is_Some (match_here tag s)
    ↔ ∃ v r, v ∈ variants tag ∧ Py.strip_prefix v s = Some r ∧ 4 ≤ hex_run r.
Proof.
  intros Htag. unfold match_here.
  destruct (match_literal tag s) as [r|] eqn:E.
  - apply (match_literal_spec _ _ _ Htag) in E as (t & -> & Ht).
    rewrite match_hex4_run. split.
    + intros H. exists t, r. by rewrite strip_prefix_spec.
    + intros (v & r' & Hv & Hs%strip_prefix_spec & H).
      assert (match_literal tag (v +:+ r') = Some r') as Hm.
      { apply match_literal_spec; [done|]. by exists v. }
      assert (match_literal tag (t +:+ r) = Some r) as Hm'.
      { apply match_literal_spec; [done|]. by exists t. }
      rewrite Hs in Hm'. congruence.
  - split; [by intros [? ?]|]. intros (v & r & Hv & Hs%strip_prefix_spec & _).
    assert (match_literal tag s = Some r) as Hm; [|congruence].
    apply match_literal_spec; [done|]. by exists v.
Qed.

Lemma elem_of_here_runs n tag s :
  n ∈ omap (λ v, hex_run <$> Py.strip_prefix v s) (variants tag)
  ↔ ∃ v r, v ∈ variants tag ∧ Py.strip_prefix v s = Some r ∧ n = hex_run r.
Proof.
  rewrite list_elem_of_omap. split.
  - intros (v & Hv & H). destruct (Py.strip_prefix v s) as [r|] eqn:E; [|done].
    injection H as <-. by exists v, r.
  - intros (v & r & Hv & Hs & ->). exists v. by rewrite Hs.
Qed.

Lemma elem_of_tag_runs n tag s :
  n ∈ tag_runs tag s
  ↔ (∃ v r, v ∈ variants tag ∧ Py.strip_prefix v s = Some r ∧ n = hex_run r)
    ∨ match s with
      | EmptyString => False
      | String _ t => n ∈ tag_runs tag t
      end.
Proof.
  destruct s; cbn [tag_runs].
  - rewrite elem_of_here_runs. tauto.
  - by rewrite elem_of_app, elem_of_here_runs.
Qed.

Lemma re_search_runs tag s :
  pattern_tag tag = true
  → is_Some (re_search tag s) ↔ ∃ n, n ∈ tag_runs tag s ∧ 4 ≤ n.
Proof.
  intros Htag. induction s as [|c s IH]; cbn [re_search].
  - pose proof (match_here_run tag "" Htag) as Hh.
    setoid_rewrite elem_of_tag_runs.
    destruct (match_here tag "") as [g|].
    + split; [|by eauto]. intros _.
      destruct Hh as [Hh _]. destruct Hh as (v & r & Hv & Hr & H4); [by eauto|].
      exists (hex_run r). split; [left; by exists v, r | done].
    + split; [by intros [? ?]|].
      intros (n & [(v & r & Hv & Hr & ->)|[]] & H4).
      destruct Hh as [_ Hh]. destruct Hh as [? ?]; [by eauto | done].
  - pose proof (match_here_run tag (String c s) Htag) as Hh.
    setoid_rewrite (elem_of_tag_runs _ tag (String c s)).
    destruct (match_here tag (String c s)) as [g|].
    + split; [|by eauto]. intros _.
      destruct Hh as [Hh _]. destruct Hh as (v & r & Hv & Hr & H4); [by eauto|].
      exists (hex_run r). split; [left; by exists v, r | done].
    + rewrite IH. split.
      * intros (n & Hn & H4). exists n. by split; [right|].
      * intros (n & [(v & r & Hv & Hr & ->)|Hn] & H4); [|by eauto].
        destruct Hh as [_ Hh]. destruct Hh as [? ?]; [by eauto | done].
Qed.

End CaseInsensitive.

Section Skip.

Lemma contains_underscore_cons p t :
  Py.contains "_" (String p t)
  = if Ascii.eqb "_" p then true else Py.contains "_" t.
Proof. cbn [Py.contains Py.strip_prefix]. by destruct (Ascii.eqb "_" p). Qed.

Lemma contains_underscore_lower s :
  Py.contains "_" (Py.lower s) = Py.contains "_" s.
Proof.
  induction s as [|c s IH]; [done|].
  change (Py.lower (String c s)) with (String (Py.lower_char c) (Py.lower s)).
  rewrite !contains_underscore_cons, IH.
  by destruct c as [[] [] [] [] [] [] [] []].
Qed.

Lemma char_ci_underscore c : char_ci "_" c = true → c = "_"%char.
Proof. by destruct c as [[] [] [] [] [] [] [] []]. Qed.

Lemma match_char_underscore s r :
  match_char "_" s = Some r → s = String "_" r.
Proof.
  destruct s as [|c s]; [done|]. cbn.
  destruct (char_ci "_" c) eqn:E; [|done].
  apply char_ci_underscore in E as ->. by intros [= ->].
Qed.

(** One character of the pattern matched where the text begins with a
    stretch [pre] without underscore, followed by characters [l] below
    U+0080: the character is taken from [pre], or [pre] is empty and it
    is the first of [l]. *)
Lemma match_char_eats t pre l x r :
  Py.contains "_" pre = false → Py.is_ascii l = true → l ≠ ""
  → match_char t (pre +:+ l +:+ x) = Some r
  → (pre ≠ "" ∧ ∃ pre', r = pre' +:+ l +:+ x ∧ Py.contains "_" pre' = false)
    ∨ (pre = "" ∧ ∃ c l', l = String c l' ∧ r = l' +:+ x).
Proof.
  intros Hpre Hl Hne. destruct l as [|c l]; [done|]. clear Hne.
  cbn in Hl. apply andb_true_iff in Hl as [Hc Hl]. apply N.ltb_lt in Hc.
  destruct pre as [|p [|p2 pre]]; cbn [String.append match_char].
  - destruct (char_ci t c).
    + intros [= <-]. right. split; [done|]. by exists c, l.
    + destruct (char_ci t "I"); [|done].
      destruct (l +:+ x); [done|].
      destruct (N.eqb_spec (Py.code c) 196) as [H|]; [lia | done].
  - intros H. left. split; [done|]. revert H. destruct (char_ci t p).
    + intros [= <-]. by exists "".
    + destruct (char_ci t "I"); [|done].
      destruct (N.eqb_spec (Py.code c) 176), (N.eqb_spec (Py.code c) 177);
        try lia. by rewrite andb_false_r.
  - intros H. left. split; [done|]. revert H.
    rewrite !contains_underscore_cons in Hpre.
    destruct (Ascii.eqb "_" p); [done|]. destruct (Ascii.eqb "_" p2) eqn:E2; [done|].
    destruct (char_ci t p).
    + intros [= <-]. exists (String p2 pre). split; [done|].
      by rewrite contains_underscore_cons, E2.
    + destruct (char_ci t "I"); [|done].
      destruct (_ && _)%N; [|done]. intros [= <-]. by exists pre.
Qed.

Lemma match_here_in_prefix t1 t2 t3 p pre a b c x :
  Py.contains "_" (String p pre) = false
  → Py.is_ascii (String a (String b (String c ""))) = true
  → a ≠ "_"%char → b ≠ "_"%char → c ≠ "_"%char
  → match_here (String t1 (String t2 (String t3 "_")))
      (String p pre +:+ String a (String b (String c x))) = None.
Proof.
  intros Hpre Hl Ha Hb Hc.
  destruct (match_here _ _) as [g|] eqn:E; [exfalso|done].
  unfold match_here in E.
  destruct (match_literal _ _) as [r|] eqn:El; [clear E|done].
  cbn [match_literal] in El.
  set (l := String a (String b (String c ""))) in *.
  change (String p pre +:+ String a (String b (String c x)))
    with (String p pre +:+ l +:+ x) in El.
  assert (Hfin : ∀ pre' l' r',
    Py.contains "_" pre' = false → Py.contains "_" l' = false → l' ≠ ""
    → match_char "_" (pre' +:+ l' +:+ x) = Some r' → False).
  { intros pre' l' r' Hp' Hl' Hne H%match_char_underscore.
    destruct pre' as [|q pre'], l' as [|q' l']; try done; cbn in H;
      injection H as -> _.
    - by rewrite contains_underscore_cons in Hl'.
    - by rewrite contains_underscore_cons in Hp'. }
  assert (Hl3 : Py.contains "_" l = false).
  { unfold l. rewrite !contains_underscore_cons.
    by destruct (Ascii.eqb_spec "_" a), (Ascii.eqb_spec "_" b),
      (Ascii.eqb_spec "_" c). }
  destruct (match_char t1 _) as [r1|] eqn:E1; [|done].
  apply match_char_eats in E1 as [(_ & pre1 & -> & Hp1)|[? _]]; try done.
  destruct (match_char t2 _) as [r2|] eqn:E2; [|done].
  apply match_char_eats in E2
    as [(_ & pre2 & -> & Hp2)|(-> & c2 & l2 & Hl2 & ->)]; try done.
  - destruct (match_char t3 _) as [r3|] eqn:E3; [|done].
    apply match_char_eats in E3
      as [(_ & pre3 & -> & Hp3)|(-> & c3 & l3 & Hl3' & ->)]; try done.
    + destruct (match_char "_" _) as [r4|] eqn:E4; [|done].
      by apply (Hfin pre3 l r4).
    + destruct (match_char "_" _) as [r4|] eqn:E4; [|done].
      injection Hl3' as <- <-.
      apply (Hfin "" (String b (String c "")) r4); try done.
      rewrite !contains_underscore_cons.
      by destruct (Ascii.eqb_spec "_" b), (Ascii.eqb_spec "_" c).
  - injection Hl2 as <- <-.
    destruct (match_char t3 _) as [r3|] eqn:E3; [|done].
    apply (match_char_eats t3 "" (String b (String c ""))) in E3
      as [(? & _)|(_ & c3 & l3 & Hl3' & ->)]; try done.
    + injection Hl3' as <- <-.
      destruct (match_char "_" _) as [r4|] eqn:E4; [|done].
      apply (Hfin "" (String c "") r4); try done.
      rewrite !contains_underscore_cons.
      by destruct (Ascii.eqb_spec "_" c).
    + cbn in Hl |- *. by apply andb_true_iff in Hl as [_ ?].
Qed.

Lemma re_search_skip t1 t2 t3 pre a b c x :
  Py.contains "_" pre = false
  → Py.is_ascii (String a (String b (String c ""))) = true
  → a ≠ "_"%char → b ≠ "_"%char → c ≠ "_"%char
  → re_search (String t1 (String t2 (String t3 "_")))
      (pre +:+ String a (String b (String c x)))
    = re_search (String t1 (String t2 (String t3 "_")))
        (String a (String b (String c x))).
Proof.
  intros Hpre Hl Ha Hb Hc. induction pre as [|p pre IH]; [done|].
  pose proof (match_here_in_prefix t1 t2 t3 p pre a b c x Hpre Hl Ha Hb Hc)
    as Hnone.
  rewrite contains_underscore_cons in Hpre.
  destruct (Ascii.eqb_spec "_" p) as [|Hp]; [done|].
  change (String p pre +:+ ?y) with (String p (pre +:+ y)) in *.
  cbn [re_search]. by rewrite Hnone, (IH Hpre).
Qed.

End Skip.

Lemma truthy_length4 g : String.length g = 4 → Py.truthy (Some g) = true.
Proof. by destruct g. Qed.

(** C3 (as amended). For every input string, [extract_vid_pid] gives the
    vendor id exactly when the string contains, in any case, "VID_"
    followed by at least four hex digits, and it is then the first four
    digits after the leftmost such occurrence, in upper case; likewise the
    product id with "PID_"; the two are searched independently. Any case
    is that of [re.IGNORECASE] on a [str]: each letter in its two cases,
    and for the letter I also U+0130 and U+0131. Both ids are found
    exactly when each tag has an occurrence whose run of hex digits has
    length four or more; an id not found is [None]. Every id returned is
    four hex digits in upper case. An input made of "VID_ab12&PID_cd34"
    with its letters in any case, preceded by text without an underscore
    and followed by anything, gives exactly ("AB12", "CD34"). *)
Theorem extract_vid_pid_leftmost :
  ∀ s : string,
    (∀ v, (extract_vid_pid s).1 = Some v
          ↔ ∃ g, leftmost "VID_" s g ∧ v = Py.upper g)
    ∧ (∀ p, (extract_vid_pid s).2 = Some p
            ↔ ∃ g, leftmost "PID_" s g ∧ p = Py.upper g)
    ∧ ((extract_vid_pid s).1 = None ↔ ∀ pre g, ¬ occurs "VID_" s pre g)
    ∧ ((extract_vid_pid s).2 = None ↔ ∀ pre g, ¬ occurs "PID_" s pre g)
    ∧ (both (extract_vid_pid s) = true
       ↔ (∃ n, n ∈ tag_runs "VID_" s ∧ 4 ≤ n)
         ∧ (∃ n, n ∈ tag_runs "PID_" s ∧ 4 ≤ n))
    ∧ (∀ x, (extract_vid_pid s).1 = Some x ∨ (extract_vid_pid s).2 = Some x
            → String.length x = 4 ∧ all_hex x = true ∧ Py.upper x = x)
    ∧ (∀ pre m post,
         s = pre +:+ m +:+ post
         → same_letters m "VID_ab12&PID_cd34" = true
         → Py.contains "_" pre = false
         → extract_vid_pid s = (Some "AB12", Some "CD34")).
Proof.
  intros s.
  assert (Hval : ∀ tag v, pattern_tag tag = true →
    match re_search tag s with Some g => Some (Py.upper g) | None => None end
    = Some v ↔ ∃ g, leftmost tag s g ∧ v = Py.upper g).
  { intros tag v Htag. split.
    - destruct (re_search tag s) as [g|] eqn:E; [|done].
      intros [= <-]. exists g. by rewrite <- re_search_leftmost.
    - intros (g & Hg & ->). apply re_search_leftmost in Hg; [|done].
      by rewrite Hg. }
  assert (Hnone : ∀ tag, pattern_tag tag = true →
    match re_search tag s with Some g => Some (Py.upper g) | None => None end
    = None ↔ ∀ pre g, ¬ occurs tag s pre g).
  { intros tag Htag. rewrite <- re_search_no_occurrence by done.
    by destruct (re_search tag s). }
  assert (Htruthy : ∀ tag,
    Py.truthy
      match re_search tag s with Some g => Some (Py.upper g) | None => None end
    = true ↔ is_Some (re_search tag s)).
  { intros tag. destruct (re_search tag s) as [g|] eqn:E.
    - split; [by eauto|]. intros _.
      apply re_search_group in E as [Hlen _].
      apply truthy_length4. by rewrite upper_length.
    - split; [done | by intros [? ?]]. }
  split_and!.
  - intros v. by apply (Hval "VID_").
  - intros p. by apply (Hval "PID_").
  - by apply (Hnone "VID_").
  - by apply (Hnone "PID_").
  - unfold both, extract_vid_pid. cbn [fst snd].
    rewrite andb_true_iff, !Htruthy, !re_search_runs; done.
  - assert (Hshape : ∀ tag x,
      match re_search tag s with Some g => Some (Py.upper g) | None => None end
      = Some x
      → String.length x = 4 ∧ all_hex x = true ∧ Py.upper x = x).
    { intros tag x. destruct (re_search tag s) as [g|] eqn:E; [|done].
      intros [= <-]. apply re_search_group in E as [Hl Hh].
      by rewrite upper_length, all_hex_upper, upper_idem. }
    intros x [Hx|Hx]; [by apply (Hshape "VID_") | by apply (Hshape "PID_")].
  - intros pre m post -> Hm%same_letters_lower Hpre.
    rewrite <- extract_vid_pid_lower, !lower_app, Hm.
    rewrite <- contains_underscore_lower in Hpre.
    unfold extract_vid_pid.
    change (Py.lower "VID_ab12&PID_cd34" +:+ Py.lower post)
      with (String "v" (String "i" (String "d"
              ("_ab12&pid_cd34" +:+ Py.lower post)))).
    rewrite !(re_search_skip _ _ _ _ _ _ _ _ Hpre) by done.
    reflexivity.
Qed.

(** The same holds of the two letters that only Unicode relates to I. *)
Example extract_vid_pid_dotless_i :
  extract_vid_pid "vıd_1234&pıd_abcd" = (Some "1234", Some "ABCD")
  ∧ extract_vid_pid "VİD_1234&PİD_5678" = (Some "1234", Some "5678")
  ∧ occurs "VID_" "vıd_1234&pıd_abcd" "" "1234".
Proof.
  split_and!; [by vm_compute | by vm_compute |].
  exists "vıd_", "&pıd_abcd". split_and!; try done.
  apply (bool_decide_unpack _). by vm_compute.
Qed.

(** C3 (as stated) fails: with five hex digits after each tag no run has
    length four, yet both ids are found. *)
Lemma extract_vid_pid_exactly4_counterexample :
  ¬ extractKey_exactly4 "USB\VID_12345&PID_6789A\0".
Proof.
  unfold extractKey_exactly4. intros [H _].
  destruct (H eq_refl) as [H4 _].
  vm_compute in H4. apply list_elem_of_singleton in H4. discriminate H4.
Qed.

Example extract_long_run :
  extract_vid_pid "USB\VID_12345&PID_6789A\0" = (Some "1234", Some "6789").
Proof. reflexivity. Qed.

Example extract_earlier_match :
  extract_vid_pid "VID_0000&PID_1111 VID_ab12&PID_cd34"
  = (Some "0000", Some "1111").
Proof. reflexivity. Qed.

Lemma extract_vid_pid_leftmost_witness :
  extract_vid_pid "USB\vid_AB12&pid_Cd34\7" = (Some "AB12", Some "CD34").
Proof.
  destruct (extract_vid_pid_leftmost "USB\vid_AB12&pid_Cd34\7")
    as (_ & _ & _ & _ & _ & _ & H).
  apply (H "USB\" "vid_AB12&pid_Cd34" "\7"); reflexivity.
Defined.

(** ** Key derivation and display name *)

Section Key.

Lemma extract_both s :
  both (extract_vid_pid s) = true
  ↔ ∃ vid pid, extract_vid_pid s = (Some vid, Some pid).
Proof.
  unfold both, extract_vid_pid. cbn [fst snd].
  assert (Hlen : ∀ tag g, re_search tag s = Some g
                          → Py.truthy (Some (Py.upper g)) = true).
  { intros tag g [Hl _]%re_search_group.
    apply truthy_length4. by rewrite upper_length. }
  destruct (re_search "VID_" s) as [g1|] eqn:E1,
           (re_search "PID_" s) as [g2|] eqn:E2.
  - rewrite (Hlen _ _ E1), (Hlen _ _ E2). split; [by eauto | done].
  - change (Py.truthy None) with false. rewrite andb_false_r.
    split; [done | by intros (? & ? & ?)].
  - split; [done | by intros (? & ? & ?)].
  - split; [done | by intros (? & ? & ?)].
Qed.

Lemma device_key_of_extract s :
  device_key_of (extract_vid_pid s) = key_string <$> extractKey s.
Proof.
  unfold device_key_of, extractKey.
  pose proof (extract_both s) as Hb.
  destruct (extract_vid_pid s) as [[vid|] [pid|]]; try done.
  - destruct Hb as [_ ->]; [done | by eauto].
  - unfold both. cbn. by rewrite andb_false_r.
Qed.

Lemma extractKey_both s :
  both (extract_vid_pid s)
  = match extractKey s with Some _ => true | None => false end.
Proof.
  unfold extractKey. pose proof (extract_both s) as Hb.
  destruct (extract_vid_pid s) as [[vid|] [pid|]] eqn:E.
  - apply Hb. by eauto.
  - unfold both; cbn. apply andb_false_r.
  - done.
  - done.
Qed.

Lemma device_key_of_not_both vp : both vp = false → device_key_of vp = None.
Proof. unfold device_key_of. by intros ->. Qed.

Lemma hwid_loop_first (hardware_ids : list string) vp :
  both vp = false
  → device_key_of (hwid_loop vp hardware_ids)
    = key_string <$> first_key hardware_ids.
Proof.
  revert vp. induction hardware_ids as [|h rest IH]; intros vp Hvp.
  - by apply device_key_of_not_both.
  - cbn [hwid_loop first_key].
    rewrite extractKey_both.
    pose proof (device_key_of_extract h) as Hk.
    pose proof (extractKey_both h) as Hb.
    destruct (extractKey h) as [k|]; [done|].
    by apply IH.
Qed.

Lemma extractKey_empty : extractKey "" = None.
Proof. reflexivity. Qed.

Lemma first_key_None l :
  first_key l = None ↔ ∀ i, i ∈ l → extractKey i = None.
Proof.
  induction l as [|x l IH]; cbn [first_key].
  - split; [|done]. intros _ i Hi. by apply elem_of_nil in Hi.
  - destruct (extractKey x) as [k|] eqn:E.
    + split; [done|]. intros H. rewrite (H x) in E; [done | left].
    + rewrite IH. split.
      * intros H i [->|Hi]%elem_of_cons; [done | by apply H].
      * intros H i Hi. apply H. by right.
Qed.

Lemma find_vid_pid_first_key dev :
  device_key_of (find_vid_pid (InstanceId dev) (hardware_ids_of (HardwareId dev)))
  = key_string <$> first_key (identifiers dev).
Proof.
  unfold find_vid_pid, identifiers.
  destruct (InstanceId dev) as [[|c i]|];
    destruct (hardware_ids_of (HardwareId dev)) as [[|h hws]|];
    cbn [List.app first_key]; rewrite ?extractKey_empty; try reflexivity.
  all: try (change (negb (both (None, None))) with true; cbv iota).
  - by rewrite hwid_loop_first.
  - rewrite device_key_of_extract.
    by destruct (extractKey (String c i)).
  - pose proof (device_key_of_extract (String c i)) as Hk.
    pose proof (extractKey_both (String c i)) as Hb.
    destruct (extractKey (String c i)) as [k|]; rewrite Hb; cbn [negb].
    + done.
    + by rewrite hwid_loop_first.
  - rewrite device_key_of_extract.
    by destruct (extractKey (String c i)).
  - by rewrite hwid_loop_first.
Qed.

End Key.

(** C4. For every raw record the device key is the one obtained by
    applying [extractKey] to the instance identifier first and then, only
    if that gave no pair, to the hardware identifiers in listed order, up
    to the first one that gives both ids; there is no key when no
    identifier gives a pair. *)
Theorem device_key_first_identifier :
  ∀ dev : dev_info,
    device_key_of (find_vid_pid (InstanceId dev) (hardware_ids_of (HardwareId dev)))
    = key_string <$> first_key (identifiers dev)
    ∧ (device_key_of
         (find_vid_pid (InstanceId dev) (hardware_ids_of (HardwareId dev)))
       = None
       ↔ ∀ i, i ∈ identifiers dev → extractKey i = None).
Proof.
  intros dev. split; [apply find_vid_pid_first_key|].
  rewrite find_vid_pid_first_key, <- first_key_None.
  by destruct (first_key (identifiers dev)).
Qed.

Section MakeDevice.

Context (device_database : gmap string string).

Lemma str_app_nonempty (a b : string) c : a +:+ String c b ≠ "".
Proof. by destruct a. Qed.

Lemma final_display_name_spec dev c i key :
  InstanceId dev = Some (String c i)
  → final_display_name device_database dev key
    = Some (displayName (key ≫= (device_database !!.)) (FriendlyName dev)
              (DeviceDescription dev) (String c i) key).
Proof.
  intros Hi. unfold final_display_name, displayName, Py.por. rewrite Hi.
  destruct key as [k|]; cbn [mbind option_bind];
    [destruct (device_database !! k) as [[|??]|]|];
    destruct (FriendlyName dev) as [[|??]|];
    destruct (DeviceDescription dev) as [[|??]|]; reflexivity.
Qed.

Lemma displayName_nonempty override friendlyName description c i key :
  displayName override friendlyName description (String c i) key ≠ "".
Proof.
  unfold displayName. destruct key as [k|]; [apply str_app_nonempty|].
  destruct override as [[|??]|], friendlyName as [[|??]|],
    description as [[|??]|]; done.
Qed.

Lemma displayName_as_given_eq override friendlyName description i key :
  override ≠ Some "" → friendlyName ≠ Some "" → description ≠ Some ""
  → displayName override friendlyName description i key
    = displayName_as_given override friendlyName description i key.
Proof.
  unfold displayName, displayName_as_given.
  by destruct override as [[|??]|], friendlyName as [[|??]|],
    description as [[|??]|].
Qed.

(** A record whose instance identifier is true always gives an element:
    the name computed for it is a string. *)
Lemma make_device_is_Some dev :
  Py.truthy (InstanceId dev) = true → is_Some (make_device device_database dev).
Proof.
  unfold make_device. destruct (InstanceId dev) as [[|c i]|] eqn:Hi; try done.
  intros _. rewrite (final_display_name_spec _ c i) by done. by eauto.
Qed.

Lemma make_device_None dev :
  Py.truthy (InstanceId dev) = false → make_device device_database dev = None.
Proof.
  unfold make_device. by destruct (InstanceId dev) as [[|c i]|].
Qed.

Lemma make_device_Some dev d :
  make_device device_database dev = Some d
  → full_info d = dev
    ∧ InstanceId dev = Some (id d)
    ∧ id d ≠ ""
    ∧ hardware_id d = hardware_ids_of (HardwareId dev)
    ∧ vid_pid_key d
      = device_key_of
          (find_vid_pid (InstanceId dev) (hardware_ids_of (HardwareId dev)))
    ∧ display_name d
      = displayName (vid_pid_key d ≫= (device_database !!.)) (FriendlyName dev)
          (DeviceDescription dev) (id d) (vid_pid_key d).
Proof.
  unfold make_device. destruct (InstanceId dev) as [[|c i]|] eqn:Hi; try done.
  rewrite (final_display_name_spec _ c i) by done.
  intros [= <-]. by cbn.
Qed.

End MakeDevice.

Section Collect.

Context (device_database : gmap string string).

Lemma fold_loop_body l :
  ∀ (before : list dev_info) (acc : list device) (seen : gset (option string)),
    (∀ x, x ∈ seen ↔ x ∈ InstanceId <$> before)
    → (fold_left (loop_body device_database) l (acc, seen)).1
      = acc ++ omap (make_device device_database) (first_occurrences before l).
Proof.
  induction l as [|r rest IH]; intros before acc seen Hseen.
  - cbn. by rewrite app_nil_r.
  - cbn [fold_left first_occurrences]. unfold loop_body at 2.
    destruct (decide (InstanceId r ∈ seen)) as [Hin|Hnin].
    + rewrite bool_decide_eq_true_2 by by apply Hseen.
      cbn [List.app]. apply IH.
      intros x. rewrite fmap_app, elem_of_app, <- Hseen.
      cbn. rewrite list_elem_of_singleton. split; [by left|].
      by intros [?| ->].
    + rewrite bool_decide_eq_false_2 by by rewrite <- Hseen.
      assert (Hseen' : ∀ x, x ∈ {[InstanceId r]} ∪ seen
                            ↔ x ∈ InstanceId <$> (before ++ [r])).
      { intros x. rewrite fmap_app, elem_of_app, <- Hseen, elem_of_union,
          elem_of_singleton.
        cbn. rewrite list_elem_of_singleton. tauto. }
      cbn [List.app omap list_omap].
      destruct (make_device device_database r) as [d|].
      * rewrite (IH _ _ _ Hseen'). by rewrite <- app_assoc.
      * by rewrite (IH _ _ _ Hseen').
Qed.

Lemma collect_spec l :
  collect device_database l
  = omap (make_device device_database) (first_occurrences [] l).
Proof.
  unfold collect. rewrite (fold_loop_body l []); [done|].
  intros x. cbn. by rewrite elem_of_empty, elem_of_nil.
Qed.

End Collect.

Section FirstOccurrences.

Lemma first_occurrences_elem (before l : list dev_info) r :
  r ∈ first_occurrences before l
  ↔ ∃ i, l !! i = Some r
      ∧ (InstanceId r ∉ InstanceId <$> before)
      ∧ ∀ j r', j < i → l !! j = Some r' → InstanceId r' ≠ InstanceId r.
Proof.
  revert before. induction l as [|x rest IH]; intros before.
  - cbn. rewrite elem_of_nil. split; [done|]. by intros (i & Hi & _).
  - cbn [first_occurrences]. rewrite elem_of_app, IH. split.
    + intros [Hx|(i & Hi & Hnew & Hmin)].
      * destruct (bool_decide_reflect (InstanceId x ∈ InstanceId <$> before))
          as [|Hnin]; [by apply elem_of_nil in Hx|].
        apply list_elem_of_singleton in Hx as ->.
        exists 0. split; [done|]. split; [done|]. intros; lia.
      * rewrite fmap_app, elem_of_app in Hnew. cbn in Hnew.
        rewrite list_elem_of_singleton in Hnew.
        exists (S i). split; [done|]. split; [tauto|].
        intros [|j] r' Hj Hr'; cbn in Hr'.
        -- injection Hr' as <-. intros Heq. apply Hnew. by right.
        -- apply (Hmin j); [lia | done].
    + intros ([|i] & Hi & Hnew & Hmin); cbn in Hi.
      * injection Hi as ->. left.
        rewrite bool_decide_eq_false_2 by done. by apply list_elem_of_singleton.
      * right. exists i. split; [done|]. split.
        -- rewrite fmap_app, elem_of_app. cbn. rewrite list_elem_of_singleton.
           intros [?|Heq]; [done|]. by apply (Hmin 0 x); [lia | |].
        -- intros j r' Hj Hr'. apply (Hmin (S j)); [lia | done].
Qed.

Lemma first_occurrences_NoDup (before l : list dev_info) :
  NoDup (InstanceId <$> first_occurrences before l).
Proof.
  revert before. induction l as [|x rest IH]; intros before.
  - constructor.
  - cbn [first_occurrences].
    destruct (bool_decide (InstanceId x ∈ InstanceId <$> before)); [apply IH|].
    cbn. constructor; [|apply IH].
    intros (r & Heq & Hr)%list_elem_of_fmap.
    apply first_occurrences_elem in Hr as (_ & _ & Hnew & _).
    apply Hnew. rewrite fmap_app, elem_of_app. right. cbn.
    by apply list_elem_of_singleton.
Qed.

Lemma first_occurrences_covers (before l : list dev_info) r :
  r ∈ l
  → InstanceId r ∉ InstanceId <$> before
  → ∃ r0, r0 ∈ first_occurrences before l ∧ InstanceId r0 = InstanceId r.
Proof.
  revert before. induction l as [|x rest IH]; intros before Hr Hnew.
  - by apply elem_of_nil in Hr.
  - cbn [first_occurrences].
    destruct (decide (InstanceId x = InstanceId r)) as [Heq|Hne].
    + exists x. split; [|done]. apply elem_of_app. left.
      rewrite bool_decide_eq_false_2 by by rewrite Heq.
      by apply list_elem_of_singleton.
    + apply elem_of_cons in Hr as [->|Hr]; [done|].
      destruct (IH (before ++ [x]) Hr) as (r0 & Hr0 & Heq).
      { rewrite fmap_app, elem_of_app. cbn. rewrite list_elem_of_singleton.
        intros [?|?]; [done | by apply Hne]. }
      exists r0. split; [|done]. apply elem_of_app. by right.
Qed.

End FirstOccurrences.

Section Ids.

Context (device_database : gmap string string).

Lemma omap_make_device_NoDup (l : list dev_info) :
  NoDup (InstanceId <$> l)
  → NoDup (id <$> omap (make_device device_database) l).
Proof.
  induction l as [|r l IH]; [constructor|].
  cbn [fmap list_fmap omap list_omap]. intros [Hr Hl]%NoDup_cons.
  destruct (make_device device_database r) as [d|] eqn:Hd; [|by apply IH].
  cbn. constructor; [|by apply IH].
  intros (d' & Heq & (r' & Hr' & Hd')%list_elem_of_omap)%list_elem_of_fmap.
  apply make_device_Some in Hd as (_ & Hid & _).
  apply make_device_Some in Hd' as (_ & Hid' & _).
  apply Hr. apply list_elem_of_fmap. exists r'. split; [|done].
  by rewrite Hid, Hid', Heq.
Qed.

End Ids.

(** ** [list.sort] *)

Section SortProperties.

Context {A : Type} (key : A → string).

Local Abbreviation le := (key_le key).

Lemma str_le_refl s : Py.str_le s s = true.
Proof.
  apply Is_true_true. change (String.le s s). reflexivity.
Qed.

Lemma str_le_trans a b c :
  Py.str_le a b = true → Py.str_le b c = true → Py.str_le a c = true.
Proof.
  intros H1%Is_true_true H2%Is_true_true. apply Is_true_true.
  change (String.le a c). by trans b.
Qed.

Lemma str_le_total a b : Py.str_le a b = false → Py.str_le b a = true.
Proof.
  intros H. destruct (String.leb_total a b) as [H'|H']; [|done].
  unfold Py.str_le in H. congruence.
Qed.

#[local] Instance le_trans : Transitive le.
Proof. intros a b c. apply str_le_trans. Qed.

Lemma insert_by_perm x (l : list A) : insert_by key x l ≡ₚ x :: l.
Proof.
  induction l as [|y l IH]; [done|].
  cbn [insert_by]. destruct (Py.str_le (key x) (key y)); [done|].
  rewrite IH. apply Permutation_swap.
Qed.

Lemma list_sort_perm (l : list A) : list_sort key l ≡ₚ l.
Proof.
  induction l as [|x l IH]; [done|].
  cbn. rewrite insert_by_perm. by constructor.
Qed.

Lemma insert_by_hd_rel x y (l : list A) :
  le y x → HdRel le y l → HdRel le y (insert_by key x l).
Proof.
  intros Hyx Hl. destruct l as [|z l]; cbn [insert_by].
  - by constructor.
  - destruct (Py.str_le (key x) (key z)); constructor; [done|].
    by inversion Hl.
Qed.

Lemma insert_by_sorted x (l : list A) :
  Sorted le l → Sorted le (insert_by key x l).
Proof.
  induction 1 as [|y l Hl IH Hhd]; cbn [insert_by].
  - by repeat constructor.
  - destruct (Py.str_le (key x) (key y)) eqn:E.
    + constructor; [by constructor|]. by constructor.
    + constructor; [done|].
      apply insert_by_hd_rel; [|done]. by apply str_le_total.
Qed.

Lemma list_sort_sorted (l : list A) : Sorted le (list_sort key l).
Proof.
  induction l as [|x l IH]; [constructor|].
  by apply insert_by_sorted.
Qed.

Lemma list_sort_strongly_sorted (l : list A) :
  StronglySorted le (list_sort key l).
Proof. apply Sorted_StronglySorted; [apply _ | apply list_sort_sorted]. Qed.

(** Stability: the elements with a given key keep their order. *)
Lemma insert_by_filter k x (l : list A) :
  filter (λ y, key y = k) (insert_by key x l)
  = filter (λ y, key y = k) (x :: l).
Proof.
  induction l as [|y l IH]; [done|].
  cbn [insert_by]. destruct (Py.str_le (key x) (key y)) eqn:E; [done|].
  rewrite filter_cons, IH, !filter_cons.
  destruct (decide (key y = k)) as [Hy|], (decide (key x = k)) as [Hx|];
    try done.
  rewrite Hx, Hy, str_le_refl in E. discriminate E.
Qed.

Lemma list_sort_stable k (l : list A) :
  filter (λ y, key y = k) (list_sort key l) = filter (λ y, key y = k) l.
Proof.
  induction l as [|x l IH]; [done|].
  cbn [list_sort foldr]. rewrite insert_by_filter, !filter_cons.
  fold (list_sort key l). by rewrite IH.
Qed.

End SortProperties.

Section SortKeys.

Lemma insert_by_ext {A} (key1 key2 : A → string) x (l : list A) :
  (∀ y, y ∈ x :: l → key1 y = key2 y)
  → insert_by key1 x l = insert_by key2 x l.
Proof.
  induction l as [|y l IH]; [done|]. intros H.
  cbn [insert_by]. rewrite (H x), (H y) by (by left || (right; by left)).
  destruct (Py.str_le _ _); [done|]. f_equal. apply IH.
  intros z [->|Hz]%elem_of_cons; apply H; [left | right; by right].
Qed.

Lemma list_sort_ext {A} (key1 key2 : A → string) (l : list A) :
  (∀ y, y ∈ l → key1 y = key2 y) → list_sort key1 l = list_sort key2 l.
Proof.
  induction l as [|x l IH]; [done|]. intros H.
  cbn [list_sort foldr]. fold (list_sort key1 l) (list_sort key2 l).
  rewrite <- IH by (intros y Hy; apply H; by right).
  apply insert_by_ext. intros y Hy. apply H.
  by rewrite <- (list_sort_perm key1 l).
Qed.

Lemma StronglySorted_weaken {A} (R1 R2 : relation A) (l : list A) :
  (∀ x y, R1 x y → R2 x y) → StronglySorted R1 l → StronglySorted R2 l.
Proof.
  intros H. induction 1 as [|x l Hl IH Hx]; constructor; [done|].
  eapply Forall_impl; [exact Hx | apply H].
Qed.

Lemma fold_case_lower x : N_of_ascii (Py.lower_char x) = fold_case x.
Proof. by destruct x as [[] [] [] [] [] [] [] []]. Qed.

Lemma ci_le_lower a b : ci_le a b = Py.str_le (Py.lower a) (Py.lower b).
Proof.
  unfold Py.str_le, String.leb.
  revert b. induction a as [|x a IH]; intros [|y b]; try done.
  change (Py.lower (String x a)) with (String (Py.lower_char x) (Py.lower a)).
  change (Py.lower (String y b)) with (String (Py.lower_char y) (Py.lower b)).
  cbn [ci_le String.compare]. unfold Ascii.compare.
  rewrite !fold_case_lower.
  destruct (fold_case x ?= fold_case y)%N; [apply IH | done | done].
Qed.

Lemma lower_char_same_letter a b :
  Py.lower_char a = Py.lower_char b → same_letter a b = true.
Proof.
  intros H. unfold same_letter.
  assert (Hc : fold_case a = fold_case b) by by rewrite <- !fold_case_lower, H.
  unfold fold_case, Py.is_upper_letter in *. cbn zeta in *.
  destruct ((65 <=? Py.code a) && (Py.code a <=? 90))%N eqn:Ea,
           ((65 <=? Py.code b) && (Py.code b <=? 90))%N eqn:Eb; cbn.
  - assert (Py.code a = Py.code b) as Hab by lia.
    apply (f_equal ascii_of_N) in Hab. unfold Py.code in Hab.
    rewrite !ascii_N_embedding in Hab. subst b.
    by rewrite Ascii.eqb_refl.
  - rewrite orb_false_r. apply orb_true_iff. right. apply N.eqb_eq. lia.
  - apply orb_true_iff. right. apply N.eqb_eq. lia.
  - assert (Py.code a = Py.code b) as Hab by lia.
    apply (f_equal ascii_of_N) in Hab. unfold Py.code in Hab.
    rewrite !ascii_N_embedding in Hab. subst b.
    by rewrite Ascii.eqb_refl.
Qed.

Lemma same_letters_iff_lower s1 s2 :
  same_letters s1 s2 = true ↔ Py.lower s1 = Py.lower s2.
Proof.
  split; [apply same_letters_lower|].
  revert s2. induction s1 as [|a s1 IH]; intros [|b s2]; try done.
  cbn. intros [= Hab Hs]. by rewrite (lower_char_same_letter _ _ Hab), IH.
Qed.

End SortKeys.

(** ** The device directory *)

Section Directory.

Context (device_database : gmap string string).

Lemma directory_perm out :
  get_input_devices_by_instance_id_pattern device_database out
  ≡ₚ devices_before_sort device_database out.
Proof. apply list_sort_perm. Qed.

Lemma devices_before_sort_elem out d :
  d ∈ devices_before_sort device_database out
  → make_device device_database (full_info d) = Some d.
Proof.
  assert (H : ∀ l, d ∈ collect device_database l
                   → make_device device_database (full_info d) = Some d).
  { intros l. rewrite collect_spec.
    intros (r & _ & Hd)%list_elem_of_omap.
    by destruct (make_device_Some _ _ _ Hd) as (-> & _). }
  destruct out; cbn [devices_before_sort]; try (by intros ?%elem_of_nil);
    apply H.
Qed.

Lemma directory_elem out d :
  d ∈ get_input_devices_by_instance_id_pattern device_database out
  → make_device device_database (full_info d) = Some d.
Proof. rewrite directory_perm. apply devices_before_sort_elem. Qed.

Lemma directory_id_nonempty out d :
  d ∈ get_input_devices_by_instance_id_pattern device_database out
  → id d ≠ "".
Proof.
  intros Hd%directory_elem. by apply make_device_Some in Hd as (_ & _ & ? & _).
Qed.

Lemma directory_NoDup out :
  NoDup (id <$> get_input_devices_by_instance_id_pattern device_database out).
Proof.
  rewrite directory_perm.
  destruct out; cbn [devices_before_sort]; try constructor;
    rewrite collect_spec; apply omap_make_device_NoDup, first_occurrences_NoDup.
Qed.

End Directory.

(** C5. Every entry of a directory is named by the override for its key
    if there is one, else by the friendly name, else by the description,
    else by the instance identifier; when the entry has a key, the key
    follows in brackets; and the name is never empty. A name that is
    missing or empty counts as not there; with a store that has no empty
    value and a record that has no empty name the rule holds with every
    name taken as given. The record with instance identifier
    "USB\VID_1234&PID_ABCD\0" and friendly name "Mouse X", under an empty
    override store, gives the single name "Mouse X [1234:ABCD]". *)
Theorem display_name_precedence :
  (∀ (device_database : gmap string string) (out : ps_output) (d : device),
     d ∈ get_input_devices_by_instance_id_pattern device_database out
     → display_name d
       = displayName (vid_pid_key d ≫= (device_database !!.))
           (FriendlyName (full_info d)) (DeviceDescription (full_info d))
           (id d) (vid_pid_key d)
       ∧ vid_pid_key d = key_string <$> first_key (identifiers (full_info d))
       ∧ InstanceId (full_info d) = Some (id d)
       ∧ display_name d ≠ ""
       ∧ (no_empty_value device_database
          → FriendlyName (full_info d) ≠ Some ""
          → DeviceDescription (full_info d) ≠ Some ""
          → display_name d
            = displayName_as_given (vid_pid_key d ≫= (device_database !!.))
                (FriendlyName (full_info d)) (DeviceDescription (full_info d))
                (id d) (vid_pid_key d)))
  ∧ display_name <$> get_input_devices_by_instance_id_pattern ∅ (PsArray [mouse_x])
    = ["Mouse X [1234:ABCD]"].
Proof.
  split; [|by vm_compute].
  intros db out d Hd%directory_elem.
  pose proof (make_device_Some _ _ _ Hd) as (_ & Hid & Hne & _ & Hkey & Hname).
  split; [done|]. split.
  { rewrite Hkey. apply find_vid_pid_first_key. }
  split; [done|]. split.
  { rewrite Hname. destruct (id d) as [|c i]; [done|].
    apply displayName_nonempty. }
  intros Hdb Hf Hdesc. rewrite Hname.
  apply displayName_as_given_eq; [|done..].
  destruct (vid_pid_key d) as [k|]; [|done]. cbn.
  intros Hk. by apply (Hdb k "").
Qed.

Lemma display_name_precedence_witness :
  let d := {| display_name := "Mouse X [1234:ABCD]";
              id := "USB\VID_1234&PID_ABCD\0";
              hardware_id := Some [];
              vid_pid_key := Some "1234:ABCD";
              full_info := mouse_x |} in
  d ∈ get_input_devices_by_instance_id_pattern ∅ (PsArray [mouse_x])
  ∧ display_name d
    = displayName None (Some "Mouse X") None "USB\VID_1234&PID_ABCD\0"
        (Some "1234:ABCD").
Proof.
  intros d.
  assert (Hd : d ∈ get_input_devices_by_instance_id_pattern ∅ (PsArray [mouse_x])).
  { vm_compute. left. }
  split; [exact Hd|].
  exact (proj1 (proj1 display_name_precedence ∅ (PsArray [mouse_x]) d Hd)).
Defined.

(** C6 (as stated) fails: two records sharing the empty instance
    identifier leave no entry at all, not one. *)
Lemma directory_empty_instance_id_counterexample :
  ¬ two_sharing_yield_one ∅ no_instance_id no_instance_id.
Proof.
  unfold two_sharing_yield_one. intros H.
  specialize (H eq_refl). vm_compute in H. discriminate H.
Qed.

Example directory_empty_instance_id :
  get_input_devices_by_instance_id_pattern ∅
    (PsArray [no_instance_id; no_instance_id]) = [].
Proof. by vm_compute. Qed.

(** C6 (as amended). For every sequence of raw records the directory
    holds no two entries with the same instance identifier; every entry is
    built from the first record of the sequence that carries its instance
    identifier, later records with that identifier being dropped; every
    non-empty instance identifier of the sequence has its entry, while
    records whose instance identifier is missing or empty are left out. In
    particular two records sharing one non-empty instance identifier give
    exactly one entry, that of the first. *)
Theorem directory_first_occurrence_only :
  ∀ (device_database : gmap string string) (json_data : list dev_info),
    let out :=
      get_input_devices_by_instance_id_pattern device_database
        (PsArray json_data) in
    NoDup (id <$> out)
    ∧ (∀ d, d ∈ out →
         ∃ i, json_data !! i = Some (full_info d)
              ∧ InstanceId (full_info d) = Some (id d)
              ∧ id d ≠ ""
              ∧ ∀ j r, j < i → json_data !! j = Some r
                       → InstanceId r ≠ Some (id d))
    ∧ (∀ r, r ∈ json_data → Py.truthy (InstanceId r) = true →
         ∃ d, d ∈ out ∧ InstanceId r = Some (id d))
    ∧ (∀ r1 r2, InstanceId r1 = InstanceId r2 →
         Py.truthy (InstanceId r1) = true →
         ∃ d, make_device device_database r1 = Some d
              ∧ get_input_devices_by_instance_id_pattern device_database
                  (PsArray [r1; r2]) = [d]).
Proof.
  intros db json_data out. split_and!.
  - apply directory_NoDup.
  - intros d Hd. unfold out in Hd. rewrite directory_perm in Hd.
    cbn [devices_before_sort] in Hd. rewrite collect_spec in Hd.
    apply list_elem_of_omap in Hd as (r & Hr & Hd).
    destruct (make_device_Some _ _ _ Hd) as (Hfull & Hid & Hne & _).
    apply first_occurrences_elem in Hr as (i & Hi & _ & Hmin).
    exists i. rewrite Hfull. split_and!; try done.
    intros j r' Hj Hr'. rewrite <- Hid. by apply (Hmin j).
  - intros r Hr Htrue.
    destruct (first_occurrences_covers [] json_data r Hr) as (r0 & Hr0 & Heq).
    { cbn. apply not_elem_of_nil. }
    destruct (make_device_is_Some db r0) as [d Hd]; [by rewrite Heq|].
    exists d. split.
    + unfold out. rewrite directory_perm. cbn [devices_before_sort].
      rewrite collect_spec. apply list_elem_of_omap. by exists r0.
    + rewrite <- Heq. by apply make_device_Some in Hd as (_ & ? & _).
  - intros r1 r2 Heq Htrue.
    destruct (make_device_is_Some db r1 Htrue) as [d Hd].
    exists d. split; [done|].
    unfold get_input_devices_by_instance_id_pattern.
    cbn [devices_before_sort]. rewrite collect_spec.
    cbn [first_occurrences fmap list_fmap List.app].
    rewrite bool_decide_eq_false_2 by apply not_elem_of_nil.
    rewrite bool_decide_eq_true_2 by (rewrite Heq; left).
    cbn [List.app omap list_omap]. by rewrite Hd.
Qed.

Lemma directory_first_occurrence_only_witness :
  ∃ d, make_device ∅ (named "USB\VID_1234&PID_ABCD\0" "Mouse X") = Some d
       ∧ get_input_devices_by_instance_id_pattern ∅
           (PsArray [named "USB\VID_1234&PID_ABCD\0" "Mouse X";
                     named "USB\VID_1234&PID_ABCD\0" "Mouse Y"]) = [d].
Proof.
  apply (directory_first_occurrence_only ∅ []); reflexivity.
Defined.

(** C7. The directory is sorted by display name compared without regard
    to case, and entries whose names are equal up to case keep the order
    their records had in the input; the entries are those found before
    the sort, no more and no fewer. This holds of the list sorted on
    [str_lower] of the display names, whatever [str_lower] is. Where
    [str_lower] lower-cases A..Z on text below U+0080, as [str.lower]
    does, and the display names are such text, without regard to case
    means: compared character by character with A..Z counting as a..z,
    and equal up to case means: the same but for the case of letters.
    Records named "zebra" and "Apple" come out as "Apple", "zebra", and
    records named "apple", "Zebra" and "Banana" as "apple", "Banana",
    "Zebra". *)
Theorem directory_sorted_stable :
  (∀ (str_lower : string → string) (device_database : gmap string string)
     (out : ps_output),
     let ds := get_input_devices_sorted str_lower device_database out in
     Sorted (key_le (sort_key_by str_lower)) ds
     ∧ StronglySorted (key_le (sort_key_by str_lower)) ds
     ∧ ds ≡ₚ devices_before_sort device_database out
     ∧ (∀ k, filter (λ d, str_lower (display_name d) = k) ds
             = filter (λ d, str_lower (display_name d) = k)
                 (devices_before_sort device_database out))
     ∧ (∀ json_data, out = PsArray json_data →
          devices_before_sort device_database out
          = omap (make_device device_database)
              (first_occurrences [] json_data))
     ∧ ((∀ s, Py.is_ascii s = true → str_lower s = Py.lower s)
        → (∀ d, d ∈ devices_before_sort device_database out
                → Py.is_ascii (display_name d) = true)
        → ds = get_input_devices_by_instance_id_pattern device_database out
          ∧ StronglySorted name_le ds
          ∧ ∀ name,
              filter (λ d, same_letters (display_name d) name = true) ds
              = filter (λ d, same_letters (display_name d) name = true)
                  (devices_before_sort device_database out)))
  ∧ display_name <$> get_input_devices_sorted Py.lower ∅
      (PsArray [named "HID\1" "zebra"; named "HID\2" "Apple"])
    = ["Apple"; "zebra"]
  ∧ display_name <$> get_input_devices_sorted Py.lower ∅
      (PsArray [named "HID\1" "apple"; named "HID\2" "Zebra";
                named "HID\3" "Banana"])
    = ["apple"; "Banana"; "Zebra"].
Proof.
  split; [|by vm_compute].
  intros str_lower db out ds. split_and!.
  - apply (list_sort_sorted (sort_key_by str_lower)).
  - apply (list_sort_strongly_sorted (sort_key_by str_lower)).
  - apply (list_sort_perm (sort_key_by str_lower)).
  - intros k. apply (list_sort_stable (sort_key_by str_lower)).
  - intros json_data ->. apply collect_spec.
  - intros Hlower Hnames.
    assert (Hds : ds = get_input_devices_by_instance_id_pattern db out).
    { apply list_sort_ext. intros d Hd. apply Hlower. by apply Hnames. }
    split; [done|]. rewrite Hds. split.
    + eapply StronglySorted_weaken; [|apply (list_sort_strongly_sorted sort_key)].
      intros d1 d2 H. unfold name_le. by rewrite ci_le_lower.
    + intros name.
      rewrite !(list_filter_iff
                  (λ d, same_letters (display_name d) name = true)
                  (λ d, sort_key d = Py.lower name))
        by (intros d; apply same_letters_iff_lower).
      apply (list_sort_stable sort_key).
Qed.

Lemma directory_sorted_stable_witness :
  let out := PsArray [named "HID\1" "apple"; named "HID\2" "Zebra";
                      named "HID\3" "Banana"] in
  get_input_devices_sorted Py.lower ∅ out
  = get_input_devices_by_instance_id_pattern ∅ out
  ∧ StronglySorted name_le (get_input_devices_sorted Py.lower ∅ out).
Proof.
  intros out.
  destruct (proj1 directory_sorted_stable Py.lower ∅ out)
    as (_ & _ & _ & _ & _ & H).
  destruct H as (H1 & H2 & _).
  - reflexivity.
  - intros d Hd. vm_compute in Hd.
    repeat (apply elem_of_cons in Hd as [->|Hd]; [reflexivity|]).
    by apply elem_of_nil in Hd.
  - by split.
Defined.

(** With the lower-casing of [str.lower] on two names that begin with a
    letter from U+0080 up. *)
Example directory_sorted_beyond_ascii :
  ∀ str_lower : string → string,
    str_lower "Żółw" = "żółw" → str_lower "żaba" = "żaba"
    → display_name <$> get_input_devices_sorted str_lower ∅
        (PsArray [named "HID\1" "Żółw"; named "HID\2" "żaba"])
      = ["żaba"; "Żółw"].
Proof.
  intros str_lower H1 H2.
  unfold get_input_devices_sorted, list_sort, sort_key_by.
  cbn [devices_before_sort].
  match goal with
  | |- context [collect ?db ?l] =>
      let r := eval vm_compute in (collect db l) in
      change (collect db l) with r
  end.
  cbn [foldr insert_by display_name]. rewrite H1, H2. by vm_compute.
Qed.

Example directory_ties_keep_order :
  display_name <$> get_input_devices_by_instance_id_pattern ∅
    (PsArray [named "HID\1" "mouse"; named "HID\2" "Zed";
              named "HID\3" "MOUSE"; named "HID\4" "Mouse"])
  = ["mouse"; "MOUSE"; "Mouse"; "Zed"].
Proof. by vm_compute. Qed.

(** ** The name database *)

(** C10. Loading the name database never raises: when the file does not
    exist, when its content is not decodable JSON and when reading it
    fails in any other way the result is the empty database; when the
    file is well formed the result is the mapping stored in it. *)
Theorem load_device_database_total :
  ∀ fs : disk,
    (load_device_database fs).1
    = Ok match db_file fs with
         | Some (Ok db) => db
         | _ => ∅
         end
    ∧ (load_device_database no_file).1 = Ok ∅
    ∧ (∀ e, (load_device_database
               {| db_file := Some (Raise e); write_fault := write_fault fs |}).1
            = Ok ∅)
    ∧ (∀ db, (load_device_database
                {| db_file := Some (Ok db); write_fault := write_fault fs |}).1
             = Ok db).
Proof.
  intros fs. split_and!.
  - unfold load_device_database, os_path_exists, open_and_load.
    destruct (db_file fs) as [[db|[]]|]; reflexivity.
  - reflexivity.
  - by intros [].
  - reflexivity.
Qed.

Lemma save_then_load db fs :
  write_fault fs = None
  → (load_device_database (save_device_database db fs).1.2).1 = Ok db.
Proof.
  intros Hw. unfold save_device_database, open_and_dump. by rewrite Hw.
Qed.

Section Edit.

Lemma save_device_database_spec db fs :
  save_device_database db fs
  = (Ok tt, (open_and_dump db fs).2,
     match write_fault fs with
     | Some w => [PrintSaveError (fault_exn w)]
     | None => []
     end).
Proof.
  unfold save_device_database, open_and_dump.
  by destruct (write_fault fs) as [[]|].
Qed.

Lemma save_and_refresh_spec note a fs :
  save_and_refresh note a fs
  = {| ret := Ok tt; app_after := a;
       disk_after := (open_and_dump (device_db a) fs).2;
       shown := note :: match write_fault fs with
                        | Some w => [PrintSaveError (fault_exn w)]
                        | None => []
                        end ++ populate_devices a |}.
Proof. unfold save_and_refresh. by rewrite save_device_database_spec. Qed.

Lemma save_and_refresh_ok note a fs :
  ret (save_and_refresh note a fs) = Ok tt
  ∧ app_after (save_and_refresh note a fs) = a.
Proof. by rewrite save_and_refresh_spec. Qed.

Lemma save_and_refresh_failure_shown note a fs w :
  write_fault fs = Some w
  → PrintSaveError (fault_exn w) ∈ shown (save_and_refresh note a fs).
Proof.
  intros Hw. rewrite save_and_refresh_spec, Hw. cbn. right. left.
Qed.

Lemma save_and_close_db text key a fs :
  device_db (app_after (save_and_close text key a fs))
  = match Py.strip text with
    | String _ _ => <[key := Py.strip text]> (device_db a)
    | EmptyString => delete key (device_db a)
    end.
Proof.
  unfold save_and_close, _save_custom_name.
  destruct (Py.strip text) as [|c s].
  - destruct (decide (is_Some (device_db a !! key))) as [Hin|Hnin].
    + by rewrite (proj2 (save_and_refresh_ok _ _ _)).
    + cbn. symmetry. apply delete_id. by apply eq_None_not_Some.
  - by rewrite (proj2 (save_and_refresh_ok _ _ _)).
Qed.

Lemma save_and_close_ret text key a fs :
  ret (save_and_close text key a fs) = Ok tt.
Proof.
  unfold save_and_close, _save_custom_name.
  destruct (Py.strip text) as [|c s];
    [destruct (decide (is_Some (device_db a !! key)))|];
    try apply save_and_refresh_ok; done.
Qed.

Lemma no_empty_value_insert db key c s :
  no_empty_value db → no_empty_value (<[key := String c s]> db).
Proof.
  intros H k v [[_ <-]|[_ Hk]]%lookup_insert_Some; [done | by apply (H k)].
Qed.

Lemma no_empty_value_delete db key :
  no_empty_value db → no_empty_value (delete key db).
Proof. intros H k v [_ Hk]%lookup_delete_Some. by apply (H k). Qed.

Lemma save_and_close_no_empty text key a fs :
  no_empty_value (device_db a)
  → no_empty_value (device_db (app_after (save_and_close text key a fs))).
Proof.
  intros H. rewrite save_and_close_db. destruct (Py.strip text).
  - by apply no_empty_value_delete.
  - by apply no_empty_value_insert.
Qed.

Lemma save_and_close_stored text key a fs k v :
  device_db (app_after (save_and_close text key a fs)) !! k = Some v
  → v ≠ "" ∨ device_db a !! k = Some v.
Proof.
  rewrite save_and_close_db. destruct (Py.strip text) as [|c s].
  - intros [_ Hk]%lookup_delete_Some. by right.
  - intros [[_ <-]|[_ Hk]]%lookup_insert_Some; [by left | by right].
Qed.

Lemma edits_stored ops :
  ∀ a fs k v, device_db (edits ops a fs).1 !! k = Some v
              → v ≠ "" ∨ device_db a !! k = Some v.
Proof.
  induction ops as [|[text key] ops IH]; intros a fs k v; [by right|].
  cbn [edits]. intros [?|Hk]%IH; [by left|].
  by apply save_and_close_stored in Hk.
Qed.

Lemma edits_no_empty ops :
  ∀ a fs, no_empty_value (device_db a)
          → no_empty_value (device_db (edits ops a fs).1).
Proof.
  induction ops as [|[text key] ops IH]; intros a fs H; [done|].
  cbn [edits]. apply IH. by apply save_and_close_no_empty.
Qed.

End Edit.

(** C8 (as stated) fails: the name entered with blanks around it is not
    the name stored. *)
Lemma save_and_close_given_name_counterexample :
  ¬ stores_given_name (app_with ∅) no_file "1234:ABCD" " My Mouse ".
Proof.
  unfold stores_given_name. intros H.
  assert (Hs : Py.strip " My Mouse " ≠ "") by done.
  specialize (H Hs). vm_compute in H. discriminate H.
Qed.

Example edits_leave_other_keys :
  device_db
    (edits [("My Mouse", "1234:ABCD")] (app_with {["046D:C52B" := ""]}) no_file).1
    !! "046D:C52B" = Some "".
Proof. by vm_compute. Qed.

Example save_and_close_stores_trimmed :
  device_db (app_after (save_and_close " My Mouse " "1234:ABCD" (app_with ∅) no_file))
    !! "1234:ABCD" = Some "My Mouse".
Proof. by vm_compute. Qed.

(** C8 (as amended). For every store, key and name: with a name that is
    not empty once trimmed, the key is mapped to the trimmed name; with a
    name that is empty once trimmed, the key is removed, and when the key
    is not in the store nothing at all happens and nothing is reported.
    Hence no sequence of such edits stores an empty value: after it every
    value of the store is non-empty or was there before, untouched; a
    store without empty values stays so, as does one that starts empty.
    The trimmed name is the name without the white space of Unicode at
    its two ends: [trimmed] holds of it and of no other text. *)
Theorem save_and_close_trimmed_name :
  ∀ (a : UsbDeviceControllerApp) (fs : disk) (key text : string),
    let o := save_and_close text key a fs in
    (Py.strip text ≠ ""
     → device_db (app_after o) = <[key := Py.strip text]> (device_db a))
    ∧ (Py.strip text = "" → device_db (app_after o) = delete key (device_db a))
    ∧ (Py.strip text = "" → device_db a !! key = None
       → o = {| ret := Ok tt; app_after := a; disk_after := fs; shown := [] |})
    ∧ ret o = Ok tt
    ∧ (no_empty_value (device_db a) → no_empty_value (device_db (app_after o)))
    ∧ (∀ ops k v, device_db (edits ops a fs).1 !! k = Some v
                  → v ≠ "" ∨ device_db a !! k = Some v)
    ∧ (∀ ops, no_empty_value (device_db a)
              → no_empty_value (device_db (edits ops a fs).1))
    ∧ (∀ ops, no_empty_value (device_db (edits ops (app_with ∅) fs).1))
    ∧ (∀ v, trimmed text v ↔ v = Py.strip text).
Proof.
  intros a fs key text o. split_and!.
  - intros Hne. unfold o. rewrite save_and_close_db.
    by destruct (Py.strip text).
  - intros He. unfold o. by rewrite save_and_close_db, He.
  - intros He Hk. unfold o, save_and_close, _save_custom_name. rewrite He.
    destruct (decide (is_Some (device_db a !! key))) as [[v Hv]|]; [|done].
    congruence.
  - apply save_and_close_ret.
  - apply save_and_close_no_empty.
  - intros ops. apply edits_stored.
  - intros ops. apply edits_no_empty.
  - intros ops. apply edits_no_empty. intros k v Hk. cbn in Hk.
    by rewrite lookup_empty in Hk.
  - intros v. apply trimmed_strip.
Qed.

(** A no-break space is trimmed like a blank. *)
Example save_and_close_no_break_space :
  device_db
    (app_after
       (save_and_close (Py.utf8 160 +:+ "My Mouse" +:+ Py.utf8 160) "1234:ABCD"
          (app_with ∅) no_file))
  = {["1234:ABCD" := "My Mouse"]}
  ∧ device_db
      (app_after
         (save_and_close (Py.utf8 160) "1234:ABCD"
            (app_with {["1234:ABCD" := "My Mouse"]}) no_file))
    = ∅.
Proof. split; by vm_compute. Qed.

Lemma save_and_close_trimmed_name_witness :
  device_db (app_after (save_and_close " My Mouse " "1234:ABCD" (app_with ∅) no_file))
  = <["1234:ABCD" := "My Mouse"]> ∅
  ∧ no_empty_value
      (device_db
         (edits [(" My Mouse ", "1234:ABCD"); ("  ", "1234:ABCD")]
            (app_with ∅) no_file).1).
Proof.
  pose proof (save_and_close_trimmed_name (app_with ∅) no_file "1234:ABCD"
                " My Mouse ") as (H1 & _ & _ & _ & _ & _ & H6 & _).
  split.
  - apply H1. discriminate.
  - apply H6. intros k v Hk. cbn in Hk. by rewrite lookup_empty in Hk.
Defined.

(** C1 (as stated) fails: after a failed save the store in memory holds
    the new name, and the call returns normally. *)
Lemma save_failure_rollback_counterexample :
  ¬ rolls_back_on_failure (app_with ∅) (read_only no_file OSError)
      "1234:ABCD" "My Mouse".
Proof.
  unfold rolls_back_on_failure. intros H.
  destruct (H OSError eq_refl) as [Hdb _].
  apply (f_equal (.!! "1234:ABCD")) in Hdb.
  vm_compute in Hdb. discriminate Hdb.
Qed.

Example save_failure_keeps_name :
  let o := save_and_close "My Mouse" "1234:ABCD" (app_with ∅)
             (read_only no_file OSError) in
  device_db (app_after o) !! "1234:ABCD" = Some "My Mouse"
  ∧ ret o = Ok tt
  ∧ db_file (disk_after o) = None
  ∧ shown o = [InfoNameUpdated "1234:ABCD" "My Mouse"; PrintSaveError OSError;
               PopulateStarted None].
Proof. by vm_compute. Qed.

(** C1 (as amended). For every override store, device key and name, if
    persisting the updated store fails, the store in memory keeps the
    update, exactly as when persisting succeeds; the failure is printed
    and the call returns normally. (When the file could not even be
    opened it is left as it was.) *)
Theorem save_failure_keeps_update :
  ∀ (a : UsbDeviceControllerApp) (fs : disk) (key text : string)
    (w : write_fault_kind),
    write_fault fs = Some w
    → Py.strip text ≠ "" ∨ is_Some (device_db a !! key)
    → let o := save_and_close text key a fs in
      device_db (app_after o)
      = device_db (app_after (save_and_close text key a (writable fs)))
      ∧ device_db (app_after o)
        = match Py.strip text with
          | String _ _ => <[key := Py.strip text]> (device_db a)
          | EmptyString => delete key (device_db a)
          end
      ∧ ret o = Ok tt
      ∧ PrintSaveError (fault_exn w) ∈ shown o
      ∧ (∀ e, w = OpenFails e → disk_after o = fs).
Proof.
  intros a fs key text w Hw Hchange o.
  assert (Ho : ∃ note a',
    o = save_and_refresh note a' fs).
  { unfold o, save_and_close, _save_custom_name.
    destruct (Py.strip text) as [|c s]; [|by eauto].
    destruct Hchange as [|Hin]; [done|].
    rewrite decide_True by done. by eauto. }
  destruct Ho as (note & a' & Ho).
  split_and!.
  - unfold o. by rewrite !save_and_close_db.
  - apply save_and_close_db.
  - apply save_and_close_ret.
  - rewrite Ho. by apply save_and_refresh_failure_shown.
  - intros e ->. rewrite Ho, save_and_refresh_spec. cbn [disk_after].
    unfold open_and_dump. by rewrite Hw.
Qed.

Lemma save_failure_keeps_update_witness :
  let o := save_and_close "My Mouse" "1234:ABCD" (app_with ∅)
             (read_only no_file OSError) in
  device_db (app_after o) = <["1234:ABCD" := "My Mouse"]> ∅
  ∧ ret o = Ok tt
  ∧ PrintSaveError OSError ∈ shown o
  ∧ disk_after o = read_only no_file OSError.
Proof.
  intros o.
  destruct (save_failure_keeps_update (app_with ∅) (read_only no_file OSError)
              "1234:ABCD" "My Mouse" (OpenFails OSError))
    as (_ & H2 & H3 & H4 & H5).
  - reflexivity.
  - left. discriminate.
  - split_and!; [exact H2 | exact H3 | exact H4 | by apply (H5 OSError)].
Defined.

Lemma save_success_persists a fs key text :
  write_fault fs = None
  → Py.strip text ≠ "" ∨ is_Some (device_db a !! key)
  → db_file (disk_after (save_and_close text key a fs))
    = Some (Ok (device_db (app_after (save_and_close text key a fs)))).
Proof.
  intros Hw Hchange. unfold save_and_close, _save_custom_name.
  destruct (Py.strip text) as [|c s].
  - destruct Hchange as [|Hin]; [done|]. rewrite decide_True by done.
    rewrite save_and_refresh_spec. cbn. unfold open_and_dump. by rewrite Hw.
  - rewrite save_and_refresh_spec. cbn. unfold open_and_dump. by rewrite Hw.
Qed.

Example save_failure_during_dump :
  let fs := {| db_file := Some (Ok ∅);
               write_fault := Some (DumpFails OSError (Raise JSONDecodeError)) |} in
  let o := save_and_close "My Mouse" "1234:ABCD" (app_with ∅) fs in
  device_db (app_after o) !! "1234:ABCD" = Some "My Mouse"
  ∧ ret o = Ok tt
  ∧ (load_device_database (disk_after o)).1 = Ok ∅.
Proof. by vm_compute. Qed.

(** ** Re-selection after a refresh *)

Section Select.

Lemma has_id_decide p d : has_id p d = bool_decide (id d = p).
Proof.
  unfold has_id. destruct (String.eqb_spec (id d) p).
  - by rewrite bool_decide_eq_true_2.
  - by rewrite bool_decide_eq_false_2.
Qed.

Lemma find_has_id p (l : list device) :
  List.find (has_id p) l = List.find (λ d, bool_decide (id d = p)) l.
Proof.
  induction l as [|d l IH]; [done|].
  cbn. by rewrite has_id_decide, IH.
Qed.

Lemma existsb_find {A} (f : A → bool) (l : list A) :
  existsb f l = match List.find f l with Some _ => true | None => false end.
Proof.
  induction l as [|x l IH]; [done|].
  cbn. by destruct (f x).
Qed.

Lemma find_None_elem {A} (f : A → bool) (l : list A) :
  List.find f l = None ↔ ∀ x, x ∈ l → f x = false.
Proof.
  induction l as [|y l IH]; cbn.
  - split; [|done]. by intros _ x ?%elem_of_nil.
  - destruct (f y) eqn:E.
    + split; [done|]. intros H. rewrite (H y) in E; [done | left].
    + rewrite IH. split.
      * intros H x [->|Hx]%elem_of_cons; [done | by apply H].
      * intros H x Hx. apply H. by right.
Qed.

Lemma find_NoDup_id p (l : list device) d :
  NoDup (id <$> l) → d ∈ l → id d = p
  → List.find (λ d, bool_decide (id d = p)) l = Some d.
Proof.
  induction l as [|x l IH]; cbn; intros Hnd Hd Hp.
  - by apply elem_of_nil in Hd.
  - apply NoDup_cons in Hnd as [Hx Hnd].
    destruct (bool_decide_reflect (id x = p)) as [Hxp|Hxp].
    + apply elem_of_cons in Hd as [->|Hd]; [done|].
      destruct Hx. apply list_elem_of_fmap. exists d. by rewrite Hxp, Hp.
    + apply elem_of_cons in Hd as [->|Hd]; [done|]. by apply IH.
Qed.

(** What the two selecting branches leave. *)
Lemma select_dev_result dev a :
  current_selected_device_id (select_dev dev a).1 = Some (id dev)
  ∧ device_combobox (select_dev dev a).1 = ComboName (display_name dev)
  ∧ available_devices (select_dev dev a).1 = available_devices a
  ∧ device_db (select_dev dev a).1 = device_db a
  ∧ buttons_enabled (select_dev dev a).1 = true.
Proof.
  unfold select_dev, update_selected_device_status. cbn.
  by destruct (id dev).
Qed.

Lemma shows_select_dev dev a : shows (Some dev) a (select_dev dev a).1.
Proof.
  destruct (select_dev_result dev a) as (? & ? & ? & ? & _). by split_and!.
Qed.

Lemma shows_select_none a : shows None a (select_none a).1.
Proof. done. Qed.

Lemma shows_head a :
  shows (head (available_devices a)) a
    (match available_devices a with
     | first :: _ => select_dev first a
     | [] => select_none a
     end).1.
Proof.
  destruct (available_devices a) as [|first rest] eqn:E; cbn [head].
  - apply shows_select_none.
  - apply shows_select_dev.
Qed.

Lemma update_populate_gui_shows device_database out old_selected_id a :
  available_devices a
  = get_input_devices_by_instance_id_pattern device_database out
  → shows (selectDevice (available_devices a) old_selected_id) a
      (_update_populate_gui old_selected_id a).1.
Proof.
  intros Hdir.
  assert (Hempty :
    List.find (λ d, bool_decide (id d = "")) (available_devices a) = None).
  { apply find_None_elem. intros d Hd. apply bool_decide_eq_false_2.
    rewrite Hdir in Hd. by apply (directory_id_nonempty device_database out). }
  unfold selectDevice, _update_populate_gui.
  destruct old_selected_id as [[|c p]|]; cbn [mbind option_bind].
  - rewrite Hempty. apply shows_head.
  - rewrite existsb_find, find_has_id.
    destruct (List.find (λ d, bool_decide (id d = String c p))
                (available_devices a)) as [d|].
    + apply shows_select_dev.
    + apply shows_head.
  - apply shows_head.
Qed.

End Select.

(** C9. For every directory the refresh produced and every previous
    instance identifier, the entry selected is the one with that
    identifier when the directory has it; otherwise it is the first entry
    of the sorted directory; for an empty directory nothing is selected.
    The selection is a function of the directory and the previous
    identifier alone, and making it changes neither the directory nor
    the name database. *)
Theorem select_device_policy :
  ∀ (device_database : gmap string string) (out : ps_output)
    (old_selected_id : option string) (a : UsbDeviceControllerApp),
    available_devices a
    = get_input_devices_by_instance_id_pattern device_database out
    → let sel := selectDevice (available_devices a) old_selected_id in
      shows sel a (_update_populate_gui old_selected_id a).1
      ∧ (∀ p d, old_selected_id = Some p → d ∈ available_devices a
                → id d = p → sel = Some d)
      ∧ ((∀ p d, old_selected_id = Some p → d ∈ available_devices a
                 → id d ≠ p)
         → sel = head (available_devices a))
      ∧ (available_devices a = [] ↔ sel = None)
      ∧ (∀ a2, available_devices a2 = available_devices a
               → current_selected_device_id
                   (_update_populate_gui old_selected_id a2).1
                 = current_selected_device_id
                     (_update_populate_gui old_selected_id a).1
                 ∧ device_combobox (_update_populate_gui old_selected_id a2).1
                   = device_combobox (_update_populate_gui old_selected_id a).1).
Proof.
  intros db out prev a Hdir sel.
  assert (Hnd : NoDup (id <$> available_devices a)).
  { rewrite Hdir. apply directory_NoDup. }
  split_and!.
  - by apply (update_populate_gui_shows db out).
  - intros p d -> Hd Hp. unfold sel, selectDevice. cbn [mbind option_bind].
    by rewrite (find_NoDup_id p _ d).
  - intros Habsent. unfold sel, selectDevice.
    destruct prev as [p|]; cbn [mbind option_bind]; [|done].
    assert (List.find (λ d, bool_decide (id d = p)) (available_devices a)
            = None) as ->; [|done].
    apply find_None_elem. intros d Hd. apply bool_decide_eq_false_2.
    by apply (Habsent p).
  - unfold sel, selectDevice. split.
    + intros ->. by destruct prev.
    + destruct (prev ≫= _) as [d|]; [done|].
      by destruct (available_devices a).
  - intros a2 Ha2.
    destruct (update_populate_gui_shows db out prev a Hdir) as (H1 & H2 & _).
    destruct (update_populate_gui_shows db out prev a2) as (H1' & H2' & _);
      [by rewrite Ha2|].
    by rewrite H1, H2, H1', H2', Ha2.
Qed.

Lemma select_device_policy_witness :
  let a :=
    _perform_populate_devices_async ∅
      (PsArray [named "HID\1" "zebra"; named "HID\2" "Apple"])
      (app_with ∅) in
  shows (selectDevice (available_devices a) (Some "HID\7")) a
    (_update_populate_gui (Some "HID\7") a).1.
Proof.
  intros a.
  apply (select_device_policy ∅
           (PsArray [named "HID\1" "zebra"; named "HID\2" "Apple"])
           (Some "HID\7") a).
  reflexivity.
Defined.

Example select_previous_still_present :
  let a :=
    _perform_populate_devices_async ∅
      (PsArray [named "HID\1" "zebra"; named "HID\2" "Apple"])
      (app_with ∅) in
  current_selected_device_id (_update_populate_gui (Some "HID\1") a).1
  = Some "HID\1"
  ∧ device_combobox (_update_populate_gui (Some "HID\1") a).1
    = ComboName "zebra".
Proof. by vm_compute. Qed.

Example select_previous_gone :
  let a :=
    _perform_populate_devices_async ∅
      (PsArray [named "HID\1" "zebra"; named "HID\2" "Apple"])
      (app_with ∅) in
  current_selected_device_id (_update_populate_gui (Some "HID\7") a).1
  = Some "HID\2"
  ∧ device_combobox (_update_populate_gui (Some "HID\7") a).1
    = ComboName "Apple".
Proof. by vm_compute. Qed.

Example select_in_empty_directory :
  current_selected_device_id
    (_update_populate_gui (Some "HID\1") (app_with ∅)).1 = None.
Proof. reflexivity. Qed.

(** ** Worked examples *)

Example extract_ex1 :
  extract_vid_pid "USB\VID_1234&PID_ABCD\0" = (Some "1234", Some "ABCD").
Proof. reflexivity. Qed.

Example extract_ex2 :
  extract_vid_pid "hid\vid_ab12&pid_cd34" = (Some "AB12", Some "CD34").
Proof. reflexivity. Qed.

Example extract_only_pid :
  extract_vid_pid "USB\VID_123&PID_ABCD" = (None, Some "ABCD")
  ∧ both (extract_vid_pid "USB\VID_123&PID_ABCD") = false.
Proof. split; reflexivity. Qed.

Example strip_ex : Py.strip "  My Mouse  " = "My Mouse".
Proof. reflexivity. Qed.

Example str_of_int_ex : Py.str_of_int 22 = "22" ∧ Py.str_of_int (-3) = "-3".
Proof. split; reflexivity. Qed.

Example status_numeric_code :
  status_of_props
    {["ConfigManagerErrorCode" := JInt 22; "Status" := JStr "OK"]} = disabled
  ∧ status_of_props
      {["ConfigManagerErrorCode" := JInt 0; "Status" := JStr "Error"]} = enabled
  ∧ status_of_props {["Present" := JBool false; "Status" := JStr "OK"]} = disabled
  ∧ status_of_props {["Status" := JStr " ok "]} = enabled
  ∧ status_of_props ∅ = unknown.
Proof. by vm_compute. Qed.

Example status_of_bad_payload :
  (status_of_payload (PList [])).1 = unknown
  ∧ (status_of_payload (PScalar (JInt 3))).1 = unknown
  ∧ (status_of_payload (PList [PScalar JNull])).1 = unknown
  ∧ (get_device_status 1 "" None).1 = unknown.
Proof. by vm_compute. Qed.

Example hardware_id_fallback :
  vid_pid_key
  <$> make_device ∅
        {| InstanceId := Some "HID\DEVICE\7"; FriendlyName := None;
           DeviceDescription := Some "Pad";
           HardwareId := HwList ["HID\VID_046D"; "HID\VID_046D&PID_C52B&REV_1"] |}
  = Some (Some "046D:C52B").
Proof. by vm_compute. Qed.

Example override_name_shown :
  display_name
  <$> get_input_devices_by_instance_id_pattern {["1234:ABCD" := "My Mouse"]}
        (PsObject mouse_x)
  = ["My Mouse [1234:ABCD]"].
Proof. by vm_compute. Qed.

(** * Further properties *)

(** ** More on [extract_vid_pid] *)

Section ExtractMore.

Lemma lower_upper_char c : Py.lower_char (Py.upper_char c) = Py.lower_char c.
Proof. by destruct c as [[] [] [] [] [] [] [] []]. Qed.

Lemma lower_upper s : Py.lower (Py.upper s) = Py.lower s.
Proof.
  induction s as [|c s IH]; [done|].
  cbn. rewrite lower_upper_char. f_equal. exact IH.
Qed.

Lemma extract_vid_pid_same_letters s1 s2 :
  same_letters s1 s2 = true → extract_vid_pid s1 = extract_vid_pid s2.
Proof.
  intros H%same_letters_lower.
  by rewrite <- (extract_vid_pid_lower s1), H, extract_vid_pid_lower.
Qed.

Lemma re_search_shape tag s g :
  re_search tag s = Some g → hex4_upper (Py.upper g).
Proof.
  intros [Hl Hh]%re_search_group.
  unfold hex4_upper. by rewrite upper_length, all_hex_upper, upper_idem.
Qed.

Lemma extract_vid_pid_shape s vid pid :
  extract_vid_pid s = (Some vid, Some pid) → hex4_upper vid ∧ hex4_upper pid.
Proof.
  unfold extract_vid_pid.
  destruct (re_search "VID_" s) as [g1|] eqn:E1; [|done].
  destruct (re_search "PID_" s) as [g2|] eqn:E2; [|done].
  intros [= <- <-]. split; by eapply re_search_shape.
Qed.

Lemma re_search_miss t1 tag c s :
  char_ci t1 c = false → char_ci t1 "I" = false
  → re_search (String t1 tag) (String c s) = re_search (String t1 tag) s.
Proof.
  intros H HI. cbn [re_search]. unfold match_here.
  cbn [match_literal match_char]. by rewrite H, HI.
Qed.

Lemma re_search_hit tag s g :
  match_here tag s = Some g → re_search tag s = Some g.
Proof. intros H. destruct s; cbn [re_search]; by rewrite H. Qed.

Lemma char_ci_refl c : char_ci c c = true.
Proof. unfold char_ci. apply Ascii.eqb_refl. Qed.

Lemma match_char_same c s : match_char c (String c s) = Some s.
Proof. cbn. by rewrite char_ci_refl. Qed.

Lemma hex_not_P c : is_hex c = true → char_ci "P" c = false.
Proof. by destruct c as [[] [] [] [] [] [] [] []]. Qed.

Lemma all_hex4 a b c d :
  all_hex (String a (String b (String c (String d "")))) = true
  → is_hex a = true ∧ is_hex b = true ∧ is_hex c = true ∧ is_hex d = true.
Proof.
  cbn. rewrite !andb_true_iff. tauto.
Qed.

Lemma first_key_Some l k :
  first_key l = Some k → ∃ i, i ∈ l ∧ extractKey i = Some k.
Proof.
  induction l as [|x l IH]; [done|]. cbn [first_key].
  destruct (extractKey x) as [k'|] eqn:E.
  - intros [= <-]. exists x. split; [left | done].
  - intros (i & Hi & Hk)%IH. exists i. split; [by right | done].
Qed.

Lemma find_vid_pid_well_formed dev k :
  device_key_of (find_vid_pid (InstanceId dev) (hardware_ids_of (HardwareId dev)))
  = Some k
  → well_formed_key k ∧ ∃ i, i ∈ identifiers dev ∧ key_string <$> extractKey i = Some k.
Proof.
  rewrite find_vid_pid_first_key.
  destruct (first_key (identifiers dev)) as [[vid pid]|] eqn:E; [|done].
  intros [= <-]. apply first_key_Some in E as (i & Hi & Hk).
  split.
  - exists vid, pid. split; [done|]. apply (extract_vid_pid_shape i).
    unfold extractKey in Hk.
    by destruct (extract_vid_pid i) as [[?|] [?|]]; simplify_eq.
  - exists i. by rewrite Hk.
Qed.

Lemma directory_entry_key_well_formed db out d k :
  d ∈ get_input_devices_by_instance_id_pattern db out
  → vid_pid_key d = Some k
  → well_formed_key k
    ∧ ∃ i, i ∈ identifiers (full_info d) ∧ key_string <$> extractKey i = Some k.
Proof.
  intros Hd%directory_elem Hk.
  destruct (make_device_Some _ _ _ Hd) as (_ & _ & _ & _ & Hkey & _).
  rewrite Hk in Hkey. symmetry in Hkey.
  by apply find_vid_pid_well_formed in Hkey.
Qed.

End ExtractMore.

(** X1. [extract_vid_pid] does not look at the case of the letters A..Z
    and a..z of its input: two identifiers that differ only in the case of
    these letters give the same ids, and so the same key. *)
Theorem extract_vid_pid_ignores_case :
  ∀ s1 s2 : string,
    same_letters s1 s2 = true
    → extract_vid_pid s1 = extract_vid_pid s2
      ∧ extractKey s1 = extractKey s2.
Proof.
  intros s1 s2 H.
  assert (H12 : extract_vid_pid s1 = extract_vid_pid s2)
    by by apply extract_vid_pid_same_letters.
  split; [exact H12|]. unfold extractKey. by rewrite H12.
Qed.

Lemma extract_vid_pid_ignores_case_witness :
  extract_vid_pid "usb\vid_046d&pid_c52b\5&1a"
  = extract_vid_pid "USB\VID_046D&PID_C52B\5&1A".
Proof.
  apply (extract_vid_pid_ignores_case "usb\vid_046d&pid_c52b\5&1a"
           "USB\VID_046D&PID_C52B\5&1A").
  reflexivity.
Defined.

(** X2. Round trip from a key to an identifier and back: an identifier
    written as a prefix without underscore, "VID_", four hex digits,
    "&PID_", four hex digits and anything after, gives back exactly those
    two groups of digits, in upper case. *)
Theorem extract_vid_pid_of_canonical :
  ∀ pre vid pid post : string,
    Py.contains "_" pre = false
    → String.length vid = 4 → all_hex vid = true
    → String.length pid = 4 → all_hex pid = true
    → extract_vid_pid (pre +:+ "VID_" +:+ vid +:+ "&PID_" +:+ pid +:+ post)
      = (Some (Py.upper vid), Some (Py.upper pid)).
Proof.
  intros pre vid pid post Hpre Hlv Hv Hlp Hp.
  destruct vid as [|v1 [|v2 [|v3 [|v4 [|??]]]]]; try discriminate Hlv.
  destruct pid as [|p1 [|p2 [|p3 [|p4 [|??]]]]]; try discriminate Hlp.
  apply all_hex4 in Hv as (Hv1 & Hv2 & Hv3 & Hv4).
  apply all_hex4 in Hp as (Hp1 & Hp2 & Hp3 & Hp4).
  unfold extract_vid_pid.
  change ("VID_" +:+ ?x) with (String "V" (String "I" (String "D" ("_" +:+ x)))).
  rewrite !(re_search_skip _ _ _ _ _ _ _ _ Hpre) by done.
  assert (re_search "VID_"
            (String "V" (String "I" (String "D"
               ("_" +:+ String v1 (String v2 (String v3 (String v4 ""))) +:+ "&PID_"
                +:+ String p1 (String p2 (String p3 (String p4 ""))) +:+ post))))
          = Some (String v1 (String v2 (String v3 (String v4 ""))))) as ->.
  { apply re_search_hit. unfold match_here.
    cbn [match_literal String.append]. rewrite !match_char_same.
    cbn [match_hex4]. by rewrite Hv1, Hv2, Hv3, Hv4. }
  assert (re_search "PID_"
            (String "V" (String "I" (String "D"
               ("_" +:+ String v1 (String v2 (String v3 (String v4 ""))) +:+ "&PID_"
                +:+ String p1 (String p2 (String p3 (String p4 ""))) +:+ post))))
          = Some (String p1 (String p2 (String p3 (String p4 ""))))) as ->.
  { cbn [String.append].
    rewrite !re_search_miss by first [by apply hex_not_P | by vm_compute].
    apply re_search_hit. unfold match_here.
    cbn [match_literal]. rewrite !match_char_same.
    cbn [match_hex4]. by rewrite Hp1, Hp2, Hp3, Hp4. }
  reflexivity.
Qed.

Lemma extract_vid_pid_of_canonical_witness :
  extract_vid_pid ("USB\" +:+ "VID_" +:+ "046d" +:+ "&PID_" +:+ "c52b" +:+ "\5&1a")
  = (Some "046D", Some "C52B").
Proof.
  apply (extract_vid_pid_of_canonical "USB\" "046d" "c52b" "\5&1a"); reflexivity.
Defined.

(** X3. Every key of a directory entry is well formed: four upper-case
    hex digits, a colon, four upper-case hex digits; and it is the key
    extracted from one of the identifiers of the entry's record. *)
Theorem directory_keys_well_formed :
  ∀ (device_database : gmap string string) (out : ps_output) (d : device)
    (k : string),
    d ∈ get_input_devices_by_instance_id_pattern device_database out
    → vid_pid_key d = Some k
    → well_formed_key k
      ∧ String.length k = 9
      ∧ ∃ i, i ∈ identifiers (full_info d)
             ∧ key_string <$> extractKey i = Some k.
Proof.
  intros db out d k Hd Hk.
  destruct (directory_entry_key_well_formed db out d k Hd Hk) as [Hwf Hi].
  split; [done|]. split; [|done].
  destruct Hwf as (vid & pid & -> & (Hlv & _) & (Hlp & _)).
  destruct vid as [|? [|? [|? [|? [|??]]]]]; try discriminate Hlv.
  by destruct pid as [|? [|? [|? [|? [|??]]]]].
Qed.

Lemma directory_keys_well_formed_witness :
  well_formed_key "1234:ABCD".
Proof.
  apply (directory_keys_well_formed ∅ (PsArray [mouse_x])
           {| display_name := "Mouse X [1234:ABCD]";
              id := "USB\VID_1234&PID_ABCD\0";
              hardware_id := Some [];
              vid_pid_key := Some "1234:ABCD";
              full_info := mouse_x |} "1234:ABCD").
  - vm_compute. left.
  - reflexivity.
Defined.

(** ** More on [get_device_status] *)

Section StatusMore.

Lemma status_of_props_present_false (d : gmap string jval) :
  d !! "Present" = Some (JBool false) → status_of_props d = disabled.
Proof. intros H. unfold status_of_props, dict_get. by rewrite H. Qed.

Lemma status_of_props_code (d : gmap string jval) (code : string) :
  d !! "Present" ≠ Some (JBool false)
  → Py.strip
      (py_str (dict_get d "ConfigManagerErrorCode" (JStr ""))) = code
  → status_of_props d
    = if String.eqb code "22" then disabled
      else if String.eqb code "0" then enabled
      else if Py.contains "OK"
                (Py.upper (Py.strip (py_str (dict_get d "Status" (JStr "")))))
           then enabled else unknown.
Proof.
  intros Hp <-. unfold status_of_props.
  unfold dict_get at 1. destruct (d !! "Present") as [[|[]| |]|]; done.
Qed.

End StatusMore.

(** X4. [get_device_status] answers "enabled" or "disabled" only when the
    command returned code 0 with some output and that output decodes to
    an object, or to a list whose first element is an object; the answer
    is then the classification of that object. In every other case the
    answer is "unknown". *)
Theorem get_device_status_known_only_from_object :
  ∀ (returncode : Z) (stdout : string) (loaded : option payload),
    (get_device_status returncode stdout loaded).1 ≠ unknown
    → returncode = 0%Z
      ∧ stdout ≠ ""
      ∧ ∃ d, (loaded = Some (PDict d)
              ∨ ∃ rest, loaded = Some (PList (PDict d :: rest)))
             ∧ (get_device_status returncode stdout loaded).1
               = status_of_props d.
Proof.
  intros rc stdout loaded. unfold get_device_status.
  destruct (Z.eqb_spec rc 0) as [->|]; [|done].
  destruct stdout as [|c s]; [done|]. cbn [andb Py.truthy].
  destruct loaded as [[d|[|[d| |] rest]|]|]; try done.
  - intros _. split; [done|]. split; [done|]. exists d. split; [by left | done].
  - intros _. split; [done|]. split; [done|]. exists d.
    split; [right; by exists rest | done].
Qed.

Lemma get_device_status_known_only_from_object_witness :
  ∃ d, (Some (PList [PDict {["Present" := JBool false]}]) = Some (PDict d)
        ∨ ∃ rest, Some (PList [PDict {["Present" := JBool false]}])
                  = Some (PList (PDict d :: rest)))
       ∧ (get_device_status 0 "[{...}]"
            (Some (PList [PDict {["Present" := JBool false]}]))).1
         = status_of_props d.
Proof.
  apply (get_device_status_known_only_from_object 0 "[{...}]"
           (Some (PList [PDict {["Present" := JBool false]}]))).
  by vm_compute.
Defined.

(** X5. On any decoded object, whatever other members it has: a
    [Present] member that is [false] gives "disabled"; otherwise a
    [ConfigManagerErrorCode] that is the number 22 gives "disabled" and one
    that is the number 0 gives "enabled", whatever the [Status] text says;
    and when the object has no error code at all, the answer is "enabled"
    if the status text contains "OK" in any case, else "unknown". *)
Theorem status_of_props_numeric_code :
  ∀ d : gmap string jval,
    (d !! "Present" = Some (JBool false) → status_of_props d = disabled)
    ∧ (d !! "Present" ≠ Some (JBool false)
       → (d !! "ConfigManagerErrorCode" = Some (JInt 22)
          → status_of_props d = disabled)
         ∧ (d !! "ConfigManagerErrorCode" = Some (JInt 0)
            → status_of_props d = enabled)
         ∧ (d !! "ConfigManagerErrorCode" = None
            → status_of_props d
              = if Py.contains "ok"
                     (Py.lower
                        (Py.strip (py_str (dict_get d "Status" (JStr "")))))
                then enabled else unknown)).
Proof.
  intros d. split; [apply status_of_props_present_false|].
  intros Hp. split_and!.
  - intros Hc. rewrite (status_of_props_code d "22"); [done | done |].
    unfold dict_get. by rewrite Hc.
  - intros Hc. rewrite (status_of_props_code d "0"); [done | done |].
    unfold dict_get. by rewrite Hc.
  - intros Hc. rewrite (status_of_props_code d ""); [| done |].
    + by rewrite contains_OK_upper.
    + unfold dict_get. by rewrite Hc.
Qed.

Lemma status_of_props_numeric_code_witness :
  status_of_props
    {["ConfigManagerErrorCode" := JInt 22; "Status" := JStr "OK";
      "Present" := JBool true; "Class" := JStr "Mouse"]} = disabled.
Proof.
  apply (status_of_props_numeric_code
           {["ConfigManagerErrorCode" := JInt 22; "Status" := JStr "OK";
             "Present" := JBool true; "Class" := JStr "Mouse"]}).
  - by vm_compute.
  - by vm_compute.
Defined.

(** ** Names and the directory *)

Section NamesAndDirectory.

Lemma make_device_identity db1 db2 r :
  identity_of <$> make_device db1 r = identity_of <$> make_device db2 r.
Proof.
  destruct (Py.truthy (InstanceId r)) eqn:Ht.
  - destruct (make_device_is_Some db1 r Ht) as [d1 H1].
    destruct (make_device_is_Some db2 r Ht) as [d2 H2].
    rewrite H1, H2. cbn. f_equal. unfold identity_of.
    apply make_device_Some in H1 as (Hf1 & Hi1 & _ & Hh1 & Hk1 & _).
    apply make_device_Some in H2 as (Hf2 & Hi2 & _ & Hh2 & Hk2 & _).
    rewrite Hf1, Hf2, Hh1, Hh2, Hk1, Hk2.
    rewrite Hi1 in Hi2. by injection Hi2 as ->.
  - by rewrite !make_device_None.
Qed.

Lemma omap_make_device_identity db1 db2 (l : list dev_info) :
  identity_of <$> omap (make_device db1) l
  = identity_of <$> omap (make_device db2) l.
Proof.
  induction l as [|r l IH]; [done|]. cbn [omap list_omap].
  pose proof (make_device_identity db1 db2 r) as Hr.
  destruct (make_device db1 r) as [d1|], (make_device db2 r) as [d2|];
    cbn [fmap option_fmap option_map] in Hr; try done.
  assert (Hid : identity_of d1 = identity_of d2) by congruence.
  rewrite !fmap_cons. by rewrite Hid, IH.
Qed.

Lemma devices_before_sort_identity db1 db2 out :
  identity_of <$> devices_before_sort db1 out
  = identity_of <$> devices_before_sort db2 out.
Proof.
  destruct out; cbn [devices_before_sort]; try done;
    rewrite !collect_spec; apply omap_make_device_identity.
Qed.

(** The name of a record depends on the database only through the value
    at the record's own key. *)
Lemma make_device_agree db1 db2 r :
  (∀ k, device_key_of
          (find_vid_pid (InstanceId r) (hardware_ids_of (HardwareId r)))
        = Some k → db1 !! k = db2 !! k)
  → make_device db1 r = make_device db2 r.
Proof.
  intros H. unfold make_device, final_display_name.
  destruct (device_key_of _) as [k|]; [|done].
  by rewrite (H k).
Qed.

Lemma directory_elem_of db out d :
  d ∈ get_input_devices_by_instance_id_pattern db out
  ↔ ∃ r, r ∈ match out with
             | PsArray l => first_occurrences [] l
             | PsObject r => first_occurrences [] [r]
             | _ => []
             end
         ∧ make_device db r = Some d.
Proof.
  rewrite directory_perm.
  destruct out; cbn [devices_before_sort];
    rewrite ?collect_spec, ?list_elem_of_omap; try done.
  all: rewrite elem_of_nil; split; [done|]; by intros (r & ?%elem_of_nil & _).
Qed.

Lemma directory_agree_off_key db1 db2 key out d :
  (∀ k, k ≠ key → db1 !! k = db2 !! k)
  → vid_pid_key d ≠ Some key
  → d ∈ get_input_devices_by_instance_id_pattern db1 out
  → d ∈ get_input_devices_by_instance_id_pattern db2 out.
Proof.
  intros Hagree Hk. rewrite !directory_elem_of.
  intros (r & Hr & Hd). exists r. split; [done|].
  rewrite <- Hd. symmetry. apply make_device_agree.
  intros k Hrk. apply Hagree. intros ->.
  apply make_device_Some in Hd as (_ & _ & _ & _ & Hkey & _). congruence.
Qed.

Lemma directory_entry_name db out d :
  d ∈ get_input_devices_by_instance_id_pattern db out
  → display_name d
    = displayName (vid_pid_key d ≫= (db !!.)) (FriendlyName (full_info d))
        (DeviceDescription (full_info d)) (id d) (vid_pid_key d).
Proof.
  intros Hd%directory_elem. by apply make_device_Some in Hd as (_&_&_&_&_&?).
Qed.

End NamesAndDirectory.

(** X6. The names in the database decide nothing but the display names
    and the order: whatever the database, the enumeration keeps the same
    records, with the same instance identifiers, hardware identifiers and
    keys, and the directory has the same length. *)
Theorem directory_identity_independent_of_names :
  ∀ (db1 db2 : gmap string string) (out : ps_output),
    identity_of <$> devices_before_sort db1 out
    = identity_of <$> devices_before_sort db2 out
    ∧ identity_of <$> get_input_devices_by_instance_id_pattern db1 out
      ≡ₚ identity_of <$> get_input_devices_by_instance_id_pattern db2 out
    ∧ length (get_input_devices_by_instance_id_pattern db1 out)
      = length (get_input_devices_by_instance_id_pattern db2 out).
Proof.
  intros db1 db2 out.
  assert (Hperm : identity_of <$> get_input_devices_by_instance_id_pattern db1 out
      ≡ₚ identity_of <$> get_input_devices_by_instance_id_pattern db2 out).
  { rewrite !directory_perm. by rewrite (devices_before_sort_identity db1 db2). }
  split; [apply devices_before_sort_identity|]. split; [exact Hperm|].
  apply Permutation_length in Hperm. by rewrite !length_fmap in Hperm.
Qed.

(** X7. After a name that is not blank has been saved for a key, every
    refresh shows each device with that key under the trimmed name
    followed by the key in brackets. *)
Theorem saved_name_is_shown :
  ∀ (a : UsbDeviceControllerApp) (fs : disk) (key text : string)
    (out : ps_output) (d : device),
    Py.strip text ≠ ""
    → d ∈ get_input_devices_by_instance_id_pattern
            (device_db (app_after (save_and_close text key a fs))) out
    → vid_pid_key d = Some key
    → display_name d = Py.strip text +:+ " [" +:+ key +:+ "]".
Proof.
  intros a fs key text out d Hne Hd Hk.
  rewrite (directory_entry_name _ _ _ Hd), Hk, save_and_close_db.
  destruct (Py.strip text) as [|c s] eqn:E; [done|].
  cbn [mbind option_bind]. by rewrite lookup_insert_eq.
Qed.

Lemma saved_name_is_shown_witness :
  let d := mouse_x_entry "My Mouse [1234:ABCD]" in
  d ∈ get_input_devices_by_instance_id_pattern
        (device_db (app_after
           (save_and_close " My Mouse " "1234:ABCD" (app_with ∅) no_file)))
        (PsObject mouse_x)
  ∧ display_name d = Py.strip " My Mouse " +:+ " [" +:+ "1234:ABCD" +:+ "]".
Proof.
  intros d.
  assert (Hd : d ∈ get_input_devices_by_instance_id_pattern
                     (device_db (app_after
                        (save_and_close " My Mouse " "1234:ABCD" (app_with ∅)
                           no_file)))
                     (PsObject mouse_x)).
  { vm_compute. left. }
  split; [exact Hd|].
  apply (saved_name_is_shown (app_with ∅) no_file "1234:ABCD" " My Mouse "
           (PsObject mouse_x) d); [discriminate | exact Hd | reflexivity].
Defined.

(** X8. After the name of a key has been saved blank, every refresh shows
    each device with that key under the name the system gives it: friendly
    name, else description, else instance identifier, with the key in
    brackets. *)
Theorem blank_name_restores_default :
  ∀ (a : UsbDeviceControllerApp) (fs : disk) (key text : string)
    (out : ps_output) (d : device),
    Py.strip text = ""
    → d ∈ get_input_devices_by_instance_id_pattern
            (device_db (app_after (save_and_close text key a fs))) out
    → vid_pid_key d = Some key
    → display_name d = default_name d.
Proof.
  intros a fs key text out d He Hd Hk.
  rewrite (directory_entry_name _ _ _ Hd). unfold default_name.
  rewrite Hk, save_and_close_db, He.
  cbn [mbind option_bind]. by rewrite lookup_delete_eq.
Qed.

Lemma blank_name_restores_default_witness :
  let d := mouse_x_entry "Mouse X [1234:ABCD]" in
  d ∈ get_input_devices_by_instance_id_pattern
        (device_db (app_after
           (save_and_close "  " "1234:ABCD"
              (app_with {["1234:ABCD" := "My Mouse"]}) no_file)))
        (PsObject mouse_x)
  ∧ display_name d = default_name d.
Proof.
  intros d.
  assert (Hd : d ∈ get_input_devices_by_instance_id_pattern
                     (device_db (app_after
                        (save_and_close "  " "1234:ABCD"
                           (app_with {["1234:ABCD" := "My Mouse"]}) no_file)))
                     (PsObject mouse_x)).
  { vm_compute. left. }
  split; [exact Hd|].
  apply (blank_name_restores_default (app_with {["1234:ABCD" := "My Mouse"]})
           no_file "1234:ABCD" "  " (PsObject mouse_x) d);
    [reflexivity | exact Hd | reflexivity].
Defined.

(** X9. Saving or removing the name of one key leaves every device with
    another key, or with no key, exactly as it was shown before: the same
    entries with the same display names. *)
Theorem edit_leaves_other_devices :
  ∀ (a : UsbDeviceControllerApp) (fs : disk) (key text : string)
    (out : ps_output) (d : device),
    vid_pid_key d ≠ Some key
    → (d ∈ get_input_devices_by_instance_id_pattern
             (device_db (app_after (save_and_close text key a fs))) out
       ↔ d ∈ get_input_devices_by_instance_id_pattern (device_db a) out).
Proof.
  intros a fs key text out d Hk.
  assert (Hagree : ∀ k, k ≠ key
    → device_db (app_after (save_and_close text key a fs)) !! k
      = device_db a !! k).
  { intros k Hne. rewrite save_and_close_db.
    destruct (Py.strip text); by simplify_map_eq. }
  split; apply directory_agree_off_key with (key := key); try done.
  intros k Hne. symmetry. by apply Hagree.
Qed.

Lemma edit_leaves_other_devices_witness :
  let d := mouse_x_entry "Mouse X [1234:ABCD]" in
  d ∈ get_input_devices_by_instance_id_pattern
        (device_db (app_after
           (save_and_close "Pad" "046D:C52B" (app_with ∅) no_file)))
        (PsObject mouse_x)
  ↔ d ∈ get_input_devices_by_instance_id_pattern (device_db (app_with ∅))
          (PsObject mouse_x).
Proof.
  intros d.
  apply (edit_leaves_other_devices (app_with ∅) no_file "046D:C52B" "Pad"
           (PsObject mouse_x) d).
  discriminate.
Defined.

(** ** Edits of the name database *)

Section EditsMore.

Lemma save_and_close_disk text key a fs :
  disk_after (save_and_close text key a fs)
  = if decide (Py.strip text = "" ∧ device_db a !! key = None) then fs
    else (open_and_dump
            (device_db (app_after (save_and_close text key a fs))) fs).2.
Proof.
  unfold save_and_close, _save_custom_name.
  destruct (Py.strip text) as [|c s] eqn:E.
  - destruct (decide (is_Some (device_db a !! key))) as [Hin|Hnin].
    + rewrite decide_False; [by rewrite save_and_refresh_spec|].
      intros [_ Hk]. rewrite Hk in Hin. by destruct Hin.
    + rewrite decide_True; [done|]. split; [done|].
      by apply eq_None_not_Some.
  - rewrite decide_False by (by intros [? _]).
    by rewrite save_and_refresh_spec.
Qed.

Lemma save_and_close_in_sync text key a fs :
  in_sync a fs
  → in_sync (app_after (save_and_close text key a fs))
      (disk_after (save_and_close text key a fs)).
Proof.
  intros [Hload Hw]. unfold in_sync. rewrite save_and_close_disk.
  destruct (decide (Py.strip text = "" ∧ device_db a !! key = None))
    as [[He Hk]|Hchange].
  - rewrite save_and_close_db, He, delete_id by done. by split.
  - unfold open_and_dump. rewrite Hw. by split.
Qed.

Lemma edits_in_sync ops :
  ∀ a fs, in_sync a fs → in_sync (edits ops a fs).1 (edits ops a fs).2.
Proof.
  induction ops as [|[text key] ops IH]; intros a fs H; [done|].
  cbn [edits]. apply IH. by apply save_and_close_in_sync.
Qed.

End EditsMore.

(** X10. As long as the file can be written, the file and the memory
    agree after every edit: if loading the file gives the database held
    in memory before a sequence of edits, it does so after it. A restart
    then finds exactly the names that were in memory. *)
Theorem edits_keep_file_in_sync :
  ∀ (ops : list (string * string)) (a : UsbDeviceControllerApp) (fs : disk),
    (load_device_database fs).1 = Ok (device_db a)
    → write_fault fs = None
    → (load_device_database (edits ops a fs).2).1
      = Ok (device_db (edits ops a fs).1)
      ∧ write_fault (edits ops a fs).2 = None.
Proof.
  intros ops a fs Hload Hw. by apply (edits_in_sync ops a fs).
Qed.

Lemma edits_keep_file_in_sync_witness :
  (load_device_database
     (edits [(" My Mouse ", "1234:ABCD"); ("Pad", "046D:C52B"); ("", "1234:ABCD")]
        (app_with ∅) no_file).2).1
  = Ok (device_db
          (edits [(" My Mouse ", "1234:ABCD"); ("Pad", "046D:C52B"); ("", "1234:ABCD")]
             (app_with ∅) no_file).1).
Proof.
  apply (edits_keep_file_in_sync
           [(" My Mouse ", "1234:ABCD"); ("Pad", "046D:C52B"); ("", "1234:ABCD")]
           (app_with ∅) no_file); reflexivity.
Defined.

(** X11. How edits compose, on the database in memory: of two edits of
    the same key only the second counts, and edits of different keys can
    be made in either order. *)
Theorem edits_compose :
  ∀ (a : UsbDeviceControllerApp) (fs : disk) (k1 k2 t1 t2 : string),
    device_db (edits [(t1, k1); (t2, k1)] a fs).1
    = device_db (edits [(t2, k1)] a fs).1
    ∧ (k1 ≠ k2
       → device_db (edits [(t1, k1); (t2, k2)] a fs).1
         = device_db (edits [(t2, k2); (t1, k1)] a fs).1).
Proof.
  intros a fs k1 k2 t1 t2. cbn [edits fst]. rewrite !save_and_close_db.
  split.
  - destruct (Py.strip t1), (Py.strip t2);
      by rewrite ?delete_delete_eq, ?insert_delete_eq, ?delete_insert_eq,
        ?insert_insert_eq.
  - intros Hne. destruct (Py.strip t1), (Py.strip t2).
    + apply delete_delete.
    + by rewrite insert_delete_ne.
    + by rewrite delete_insert_ne.
    + by apply insert_insert_ne.
Qed.

Lemma edits_compose_witness :
  device_db
    (edits [("Mouse", "1234:ABCD"); ("Pad", "046D:C52B")] (app_with ∅) no_file).1
  = device_db
      (edits [("Pad", "046D:C52B"); ("Mouse", "1234:ABCD")] (app_with ∅) no_file).1.
Proof.
  apply (edits_compose (app_with ∅) no_file "1234:ABCD" "046D:C52B" "Mouse" "Pad").
  discriminate.
Defined.

(** ** The order of the enumeration *)

Section Order.

Lemma first_occurrences_distinct (before l : list dev_info) :
  NoDup (InstanceId <$> (before ++ l)) → first_occurrences before l = l.
Proof.
  revert before. induction l as [|r rest IH]; intros before Hnd; [done|].
  cbn [first_occurrences].
  rewrite bool_decide_eq_false_2.
  - cbn [List.app]. f_equal. apply IH. by rewrite <- app_assoc.
  - rewrite fmap_app in Hnd. apply NoDup_app in Hnd as (_ & Hdisj & _).
    intros Hin. apply (Hdisj _ Hin). cbn. left.
Qed.

Lemma NoDup_fmap_eq {A B} (f : A → B) (l : list A) x y :
  NoDup (f <$> l) → x ∈ l → y ∈ l → f x = f y → x = y.
Proof.
  induction l as [|z l IH]; [by intros _ ?%elem_of_nil|].
  cbn. intros [Hz Hl]%NoDup_cons [->|Hx]%elem_of_cons [->|Hy]%elem_of_cons Hf.
  - done.
  - destruct Hz. rewrite Hf. by apply list_elem_of_fmap_2.
  - destruct Hz. rewrite <- Hf. by apply list_elem_of_fmap_2.
  - by apply IH.
Qed.

Lemma list_sort_unique {A} (key : A → string) (l1 l2 : list A) :
  l1 ≡ₚ l2 → NoDup (key <$> l1) → list_sort key l1 = list_sort key l2.
Proof.
  intros Hperm Hnd.
  apply (StronglySorted_unique_strong (key_le key)).
  - intros x1 x2 Hx1 Hx2 H12 H21.
    rewrite list_sort_perm in Hx1. rewrite list_sort_perm, <- Hperm in Hx2.
    apply (NoDup_fmap_eq key l1); [done..|].
    by apply String.leb_antisym.
  - apply list_sort_strongly_sorted.
  - apply list_sort_strongly_sorted.
  - by rewrite !list_sort_perm.
Qed.

End Order.

(** X12. The order in which the system reports the devices does not
    matter: two enumerations holding the same records, each with an
    instance identifier of its own, give the same directory, provided no
    two display names have the same lower-cased form. This holds of the
    list sorted on [str_lower] of the display names, whatever [str_lower]
    is. *)
Theorem directory_independent_of_record_order :
  ∀ (str_lower : string → string) (device_database : gmap string string)
    (l1 l2 : list dev_info),
    l1 ≡ₚ l2
    → NoDup (InstanceId <$> l1)
    → NoDup (sort_key_by str_lower
             <$> devices_before_sort device_database (PsArray l1))
    → get_input_devices_sorted str_lower device_database (PsArray l1)
      = get_input_devices_sorted str_lower device_database (PsArray l2).
Proof.
  intros str_lower db l1 l2 Hperm Hnd1 Hkeys.
  assert (Hnd2 : NoDup (InstanceId <$> l2)) by by rewrite <- Hperm.
  unfold get_input_devices_sorted in *.
  cbn [devices_before_sort] in *. rewrite !collect_spec in *.
  rewrite !first_occurrences_distinct in * by done.
  apply list_sort_unique; [by rewrite Hperm | done].
Qed.

Lemma directory_independent_of_record_order_witness :
  get_input_devices_sorted Py.lower ∅
    (PsArray [named "HID\1" "zebra"; named "HID\2" "Apple"])
  = get_input_devices_sorted Py.lower ∅
      (PsArray [named "HID\2" "Apple"; named "HID\1" "zebra"]).
Proof.
  apply directory_independent_of_record_order.
  - apply Permutation_swap.
  - apply (bool_decide_unpack _). by vm_compute.
  - apply (bool_decide_unpack _). by vm_compute.
Defined.

(** ** Choosing a device, editing its name, refreshing *)

Section Interface.

Lemma find_Some_elem {A} (f : A → bool) (l : list A) x :
  List.find f l = Some x → x ∈ l ∧ f x = true.
Proof.
  induction l as [|y l IH]; [done|].
  cbn. destruct (f y) eqn:E.
  - intros [= ->]. split; [left | done].
  - intros [Hx Hf]%IH. split; [by right | done].
Qed.

Lemma find_first {A} (f : A → bool) (l1 l2 : list A) x :
  f x = true → (∀ y, y ∈ l1 → f y = false)
  → List.find f (l1 ++ x :: l2) = Some x.
Proof.
  intros Hx. induction l1 as [|y l1 IH]; intros Hl1; cbn.
  - by rewrite Hx.
  - rewrite (Hl1 y) by left. apply IH. intros z Hz. apply Hl1. by right.
Qed.

Lemma on_device_selected_result selected_name a :
  current_selected_device_id (on_device_selected selected_name a).1
  = id <$> List.find (has_display_name selected_name) (available_devices a)
  ∧ device_combobox (on_device_selected selected_name a).1
    = ComboName selected_name
  ∧ available_devices (on_device_selected selected_name a).1
    = available_devices a
  ∧ device_db (on_device_selected selected_name a).1 = device_db a.
Proof.
  unfold on_device_selected, update_selected_device_status.
  destruct (List.find _ _) as [d|]; cbn; [|done].
  by destruct (id d).
Qed.

Lemma save_and_close_key text key a fs k :
  is_Some (device_db (app_after (save_and_close text key a fs)) !! k)
  → k = key ∨ is_Some (device_db a !! k).
Proof.
  rewrite save_and_close_db. destruct (Py.strip text).
  - rewrite lookup_delete_is_Some. intros [_ ?]. by right.
  - rewrite lookup_insert_is_Some. intros [->|[_ ?]]; [by left | by right].
Qed.

Lemma selectDevice_elem (l : list device) prev d :
  selectDevice l prev = Some d → d ∈ l.
Proof.
  unfold selectDevice. destruct prev as [p|]; cbn [mbind option_bind].
  - destruct (List.find _ l) as [d'|] eqn:E.
    + intros [= <-]. by apply find_Some_elem in E as [? _].
    + destruct l; [done|]. intros [= <-]. left.
  - destruct l; [done|]. intros [= <-]. left.
Qed.

Lemma selectDevice_None (l : list device) prev :
  selectDevice l prev = None ↔ l = [].
Proof.
  unfold selectDevice. split.
  - destruct (prev ≫= _); [done|]. by destruct l.
  - intros ->. by destruct prev.
Qed.

(** On a directory that the enumeration built, [_update_populate_gui]
    takes the branch of the entry [selectDevice] names. *)
Lemma update_populate_gui_branch device_database out old_selected_id a :
  available_devices a
  = get_input_devices_by_instance_id_pattern device_database out
  → _update_populate_gui old_selected_id a
    = match selectDevice (available_devices a) old_selected_id with
      | Some d => select_dev d a
      | None => select_none a
      end.
Proof.
  intros Hdir.
  assert (Hempty :
    List.find (λ d, bool_decide (id d = "")) (available_devices a) = None).
  { apply find_None_elem. intros d Hd. apply bool_decide_eq_false_2.
    rewrite Hdir in Hd. by apply (directory_id_nonempty device_database out). }
  unfold selectDevice, _update_populate_gui.
  destruct old_selected_id as [[|c p]|]; cbn [mbind option_bind].
  - rewrite Hempty. by destruct (available_devices a).
  - rewrite existsb_find, find_has_id.
    destruct (List.find (λ d, bool_decide (id d = String c p))
                (available_devices a)) as [d|]; [done|].
    by destruct (available_devices a).
  - by destruct (available_devices a).
Qed.

Lemma directory_covers db out r :
  r ∈ records_of out → Py.truthy (InstanceId r) = true
  → ∃ d, d ∈ get_input_devices_by_instance_id_pattern db out
         ∧ InstanceId r = Some (id d).
Proof.
  intros Hr Ht.
  assert (∃ r0, r0 ∈ match out with
                     | PsArray l => first_occurrences [] l
                     | PsObject r => first_occurrences [] [r]
                     | _ => []
                     end ∧ InstanceId r0 = InstanceId r) as (r0 & Hr0 & Heq).
  { destruct out; cbn [records_of] in Hr; try (by apply elem_of_nil in Hr);
      apply first_occurrences_covers; try done; apply not_elem_of_nil. }
  destruct (make_device_is_Some db r0) as [d Hd]; [by rewrite Heq|].
  exists d. split.
  - apply directory_elem_of. by exists r0.
  - rewrite <- Heq. by apply make_device_Some in Hd as (_ & ? & _).
Qed.

End Interface.

(** X13. Picking an item in the combobox selects the first entry of the
    directory that has this display name: a later entry with the same
    display name cannot be selected this way. When the display names of
    the directory are all different, the entry picked is the one
    selected. *)
Theorem on_device_selected_first_with_name :
  ∀ (selected_name : string) (a : UsbDeviceControllerApp),
    let a' := (on_device_selected selected_name a).1 in
    (∀ l1 d l2,
       available_devices a = l1 ++ d :: l2
       → display_name d = selected_name
       → (∀ x, x ∈ l1 → display_name x ≠ selected_name)
       → current_selected_device_id a' = Some (id d))
    ∧ (∀ d, NoDup (display_name <$> available_devices a)
            → d ∈ available_devices a
            → display_name d = selected_name
            → current_selected_device_id a' = Some (id d))
    ∧ ((∀ d, d ∈ available_devices a → display_name d ≠ selected_name)
       → current_selected_device_id a' = None)
    ∧ available_devices a' = available_devices a
    ∧ device_db a' = device_db a.
Proof.
  intros name a a'.
  destruct (on_device_selected_result name a) as (Hsel & _ & Hav & Hdb).
  assert (Hname : ∀ x, has_display_name name x = true ↔ display_name x = name).
  { intros x. unfold has_display_name. apply String.eqb_eq. }
  split_and!; try done.
  - intros l1 d l2 Hl Hd Hl1. unfold a'. rewrite Hsel, Hl.
    rewrite (find_first _ l1 l2 d); [done | by apply Hname |].
    intros y Hy. apply not_true_is_false. rewrite Hname. by apply Hl1.
  - intros d Hnd Hd Hdn. unfold a'. rewrite Hsel.
    destruct (List.find _ _) as [d'|] eqn:E.
    + apply find_Some_elem in E as [Hd' Hn']. apply Hname in Hn'.
      cbn. f_equal. f_equal.
      apply (NoDup_fmap_eq display_name (available_devices a)); try done.
      by rewrite Hn'.
    + rewrite find_None_elem in E. specialize (E d Hd).
      apply not_true_iff_false in E. destruct E. by apply Hname.
  - intros Hnone. unfold a'. rewrite Hsel.
    assert (List.find (has_display_name name) (available_devices a) = None)
      as ->; [|done].
    apply find_None_elem. intros x Hx. apply not_true_is_false.
    rewrite Hname. by apply Hnone.
Qed.

Lemma on_device_selected_first_with_name_witness :
  let a :=
    _perform_populate_devices_async ∅ (PsArray [twin "1"; twin "2"])
      (app_with ∅) in
  current_selected_device_id
    (on_device_selected "Mouse X [1234:ABCD]" a).1
  = Some "USB\VID_1234&PID_ABCD\1".
Proof.
  intros a.
  destruct (on_device_selected_first_with_name "Mouse X [1234:ABCD]" a)
    as (H & _).
  apply (H [] {| display_name := "Mouse X [1234:ABCD]";
                 id := "USB\VID_1234&PID_ABCD\1";
                 hardware_id := Some [];
                 vid_pid_key := Some "1234:ABCD";
                 full_info := twin "1" |}
           [{| display_name := "Mouse X [1234:ABCD]";
               id := "USB\VID_1234&PID_ABCD\2";
               hardware_id := Some [];
               vid_pid_key := Some "1234:ABCD";
               full_info := twin "2" |}]).
  - by vm_compute.
  - reflexivity.
  - intros x Hx. by apply elem_of_nil in Hx.
Defined.

Example twins_share_a_display_name :
  display_name
  <$> get_input_devices_by_instance_id_pattern ∅ (PsArray [twin "1"; twin "2"])
  = ["Mouse X [1234:ABCD]"; "Mouse X [1234:ABCD]"].
Proof. by vm_compute. Qed.

(** X14. The edit dialog changes the database only when a device with a
    key is selected and the user saves; it then edits the name of that
    device's key. Hence every key the dialog adds to the database is a
    well-formed key, and a database whose keys are well formed keeps such
    keys; cancelling, or having nothing editable selected, changes
    neither memory nor file. *)
Theorem edit_dialog_guards :
  ∀ (device_database : gmap string string) (out : ps_output)
    (action : dialog_action) (a : UsbDeviceControllerApp) (fs : disk),
    available_devices a
    = get_input_devices_by_instance_id_pattern device_database out
    → let o := (_open_edit_name_dialog action a fs).1 in
      (o = nothing_done a fs
       ∨ ∃ text key d,
           action = ClickSave text
           ∧ d ∈ available_devices a
           ∧ device_combobox a = ComboName (display_name d)
           ∧ vid_pid_key d = Some key
           ∧ o = save_and_close text key a fs)
      ∧ (action = ClickCancel → o = nothing_done a fs)
      ∧ (∀ k, is_Some (device_db (app_after o) !! k)
              → is_Some (device_db a !! k) ∨ well_formed_key k)
      ∧ ((∀ k, is_Some (device_db a !! k) → well_formed_key k)
         → ∀ k, is_Some (device_db (app_after o) !! k) → well_formed_key k).
Proof.
  intros db out action a fs Hdir o.
  assert (Hcases : o = nothing_done a fs
       ∨ ∃ text key d,
           action = ClickSave text
           ∧ d ∈ available_devices a
           ∧ device_combobox a = ComboName (display_name d)
           ∧ vid_pid_key d = Some key
           ∧ o = save_and_close text key a fs).
  { unfold o, _open_edit_name_dialog.
    destruct (device_combobox a) as [[|c n]|] eqn:Hc; try by left.
    destruct (List.find _ _) as [d|] eqn:Hf; [|by left].
    apply find_Some_elem in Hf as [Hd Hn].
    apply String.eqb_eq in Hn.
    destruct (vid_pid_key d) as [[|c' k]|] eqn:Hk; try by left.
    destruct action as [text|]; [|by left].
    right. exists text, (String c' k), d. by rewrite Hn. }
  assert (Hkeys : ∀ k, is_Some (device_db (app_after o) !! k)
                       → is_Some (device_db a !! k) ∨ well_formed_key k).
  { intros k Hk. destruct Hcases as [Ho|(text & key & d & _ & Hd & _ & Hkey & Ho)].
    - rewrite Ho in Hk. by left.
    - rewrite Ho in Hk. apply save_and_close_key in Hk as [->|?]; [|by left].
      right. rewrite Hdir in Hd.
      by destruct (directory_entry_key_well_formed db out d key Hd Hkey). }
  split_and!; try done.
  - intros ->. unfold o, _open_edit_name_dialog.
    destruct (device_combobox a) as [[|c n]|]; try done.
    destruct (List.find _ _) as [d|]; [|done].
    by destruct (vid_pid_key d) as [[|c' k]|].
  - intros Hwf k Hk. destruct (Hkeys k Hk); [by apply Hwf | done].
Qed.

Lemma edit_dialog_guards_witness :
  let a :=
    (on_device_selected "Mouse X [1234:ABCD]"
       (_perform_populate_devices_async ∅ (PsObject mouse_x) (app_with ∅))).1 in
  let o := (_open_edit_name_dialog (ClickSave "My Mouse") a no_file).1 in
  o = nothing_done a no_file
  ∨ ∃ text key d,
      ClickSave "My Mouse" = ClickSave text
      ∧ d ∈ available_devices a
      ∧ device_combobox a = ComboName (display_name d)
      ∧ vid_pid_key d = Some key
      ∧ o = save_and_close text key a no_file.
Proof.
  intros a o.
  destruct (edit_dialog_guards ∅ (PsObject mouse_x) (ClickSave "My Mouse")
              a no_file) as [H _].
  - reflexivity.
  - exact H.
Defined.

Example edit_dialog_saves_for_selected_key :
  let a :=
    (on_device_selected "Mouse X [1234:ABCD]"
       (_perform_populate_devices_async ∅ (PsObject mouse_x) (app_with ∅))).1 in
  device_db
    (app_after (_open_edit_name_dialog (ClickSave "My Mouse") a no_file).1)
  !! "1234:ABCD" = Some "My Mouse"
  ∧ (_open_edit_name_dialog (ClickSave "My Mouse") a no_file).2
    = [DialogOpened "1234:ABCD" ""]
  ∧ (_open_edit_name_dialog (ClickSave "My Mouse") (app_with ∅) no_file).2
    = [WarnSelectFirst].
Proof. by vm_compute. Qed.

(** ** Refreshing the list *)

Section Refresh.

Lemma refresh_branch out a :
  refresh out a
  = let a1 := _perform_populate_devices_async (device_db a) out a in
    match selectDevice
            (get_input_devices_by_instance_id_pattern (device_db a) out)
            (current_selected_device_id a) with
    | Some d => select_dev d a1
    | None => select_none a1
    end.
Proof.
  unfold refresh.
  by rewrite (update_populate_gui_branch (device_db a) out).
Qed.

Lemma select_dev_events db out d a :
  d ∈ get_input_devices_by_instance_id_pattern db out
  → (select_dev d a).2 = [StatusCheckStarted (id d)]
    ∧ status_label_text (select_dev d a).1 = StatusRefreshing.
Proof.
  intros Hd%directory_id_nonempty.
  unfold select_dev, update_selected_device_status. cbn.
  by destruct (id d).
Qed.

End Refresh.

(** X15. After a refresh the application shows the directory built from
    its database and the devices just enumerated. If that directory is
    empty (in particular when the enumeration failed, returned nothing or
    returned text that is not JSON), nothing is selected, the combobox
    shows the "no devices" text and the buttons are disabled; otherwise
    the selection is the instance id of an entry of the directory, the
    combobox shows that entry's display name, the buttons are enabled and
    a status check for that device is started. *)
Theorem refresh_selection_valid :
  ∀ (out : ps_output) (a : UsbDeviceControllerApp),
    let a' := (refresh out a).1 in
    available_devices a'
    = get_input_devices_by_instance_id_pattern (device_db a) out
    ∧ device_db a' = device_db a
    ∧ (available_devices a' = []
       → current_selected_device_id a' = None
         ∧ device_combobox a' = ComboNoDevices
         ∧ buttons_enabled a' = false
         ∧ status_label_text a' = StatusNotSelected
         ∧ (refresh out a).2 = [])
    ∧ (available_devices a' ≠ []
       → ∃ d, d ∈ available_devices a'
              ∧ current_selected_device_id a' = Some (id d)
              ∧ device_combobox a' = ComboName (display_name d)
              ∧ buttons_enabled a' = true
              ∧ (refresh out a).2 = [StatusCheckStarted (id d)])
    ∧ (records_of out = [] → available_devices a' = []).
Proof.
  intros out a a'. unfold a'. rewrite refresh_branch. cbn zeta.
  set (dir := get_input_devices_by_instance_id_pattern (device_db a) out).
  set (a1 := _perform_populate_devices_async (device_db a) out a).
  destruct (selectDevice dir (current_selected_device_id a)) as [d|] eqn:Hsel.
  - assert (Hd : d ∈ dir) by by eapply selectDevice_elem.
    destruct (select_dev_result d a1) as (Hc & Hn & Hav & Hdb & Hb).
    destruct (select_dev_events (device_db a) out d a1 Hd) as [Hev _].
    rewrite Hav, Hdb. change (available_devices a1) with dir.
    split_and!; try done.
    + intros He. rewrite He in Hd. by apply elem_of_nil in Hd.
    + intros _. by exists d.
    + intros Hr. exfalso.
      assert (dir = []) as He; [|rewrite He in Hd; by apply elem_of_nil in Hd].
      unfold dir. destruct out; cbn [records_of] in Hr; try done.
      by rewrite Hr.
  - apply selectDevice_None in Hsel.
    change (available_devices (select_none a1).1) with dir.
    by split_and!.
Qed.

Lemma refresh_selection_valid_witness :
  let a' := (refresh (PsArray [twin "1"; twin "2"]) (app_with ∅)).1 in
  ∃ d, d ∈ available_devices a'
       ∧ current_selected_device_id a' = Some (id d)
       ∧ device_combobox a' = ComboName (display_name d)
       ∧ buttons_enabled a' = true
       ∧ (refresh (PsArray [twin "1"; twin "2"]) (app_with ∅)).2
         = [StatusCheckStarted (id d)].
Proof.
  intros a'.
  destruct (refresh_selection_valid (PsArray [twin "1"; twin "2"]) (app_with ∅))
    as (_ & _ & _ & H & _).
  apply H. by vm_compute.
Defined.

(** X16. A refresh keeps the selection on a device that is still
    reported: if the selected instance id is the instance id of one of
    the enumerated records, the same id is selected afterwards, under the
    display name the entry now has. If no enumerated record has the
    selected id, the selection moves to the first entry of the new
    directory, or to nothing when the directory is empty. *)
Theorem refresh_keeps_selection :
  ∀ (out : ps_output) (a : UsbDeviceControllerApp) (i : string),
    current_selected_device_id a = Some i
    → i ≠ ""
    → let a' := (refresh out a).1 in
      (∀ r, r ∈ records_of out
            → InstanceId r = Some i
            → current_selected_device_id a' = Some i
              ∧ ∃ d, d ∈ available_devices a' ∧ id d = i
                     ∧ device_combobox a' = ComboName (display_name d))
      ∧ ((∀ r, r ∈ records_of out → InstanceId r ≠ Some i)
         → current_selected_device_id a'
           = id <$> head (available_devices a')).
Proof.
  intros out a i Hcur Hi a'.
  assert (Hav : available_devices a'
                = get_input_devices_by_instance_id_pattern (device_db a) out).
  { unfold a'. rewrite refresh_branch. cbn zeta.
    destruct (selectDevice _ _) as [d|]; [|done].
    by destruct (select_dev_result d
      (_perform_populate_devices_async (device_db a) out a)) as (_&_&->&_). }
  split.
  - intros r Hr Hid.
    destruct (directory_covers (device_db a) out r Hr) as (d & Hd & Hrd).
    { rewrite Hid. by destruct i. }
    assert (Hdi : id d = i) by congruence.
    assert (Hsel : selectDevice
              (get_input_devices_by_instance_id_pattern (device_db a) out)
              (Some i) = Some d).
    { unfold selectDevice. cbn [mbind option_bind].
      by rewrite (find_NoDup_id i _ d (directory_NoDup (device_db a) out) Hd Hdi). }
    unfold a' in *. rewrite refresh_branch in *. cbn zeta in *.
    rewrite Hcur, Hsel in *.
    destruct (select_dev_result d
      (_perform_populate_devices_async (device_db a) out a)) as (Hc & Hn & _).
    split; [by rewrite Hc, Hdi|]. exists d. by rewrite Hav.
  - intros Hnone. rewrite Hav.
    unfold a'. rewrite refresh_branch. cbn zeta. rewrite Hcur.
    assert (Hfind : List.find (λ d, bool_decide (id d = i))
              (get_input_devices_by_instance_id_pattern (device_db a) out)
            = None).
    { apply find_None_elem. intros d Hd. apply bool_decide_eq_false_2.
      intros Hdi.
      apply directory_elem_of in Hd as (r & Hr & Hm).
      apply make_device_Some in Hm as (Hfull & Hrid & _).
      apply (Hnone r); [|by rewrite Hrid, Hdi].
      destruct out; try (by apply elem_of_nil in Hr); cbn [records_of].
      - apply first_occurrences_elem in Hr as (j & Hj & _).
        by eapply list_elem_of_lookup_2.
      - apply first_occurrences_elem in Hr as (j & Hj & _).
        by eapply list_elem_of_lookup_2. }
    unfold selectDevice. cbn [mbind option_bind]. rewrite Hfind.
    destruct (get_input_devices_by_instance_id_pattern (device_db a) out)
      as [|d l] eqn:Hdir; [done|].
    cbn [head]. by destruct (select_dev_result d
      (_perform_populate_devices_async (device_db a) out a)) as (-> & _).
Qed.

Lemma refresh_keeps_selection_witness :
  let a := (refresh (PsArray [twin "2"]) (app_with ∅)).1 in
  let a' := (refresh (PsArray [twin "1"; twin "2"]) a).1 in
  current_selected_device_id a' = Some "USB\VID_1234&PID_ABCD\2"
  ∧ ∃ d, d ∈ available_devices a' ∧ id d = "USB\VID_1234&PID_ABCD\2"
         ∧ device_combobox a' = ComboName (display_name d).
Proof.
  intros a a'.
  destruct (refresh_keeps_selection (PsArray [twin "1"; twin "2"]) a
              "USB\VID_1234&PID_ABCD\2") as [H _].
  - reflexivity.
  - discriminate.
  - apply (H (twin "2")).
    + right. left.
    + reflexivity.
Defined.

(** ** Running commands *)

(** X17. [run_as_admin] reports return code 0 only for a process that
    really exited with code 0, and in the PowerShell mode only when the
    temporary file with its output was read; the text returned is then
    the output. Every other result carries a message that is not empty,
    and without PowerShell a failing command returns no output at all.
    The temporary file is left behind exactly when it was created, is
    still there at the end and cannot be removed. *)
Theorem run_as_admin_success_is_real :
  (∀ (p : proc_outcome) out err rc,
     run_as_admin_direct p = (out, err, rc)
     → (rc = 0%Z → ∃ se, p = Exited 0 out se ∧ err = Verbatim se)
       ∧ (rc ≠ 0%Z → out = "" ∧ is_empty_message err = false))
  ∧ (∀ (r : powershell_run) out err rc left_behind,
       run_as_admin_powershell r = (out, err, rc, left_behind)
       → (rc = 0%Z
          → creation r = Created
            ∧ ∃ so se removable,
                proc r = Exited 0 so se
                ∧ temp_after r = Present (Some out) removable
                ∧ err = Verbatim se)
         ∧ (rc ≠ 0%Z → is_empty_message err = false)
         ∧ (left_behind = true
            ↔ creation r = Created
              ∧ ∃ text, temp_after r = Present text false)).
Proof.
  split.
  - intros p out err rc. unfold run_as_admin_direct.
    destruct p as [rc' so se| |].
    + destruct (Z.eqb_spec rc' 0) as [->|Hrc]; intros [= <- <- <-].
      * split; [|done]. intros _. by exists se.
      * split; [done|]. intros _. split; [done|].
        unfold stderr_or_unknown. by destruct se.
    + intros [= <- <- <-]. by split.
    + intros [= <- <- <-]. by split.
  - intros [c p t] out err rc left_behind.
    unfold run_as_admin_powershell, left_after_cleanup, stderr_or_unknown.
    cbn [creation proc temp_after].
    destruct c, p as [rc' so se| |], t as [|[text|] [|]];
      try destruct (Z.eqb_spec rc' 0) as [->|Hrc];
      try destruct se;
      cbn; intros [= <- <- <- <-]; (split_and!; [try done..|]).
    all: try (split; [done | by intros [? [? ?]]]).
    all: try (split; [intros _; split; [done | by eexists] | done]).
    all: try (intros _; split; [done|]; by do 3 eexists).
Qed.

Lemma run_as_admin_success_is_real_witness :
  let r := {| creation := Created;
              proc := Exited 0 "" "";
              temp_after := Present (Some "{}") true |} in
  creation r = Created
  ∧ ∃ so se removable,
      proc r = Exited 0 so se
      ∧ temp_after r = Present (Some "{}") removable
      ∧ Verbatim "" = Verbatim se.
Proof.
  intros r.
  destruct run_as_admin_success_is_real as [_ H].
  destruct (H r "{}" (Verbatim "") 0%Z false) as (H0 & _).
  - reflexivity.
  - apply H0. reflexivity.
Defined.

(** X18. [get_device_status], with the command it runs: the answer is
    "enabled" or "disabled" only if the temporary file was created, the
    PowerShell process exited with code 0 and the file was read and held
    text that decodes to an object or to a list that starts with an
    object; the answer is then the classification of that object. When
    PowerShell is missing, fails or leaves no readable output, the answer
    is "unknown". *)
Theorem get_device_status_of_run_known :
  ∀ (json_loads : string → option payload) (r : powershell_run),
    (get_device_status_of_run json_loads r).1 ≠ unknown
    → creation r = Created
      ∧ ∃ so se text removable d,
          proc r = Exited 0 so se
          ∧ temp_after r = Present (Some text) removable
          ∧ text ≠ ""
          ∧ (json_loads text = Some (PDict d)
             ∨ ∃ rest, json_loads text = Some (PList (PDict d :: rest)))
          ∧ (get_device_status_of_run json_loads r).1 = status_of_props d.
Proof.
  intros loads r.
  unfold get_device_status_of_run, run_as_admin_powershell.
  destruct (creation r); [|done..].
  destruct (proc r) as [rc so se| |]; [|done..].
  destruct (Z.eqb_spec rc 0) as [->|Hrc].
  - destruct (temp_after r) as [|[text|] rm]; [done| |done].
    unfold get_device_status.
    destruct text as [|c t]; [done|]. cbn [Z.eqb andb Py.truthy].
    destruct (loads (String c t)) as [[d|[|[d| |] rest]|]|] eqn:Hl; try done.
    + intros _. split; [done|]. exists so, se, (String c t), rm, d.
      split_and!; try done. by left.
    + intros _. split; [done|]. exists so, se, (String c t), rm, d.
      split_and!; try done. right. by exists rest.
  - unfold get_device_status.
    apply Z.eqb_neq in Hrc. by rewrite Hrc.
Qed.

Lemma get_device_status_of_run_known_witness :
  let json_loads := λ _ : string, Some (PDict {["Present" := JBool false]}) in
  let r := {| creation := Created;
              proc := Exited 0 "" "";
              temp_after := Present (Some "{...}") true |} in
  creation r = Created
  ∧ ∃ so se text removable d,
      proc r = Exited 0 so se
      ∧ temp_after r = Present (Some text) removable
      ∧ text ≠ ""
      ∧ (json_loads text = Some (PDict d)
         ∨ ∃ rest, json_loads text = Some (PList (PDict d :: rest)))
      ∧ (get_device_status_of_run json_loads r).1 = status_of_props d.
Proof.
  intros json_loads r.
  apply (get_device_status_of_run_known json_loads r).
  by vm_compute.
Defined.

(** X19. The buttons "disable" and "enable" run nothing when no device
    is selected: a warning is shown and the state stays as it is. With a
    device selected exactly one command is run, [pnputil /disable-device]
    or [pnputil /enable-device] with the selected instance id; the
    success box is shown exactly when the process exited with code 0, the
    error box otherwise, which always has a STDERR line and never a
    STDOUT line; then a status check of the same device is started, with
    the selection, the directory and the database unchanged. *)
Theorem toggle_selected_device_behaviour :
  ∀ (subprocess_run : list string → proc_outcome) (action : string)
    (a : UsbDeviceControllerApp),
    let a' := (toggle_selected_device subprocess_run action a).1 in
    let evs := (toggle_selected_device subprocess_run action a).2 in
    (Py.truthy (current_selected_device_id a) = false
     → a' = a ∧ evs = [WarnNothingSelected action])
    ∧ (∀ i, current_selected_device_id a = Some i
            → i ≠ ""
            → let command := ["pnputil"; "/" +:+ action +:+ "-device"; i] in
              (∃ box, evs = [Ran command; box; Refresh (StatusCheckStarted i)]
                ∧ (∀ so se, subprocess_run command = Exited 0 so se
                            → box = InfoSuccess action i (stripped_if_any so))
                ∧ ((∀ so se, subprocess_run command ≠ Exited 0 so se)
                   → ∃ rc msg, rc ≠ 0%Z
                               ∧ box = ErrorOperation action i rc None (Some msg)))
              ∧ current_selected_device_id a' = Some i
              ∧ available_devices a' = available_devices a
              ∧ device_db a' = device_db a
              ∧ status_label_text a' = StatusRefreshing
              ∧ buttons_enabled a' = false).
Proof.
  intros subprocess_run action a a' evs.
  unfold a', evs, toggle_selected_device.
  split.
  - by destruct (current_selected_device_id a) as [[|]|].
  - intros i Hcur Hi. destruct i as [|c i]; [done|]. cbn zeta.
    unfold toggle_device_status, update_selected_device_status,
      run_as_admin_direct.
    rewrite Hcur.
    destruct (subprocess_run _) as [rc so se| |] eqn:Hrun.
    + destruct (Z.eqb_spec rc 0) as [->|Hrc].
      * cbn. split_and!; try done. eexists. split_and!; [done | |].
        -- by intros so' se' [= -> ->].
        -- intros Hno. by destruct (Hno so se).
      * apply Z.eqb_neq in Hrc as Hrc'. cbn. rewrite Hrc'.
        split_and!; try done. eexists. split_and!; [done | |].
        -- intros so' se' [= -> _ _]. done.
        -- intros _. unfold stderr_or_unknown.
           destruct se as [|c' se]; cbn;
             (do 2 eexists; split; [|reflexivity]; done).
    + cbn. split_and!; try done. eexists. split_and!; [done | done |].
      intros _. do 2 eexists. split; [|reflexivity]. done.
    + cbn. split_and!; try done. eexists. split_and!; [done | done |].
      intros _. do 2 eexists. split; [|reflexivity]. done.
Qed.

Lemma toggle_selected_device_behaviour_witness :
  let subprocess_run := λ _ : list string, Exited 0 "ok " "" in
  let a := (refresh (PsObject mouse_x) (app_with ∅)).1 in
  ∃ box,
    (disable_selected_device subprocess_run a).2
    = [Ran ["pnputil"; "/disable-device"; "USB\VID_1234&PID_ABCD\0"]; box;
       Refresh (StatusCheckStarted "USB\VID_1234&PID_ABCD\0")]
    ∧ (∀ so se, Exited 0 "ok " "" = Exited 0 so se
                → box = InfoSuccess "disable" "USB\VID_1234&PID_ABCD\0"
                          (stripped_if_any so))
    ∧ ((∀ so se, Exited 0 "ok " "" ≠ Exited 0 so se)
       → ∃ rc msg,
           rc ≠ 0%Z
           ∧ box = ErrorOperation "disable" "USB\VID_1234&PID_ABCD\0" rc None
                     (Some msg)).
Proof.
  intros subprocess_run a.
  destruct (toggle_selected_device_behaviour subprocess_run "disable" a)
    as [_ H].
  destruct (H "USB\VID_1234&PID_ABCD\0") as [Hbox _].
  - reflexivity.
  - discriminate.
  - exact Hbox.
Defined.

(** ** Placing a window *)

(** X20. [center_window] puts the window in the middle of the screen:
    the margins left and right of it differ by at most one pixel, and so
    do the margins above and below. A window that is not larger than the
    screen is placed entirely on the screen. *)
Theorem center_window_centred :
  ∀ width height screenwidth screenheight : Z,
    let x := (center_window width height screenwidth screenheight).1 in
    let y := (center_window width height screenwidth screenheight).2 in
    (-1 ≤ (screenwidth - (x + width)) - x ≤ 1)%Z
    ∧ (-1 ≤ (screenheight - (y + height)) - y ≤ 1)%Z
    ∧ ((width ≤ screenwidth)%Z → (0 ≤ x ∧ x + width ≤ screenwidth)%Z)
    ∧ ((height ≤ screenheight)%Z → (0 ≤ y ∧ y + height ≤ screenheight)%Z).
Proof.
  intros w h sw sh. unfold center_window. cbn [fst snd].
  pose proof (Z.div_mod w 2 ltac:(lia)).
  pose proof (Z.div_mod h 2 ltac:(lia)).
  pose proof (Z.div_mod sw 2 ltac:(lia)).
  pose proof (Z.div_mod sh 2 ltac:(lia)).
  pose proof (Z.mod_pos_bound w 2 ltac:(lia)).
  pose proof (Z.mod_pos_bound h 2 ltac:(lia)).
  pose proof (Z.mod_pos_bound sw 2 ltac:(lia)).
  pose proof (Z.mod_pos_bound sh 2 ltac:(lia)).
  lia.
Qed.

Lemma center_window_centred_witness :
  (0 ≤ (center_window 450 200 1920 1080).1
   ∧ (center_window 450 200 1920 1080).1 + 450 ≤ 1920)%Z.
Proof.
  destruct (center_window_centred 450 200 1920 1080) as (_ & _ & H & _).
  apply H. lia.
Defined.

(** ** Starting without a usable database *)

(** X21. When the database file is missing, cannot be read or does not
    hold JSON, the database loaded is empty, so every device of the
    directory built from it is shown under its default name: the
    friendly name, else the description, else the instance identifier,
    with the key added when the device has one. *)
Theorem unusable_database_gives_default_names :
  ∀ (fs : disk) (db : gmap string string) (out : ps_output) (d : device),
    (∀ db0, db_file fs ≠ Some (Ok db0))
    → (load_device_database fs).1 = Ok db
    → d ∈ get_input_devices_by_instance_id_pattern db out
    → db = ∅ ∧ display_name d = default_name d.
Proof.
  intros fs db out d Hfile Hload Hd.
  assert (db = ∅) as ->.
  { unfold load_device_database, os_path_exists, open_and_load in Hload.
    destruct (db_file fs) as [[db0|[]]|]; try by injection Hload.
    by destruct (Hfile db0). }
  split; [done|].
  rewrite (directory_entry_name _ _ _ Hd). unfold default_name.
  by destruct (vid_pid_key d).
Qed.

Lemma unusable_database_gives_default_names_witness :
  let fs := {| db_file := Some (Raise JSONDecodeError); write_fault := None |} in
  let d := mouse_x_entry "Mouse X [1234:ABCD]" in
  (∅ : gmap string string) = ∅ ∧ display_name d = default_name d.
Proof.
  intros fs d.
  apply (unusable_database_gives_default_names fs ∅ (PsObject mouse_x) d).
  - intros db0. discriminate.
  - reflexivity.
  - vm_compute. left.
Defined.
